(** * Network construction and bounding-box filtering

    A shallow embedding of the GTFS network pipeline of the backend:

    - [backend/gtfs/build_network.py]: [haversine_km], [build_aston_network];
    - [backend/server.py]: [filter_network_by_bbox].

    Python floats are IEEE binary64 numbers, modelled by Rocq's primitive
    floats.  Python integers are unbounded, modelled by [Z].  Sets of strings
    and dictionaries used only for lookup are [gset string] and
    [gmap string _]; dictionaries whose key order reaches the output (the
    [meta] object) are association lists.  A raised exception is [None] in
    the option monad. *)

From Stdlib Require Import Floats ZArith.
From stdpp Require Import base option list sorting gmap strings pretty.

Set Warnings "-inexact-float,-clear-no-such-hyp".
Set Default Proof Using "Type".

(** ** Python values and the coercions the pipeline applies to them *)

(** A scalar cell of a data frame or of a JSON-like record. *)
Inductive pyval :=
  | VNone
  | VBool (b : bool)
  | VInt (z : Z)
  | VFloat (f : float)
  | VStr (s : string).

(** The parts of the Python runtime and of the C math library the code calls
    and that are not rewritten here: they are taken as they are.  A [None]
    result stands for a raised [ValueError] or [OverflowError]. *)
Class PyRuntime := {
  math_sin : float → option float;
  math_cos : float → option float;
  math_asin : float → option float;
  float_pow : float → float → option float;   (* [x ** y] on floats *)
  float_of_string : string → option float;    (* [float(s)] on a [str] *)
  int_of_string : string → option Z;          (* [int(s)] on a [str] *)
  float_repr : float → string;                (* [str(x)] on a [float] *)
  cast_float_int64 : float → Z   (* the C cast to int64 of a finite double
                                    outside the int64 range *)
}.

(** [float(n)] on an [int]: round to nearest even, [OverflowError] when the
    result is not finite. *)
Definition float_of_int (z : Z) : option float :=
  let f := SF2Prim (binary_normalize prec emax z 0 false) in
  if is_infinity f then None else Some f.

(** [int(x)] on a [float]: truncation towards zero, an error on NaN and on
    the infinities. *)
Definition int_of_float (f : float) : option Z :=
  match Prim2SF f with
  | S754_zero _ => Some 0%Z
  | S754_finite s m e =>
      let a := if (0 <=? e)%Z then (Z.pos m * 2 ^ e)%Z
               else (Z.pos m / 2 ^ (- e))%Z in
      Some (if s then (- a)%Z else a)
  | S754_infinity _ | S754_nan => None
  end.

Section Coercions.
Context {rt : PyRuntime}.

(** [float(v)]. *)
Definition py_float (v : pyval) : option float :=
  match v with
  | VNone => None
  | VBool b => Some (if b then 1 else 0)%float
  | VInt z => float_of_int z
  | VFloat f => Some f
  | VStr s => float_of_string s
  end.

(** [int(v)]. *)
Definition py_int (v : pyval) : option Z :=
  match v with
  | VNone => None
  | VBool b => Some (if b then 1 else 0)%Z
  | VInt z => Some z
  | VFloat f => int_of_float f
  | VStr s => int_of_string s
  end.

(** [str(v)]. *)
Definition py_str (v : pyval) : string :=
  match v with
  | VNone => "None"
  | VBool b => if b then "True" else "False"
  | VInt z => pretty z
  | VFloat f => float_repr f
  | VStr s => s
  end.

(** [column.astype(float)] on one cell: a missing object becomes NaN, any
    other cell goes through [float]. *)
Definition astype_float (v : pyval) : option float :=
  match v with
  | VNone => Some nan
  | _ => py_float v
  end.
End Coercions.

(** [pd.isna(v)] on a scalar. *)
Definition pd_isna (v : pyval) : bool :=
  match v with
  | VNone => true
  | VFloat f => is_nan f
  | _ => false
  end.

(** ** Column dtypes

    A column of a data frame has one dtype.  It is the one pandas infers from
    the cells, as [pd.read_csv(path, low_memory=False)] does: the narrowest of
    bool, int64, uint64 and float64 that holds every cell, and object
    otherwise, the cells then being Python objects. *)
Inductive dtype := DBool | DInt64 | DUInt64 | DFloat64 | DObject.

Definition in_int64 (z : Z) : bool := (- 2 ^ 63 <=? z)%Z && (z <? 2 ^ 63)%Z.
Definition in_uint64 (z : Z) : bool := (0 <=? z)%Z && (z <? 2 ^ 64)%Z.

Definition is_bool_cell (v : pyval) : bool :=
  match v with VBool _ => true | _ => false end.
Definition is_int64_cell (v : pyval) : bool :=
  match v with VInt z => in_int64 z | _ => false end.
Definition is_uint64_cell (v : pyval) : bool :=
  match v with VInt z => in_uint64 z | _ => false end.
Definition is_float_cell (v : pyval) : bool :=
  match v with VFloat _ => true | _ => false end.

Definition column_dtype (cells : list pyval) : dtype :=
  match cells with
  | [] => DObject
  | _ =>
      if forallb is_bool_cell cells then DBool
      else if forallb is_int64_cell cells then DInt64
      else if forallb is_uint64_cell cells then DUInt64
      else if forallb is_float_cell cells then DFloat64
      else DObject
  end.

Definition is_numeric_dtype (dt : dtype) : bool :=
  match dt with
  | DInt64 | DUInt64 | DFloat64 => true
  | DBool | DObject => false
  end.

(** The conversion of a 64-bit integer to float64: round to nearest even. *)
Definition float_of_int64 (z : Z) : float :=
  SF2Prim (binary_normalize prec emax z 0 false).

(** The value of a cell in a row that has been cast to float64, as
    [iterrows] and [apply(axis=1)] do with the rows of a frame whose columns
    are all numeric and not all integers. *)
Definition upcast_cell (upcast : bool) (v : pyval) : pyval :=
  if upcast then
    match v with
    | VInt z => VFloat (float_of_int64 z)
    | _ => v
    end
  else v.

Section ColumnCasts.
Context {rt : PyRuntime}.

(** [column.astype(int)] on one cell of a column of dtype [dt]: the result
    is an int64.  A uint64 wraps around; a float must be finite and is
    truncated, the C cast deciding outside the range; a Python object goes
    through [int] and must fit ([OverflowError] otherwise). *)
Definition astype_int (dt : dtype) (v : pyval) : option Z :=
  match dt, v with
  | DUInt64, VInt z =>
      Some (if in_int64 z then z else (z - 2 ^ 64)%Z)
  | DFloat64, VFloat f =>
      z ← int_of_float f;
      Some (if in_int64 z then z else cast_float_int64 f)
  | _, _ =>
      z ← py_int v;
      if in_int64 z then Some z else None
  end.
End ColumnCasts.

(** ** Geometry: [haversine_km] *)

Definition ASTON_CENTER : float * float := (52.492, -1.890)%float.

(** [math.radians]: multiplication by the constant pi / 180. *)
Definition deg_to_rad : float := (3.141592653589793 / 180)%float.
Definition math_radians (x : float) : float := (x * deg_to_rad)%float.

(** [math.sqrt]: the IEEE square root, [ValueError] on a negative argument. *)
Definition math_sqrt (x : float) : option float :=
  let r := PrimFloat.sqrt x in
  if is_nan r && negb (is_nan x) then None else Some r.

Section Geometry.
Context {rt : PyRuntime}.

Definition haversine_km (a b : float * float) : option float :=
  let '(lat1, lon1) := a in
  let '(lat2, lon2) := b in
  let R := 6371.0%float in
  let dlat := math_radians (lat2 - lat1) in
  let dlon := math_radians (lon2 - lon1) in
  s1 ← math_sin (dlat / 2);
  p1 ← float_pow s1 2;
  c1 ← math_cos (math_radians lat1);
  c2 ← math_cos (math_radians lat2);
  s2 ← math_sin (dlon / 2);
  p2 ← float_pow s2 2;
  let s := (p1 + c1 * c2 * p2)%float in
  q ← math_sqrt s;
  t ← math_asin q;
  Some (2 * R * t)%float.
End Geometry.

(** ** Data model *)

(** Bounding box [(minLat, minLng, maxLat, maxLng)]. *)
Record BBox := {
  minLat : float;
  minLng : float;
  maxLat : float;
  maxLng : float
}.

(** The inclusive box test, written with chained comparisons in the filter
    and with four column comparisons in the builder. *)
Definition in_bbox (b : BBox) (lat lng : float) : bool :=
  (minLat b <=? lat)%float && (lat <=? maxLat b)%float &&
  (minLng b <=? lng)%float && (lng <=? maxLng b)%float.

(** Rows of the feed tables, one field per column the builder reads. *)
Record StopRow := {
  stop_id : pyval;
  stop_name : pyval;
  stop_lat : pyval;
  stop_lon : pyval
}.

Record RouteRow := {
  route_id : pyval;
  route_short_name : pyval;
  route_long_name : pyval;
  route_color : pyval
}.

(** A trips table without a [shape_id] column is a table whose [shape_id]
    cells are all missing: the builder treats both alike. *)
Record TripRow := {
  trip_id : pyval;
  trip_route_id : pyval;
  trip_shape_id : pyval
}.

Record StopTimeRow := {
  st_trip_id : pyval;
  st_stop_id : pyval;
  st_stop_sequence : pyval
}.

Record ShapeRow := {
  shape_id : pyval;
  shape_pt_sequence : pyval;
  shape_pt_lat : pyval;
  shape_pt_lon : pyval
}.

(** The network object.  The filter reads its input with [float(...)] and
    [str(...)], so the fields it coerces hold arbitrary scalars; a shape point
    is a sequence indexed at 0 and 1.  Every record has all its keys, as the
    builder emits them. *)
Record Stop := {
  s_id : pyval;
  s_name : pyval;
  s_lat : pyval;
  s_lng : pyval
}.

Record Route := {
  r_id : pyval;
  r_shortName : pyval;
  r_longName : pyval;
  r_color : pyval;
  r_stopIds : list pyval;
  r_shape : list (list pyval);
  r_headwayMins : pyval
}.

Inductive meta_val :=
  | MVal (v : pyval)
  | MFilter (bbox : BBox) (minStopsInArea : Z) (clipShapes : bool).

Record Network := {
  stops : list Stop;
  routes : list Route;
  meta : list (string * meta_val)
}.

(** ** Data-frame helpers *)

(** [df.groupby(key)]: the rows of each key, in their original order. *)
Definition groupby {A} (key : A → string) (rows : list A) : gmap string (list A) :=
  foldr (λ r g, <[key r := r :: default [] (g !! key r)]> g) ∅ rows.

(** [df.sort_values(column)] on an integer column.  Rows with equal keys
    come out in some order; the properties below depend on the result being
    sorted and a permutation of the input only. *)
Definition seq_le {A} (x y : Z * A) : Prop := (x.1 ≤ y.1)%Z.

#[global] Instance seq_le_dec {A} : RelDecision (@seq_le A) :=
  λ x y, decide (x.1 ≤ y.1)%Z.

Definition sort_by_seq {A} (rows : list (Z * A)) : list (Z * A) :=
  merge_sort seq_le rows.

(** A shapes row after the casts of step 4: [shape_id] as a string,
    [shape_pt_sequence] as an integer, the coordinates as floats. *)
Record ShapeX := {
  shx_id : string;
  shx_seq : Z;
  shx_lat : float;
  shx_lon : float
}.

(** [df.sort_values(["shape_id", "shape_pt_sequence"])]: lexicographic, the
    strings compared code point by code point. *)
Definition shape_leb (x y : ShapeX) : bool :=
  String.ltb (shx_id x) (shx_id y) ||
  (String.eqb (shx_id x) (shx_id y) && (shx_seq x <=? shx_seq y)%Z).

Definition sort_shapes (rows : list ShapeX) : list ShapeX :=
  merge_sort (λ x y, Is_true (shape_leb x y)) rows.

(** [d.update({k: v})] on an insertion-ordered dictionary: an existing key
    keeps its place, a new key goes last. *)
Fixpoint dict_update {V} (k : string) (v : V) (d : list (string * V)) : list (string * V) :=
  match d with
  | [] => [(k, v)]
  | (k', v') :: d' =>
      if decide (k' = k) then (k, v) :: d' else (k', v') :: dict_update k v d'
  end.

(** ** The network builder: [build_aston_network] *)

(** A stops row with the columns [lat], [lng] and [dist_km] the builder adds. *)
Record StopX := {
  sx_row : StopRow;
  sx_lat : float;
  sx_lng : float;
  sx_dist_km : float
}.

Section Builder.
Context {rt : PyRuntime}.

(** Lines 34-39: the float casts and the distance column. *)
Definition add_columns (r : StopRow) : option StopX :=
  lat ← astype_float (stop_lat r);
  lng ← astype_float (stop_lon r);
  d ← haversine_km (lat, lng) ASTON_CENTER;
  Some {| sx_row := r; sx_lat := lat; sx_lng := lng; sx_dist_km := d |}.

(** Lines 53-55: the distance column, computed again. *)
Definition refresh_dist (s : StopX) : option StopX :=
  d ← haversine_km (sx_lat s, sx_lng s) ASTON_CENTER;
  Some {| sx_row := sx_row s; sx_lat := sx_lat s; sx_lng := sx_lng s;
          sx_dist_km := d |}.

(** [set(df["stop_id"].astype(str).tolist())]. *)
Definition stop_ids_of (stops : list StopX) : gset string :=
  list_to_set ((λ s, py_str (stop_id (sx_row s))) <$> stops).

(** Lines 45-56: the region test. *)
Definition select_near (bbox : option BBox) (buffer_km : float)
    (stops : list StopX) : option (list StopX) :=
  match bbox with
  | Some b => Some (filter (λ s, in_bbox b (sx_lat s) (sx_lng s)) stops)
  | None =>
      stops' ← mapM refresh_dist stops;
      Some (filter (λ s, (sx_dist_km s <=? buffer_km)%float) stops')
  end.

(** Lines 59-62: the trip ids of the stop-times whose stop is in
    [stop_id_set]. *)
Definition near_trip_ids (stop_id_set : gset string)
    (stop_times : list StopTimeRow) : gset string :=
  let st_near := filter (λ x, py_str (st_stop_id x) ∈ stop_id_set) stop_times in
  list_to_set ((λ x, py_str (st_trip_id x)) <$> st_near).

(** Lines 64-70: the candidate trips, with [trip_id] and [route_id] cast to
    strings. *)
Definition candidate_trips (trip_ids : gset string) (trips : list TripRow)
    : list TripRow :=
  let trips2 := (λ t, {| trip_id := VStr (py_str (trip_id t));
                         trip_route_id := trip_route_id t;
                         trip_shape_id := trip_shape_id t |}) <$> trips in
  let trips2 := filter (λ t, py_str (trip_id t) ∈ trip_ids) trips2 in
  (λ t, {| trip_id := trip_id t;
           trip_route_id := VStr (py_str (trip_route_id t));
           trip_shape_id := trip_shape_id t |}) <$> trips2.

(** Lines 71-75: one trip per route, the first of its group. *)
Definition route_to_trip_of (trips2 : list TripRow) : gmap string string :=
  omap (λ g : list TripRow, (λ t, py_str (trip_id t)) <$> head g)
       (groupby (λ t, py_str (trip_route_id t)) trips2).

(** Lines 78-86: the points of every shape, ordered by sequence number. *)
Definition cast_shape (dt : dtype) (r : ShapeRow) : option ShapeX :=
  seq ← astype_int dt (shape_pt_sequence r);
  lat ← astype_float (shape_pt_lat r);
  lon ← astype_float (shape_pt_lon r);
  Some {| shx_id := py_str (shape_id r); shx_seq := seq;
          shx_lat := lat; shx_lon := lon |}.

Definition shape_points_of (shapes : list ShapeRow)
    : option (gmap string (list (list pyval))) :=
  let dt := column_dtype (shape_pt_sequence <$> shapes) in
  shapes2 ← mapM (cast_shape dt) shapes;
  let shapes2 := sort_shapes shapes2 in
  Some (fmap (M := list) (λ p, [VFloat (shx_lat p); VFloat (shx_lon p)])
          <$> groupby shx_id shapes2).

(** Lines 101-104: the ordered stop ids of one trip, read from the whole
    stop-times table. *)
Definition trip_stop_ids (stop_times : list StopTimeRow) (trip : string)
    : option (list string) :=
  let st_trip := filter (λ x, py_str (st_trip_id x) = trip) stop_times in
  let dt := column_dtype (st_stop_sequence <$> stop_times) in
  st_trip ← mapM (λ x, seq ← astype_int dt (st_stop_sequence x); Some (seq, x))
              st_trip;
  let st_trip := sort_by_seq st_trip in
  Some ((λ x, py_str (st_stop_id x.2)) <$> st_trip).

(** Lines 111-116: the shape of the representative trip. *)
Definition trip_shape (trips2 : list TripRow)
    (shape_points : gmap string (list (list pyval))) (trip : string)
    : list (list pyval) :=
  let trow := filter (λ t, py_str (trip_id t) = trip) trips2 in
  let shape_id :=
    match trow with
    | t :: _ =>
        if pd_isna (trip_shape_id t) then None
        else Some (py_str (trip_shape_id t))
    | [] => None
    end in
  match shape_id with
  | Some sid => default [] (shape_points !! sid)
  | None => []
  end.

(** Lines 93-126: the body of the loop over the routes table.  The inner
    [None] is a [continue]. *)
Definition build_route (stop_id_set : gset string)
    (route_to_trip : gmap string string) (stop_times : list StopTimeRow)
    (trips2 : list TripRow) (shape_points : gmap string (list (list pyval)))
    (r : RouteRow) : option (option Route) :=
  let rid := py_str (VStr (py_str (route_id r))) in
  match route_to_trip !! rid with
  | None => Some None
  | Some trip =>
      stop_ids ← trip_stop_ids stop_times trip;
      if negb (existsb (λ sid, bool_decide (sid ∈ stop_id_set)) stop_ids)
      then Some None
      else
        let shape := trip_shape trips2 shape_points trip in
        let color := py_str (route_color r) in
        Some (Some {|
          r_id := VStr rid;
          r_shortName := VStr (py_str (route_short_name r));
          r_longName := VStr (py_str (route_long_name r));
          r_color := VStr (if decide (color = "") then "2E7D32" else color);
          r_stopIds := VStr <$> stop_ids;
          r_shape := shape;
          r_headwayMins := VNone |})
  end.

(** Whether the rows of the stops frame are cast to float64 when they are
    iterated: the frame holds the four columns the builder reads and the
    float columns it adds, so this is when the four are numeric. *)
Definition rows_upcast (stops : list StopRow) : bool :=
  is_numeric_dtype (column_dtype (stop_id <$> stops)) &&
  is_numeric_dtype (column_dtype (stop_name <$> stops)) &&
  is_numeric_dtype (column_dtype (stop_lat <$> stops)) &&
  is_numeric_dtype (column_dtype (stop_lon <$> stops)).

(** Lines 128-133: the row read through [iterrows]. *)
Definition out_stop (upcast : bool) (s : StopX) : Stop :=
  {| s_id := VStr (py_str (upcast_cell upcast (stop_id (sx_row s))));
     s_name := VStr (py_str (upcast_cell upcast (stop_name (sx_row s))));
     s_lat := VFloat (sx_lat s);
     s_lng := VFloat (sx_lng s) |}.

Definition build_aston_network
    (stops : list StopRow) (routes : list RouteRow) (trips : list TripRow)
    (stop_times : list StopTimeRow) (shapes : list ShapeRow)
    (buffer_meters : Z) (bbox : option BBox) : option Network :=
  bm ← float_of_int buffer_meters;
  let buffer_km := (bm / 1000.0)%float in
  let upcast := rows_upcast stops in
  stops ← mapM add_columns stops;
  let stops_near := stops in
  let stop_id_set := stop_ids_of stops_near in
  stops_near ← select_near bbox buffer_km stops;
  let trip_ids := near_trip_ids stop_id_set stop_times in
  let trips2 := candidate_trips trip_ids trips in
  let route_to_trip := route_to_trip_of trips2 in
  shape_points ← shape_points_of shapes;
  out_routes ← mapM (build_route stop_id_set route_to_trip stop_times trips2
                       shape_points) routes;
  let out_routes : list Route := omap id out_routes in
  let out_stops : list Stop := out_stop upcast <$> stops_near in
  Some {| stops := out_stops;
          routes := out_routes;
          meta := [("source", MVal (VStr "tfwm-gtfs"));
                   ("bufferMeters", MVal (VInt buffer_meters));
                   ("stopsReturned", MVal (VInt (Z.of_nat (length out_stops))));
                   ("routesReturned", MVal (VInt (Z.of_nat (length out_routes))))] |}.
End Builder.

(** ** The network filter: [filter_network_by_bbox] *)

Section Filter.
Context {rt : PyRuntime}.

(** The [try] block of the stops loop: both casts, or an exception. *)
Definition stop_coords (s : Stop) : option (float * float) :=
  lat ← py_float (s_lat s);
  lng ← py_float (s_lng s);
  Some (lat, lng).

(** One iteration of the stops loop on the pair
    [(keep_stop_ids, filtered_stops)]. *)
Definition scan_stop (b : BBox) (acc : gset string * list Stop) (s : Stop)
    : gset string * list Stop :=
  match stop_coords s with
  | None => acc
  | Some (lat, lng) =>
      if in_bbox b lat lng
      then ({[ py_str (s_id s) ]} ∪ acc.1, acc.2 ++ [s])
      else acc
  end.

Definition scan_stops (b : BBox) (stops : list Stop) : gset string * list Stop :=
  foldl (scan_stop b) (∅, []) stops.

(** The [try] block of the shape loop: [pt[0]] and [pt[1]] cast in turn. *)
Definition point_coords (pt : list pyval) : option (float * float) :=
  x ← pt !! 0%nat;
  plat ← py_float x;
  y ← pt !! 1%nat;
  plng ← py_float y;
  Some (plat, plng).

(** One iteration of the shape loop on [clipped]. *)
Definition clip_point (b : BBox) (clipped : list (list pyval)) (pt : list pyval)
    : list (list pyval) :=
  match point_coords pt with
  | None => clipped
  | Some (plat, plng) =>
      if in_bbox b plat plng
      then clipped ++ [[VFloat plat; VFloat plng]]
      else clipped
  end.

Definition clip_shape (b : BBox) (shape : list (list pyval)) : list (list pyval) :=
  foldl (clip_point b) [] shape.

(** [len(in_area)] for one route. *)
Definition in_area (keep_stop_ids : gset string) (r : Route) : list string :=
  let stop_ids := py_str <$> r_stopIds r in
  filter (λ sid, sid ∈ keep_stop_ids) stop_ids.

(** Lines 142-157: the copy of a surviving route. *)
Definition copy_route (b : BBox) (clip_shapes : bool) (r : Route) : Route :=
  let stop_ids := py_str <$> r_stopIds r in
  let rr := {| r_id := r_id r; r_shortName := r_shortName r;
               r_longName := r_longName r; r_color := r_color r;
               r_stopIds := VStr <$> stop_ids;
               r_shape := r_shape r;
               r_headwayMins := r_headwayMins r |} in
  if clip_shapes && negb (bool_decide (r_shape rr = [])) then
    let clipped := clip_shape b (r_shape rr) in
    if bool_decide (2 ≤ length clipped) then
      {| r_id := r_id rr; r_shortName := r_shortName rr;
         r_longName := r_longName rr; r_color := r_color rr;
         r_stopIds := r_stopIds rr;
         r_shape := clipped;
         r_headwayMins := r_headwayMins rr |}
    else rr
  else rr.

(** One iteration of the routes loop on [filtered_routes]. *)
Definition scan_route (b : BBox) (keep_stop_ids : gset string)
    (min_stops_in_area : Z) (clip_shapes : bool)
    (filtered_routes : list Route) (r : Route) : list Route :=
  if bool_decide (Z.of_nat (length (in_area keep_stop_ids r)) < min_stops_in_area)%Z
  then filtered_routes
  else filtered_routes ++ [copy_route b clip_shapes r].

Definition filter_network_by_bbox (net : Network) (bbox : BBox)
    (min_stops_in_area : Z) (clip_shapes : bool) : Network :=
  let '(keep_stop_ids, filtered_stops) := scan_stops bbox (stops net) in
  let filtered_routes :=
    foldl (scan_route bbox keep_stop_ids min_stops_in_area clip_shapes) []
          (routes net) in
  {| stops := filtered_stops;
     routes := filtered_routes;
     meta := dict_update "filter" (MFilter bbox min_stops_in_area clip_shapes)
               (meta net) |}.
End Filter.

(** ** A runtime to run examples

    The theorems below hold for every [PyRuntime].  Closed examples need one:
    this one takes the first term of each series ([sin x] and [asin x] as [x],
    [cos x] as [1]), knows the power 2 only, as one multiplication, reads no
    string as a number and prints every float as its class only. *)
Definition example_runtime : PyRuntime := {|
  math_sin := λ x, Some x;
  math_cos := λ x, Some 1%float;
  math_asin := λ x, Some x;
  float_pow := λ x y, if (y =? 2)%float then Some (x * x)%float else None;
  float_of_string := λ _, None;
  int_of_string := λ _, None;
  float_repr := λ f, if is_nan f then "nan" else "float";
  cast_float_int64 := λ _, (- 2 ^ 63)%Z
|}.

(** ** Example feeds *)

(** A feed with one stop near the centre and one far away, and a single
    route whose only trip serves the far stop alone. *)
Module FarRoute.
Definition stops_table : list StopRow :=
  [ {| stop_id := VStr "A"; stop_name := VStr "Near";
       stop_lat := VFloat 52.49; stop_lon := VFloat (-1.89) |};
    {| stop_id := VStr "B"; stop_name := VStr "Far";
       stop_lat := VFloat 53.5; stop_lon := VFloat (-2.5) |} ].
Definition routes_table : list RouteRow :=
  [ {| route_id := VStr "R1"; route_short_name := VStr "X1";
       route_long_name := VStr "Far line"; route_color := VStr "" |} ].
Definition trips_table : list TripRow :=
  [ {| trip_id := VStr "T1"; trip_route_id := VStr "R1";
       trip_shape_id := VFloat nan |} ].
Definition stop_times_table : list StopTimeRow :=
  [ {| st_trip_id := VStr "T1"; st_stop_id := VStr "B";
       st_stop_sequence := VInt 1 |} ].
Definition shapes_table : list ShapeRow := [].
Definition box : BBox :=
  {| minLat := 52.4; minLng := -2.0; maxLat := 52.6; maxLng := -1.8 |}.

(** The stop and the route the builder returns for this feed and [box]. *)
Definition near_stop : Stop :=
  {| s_id := VStr "A"; s_name := VStr "Near";
     s_lat := VFloat 52.49; s_lng := VFloat (-1.89) |}.
Definition far_route : Route :=
  {| r_id := VStr "R1"; r_shortName := VStr "X1";
     r_longName := VStr "Far line"; r_color := VStr "2E7D32";
     r_stopIds := [VStr "B"]; r_shape := []; r_headwayMins := VNone |}.
End FarRoute.

(** The stops and the route of [FarRoute] with two trips on the route: T0,
    listed first, serves the far stop alone; T1 serves the near stop. *)
Module TwoTrips.
Definition trip0 : TripRow :=
  {| trip_id := VStr "T0"; trip_route_id := VStr "R1";
     trip_shape_id := VFloat nan |}.
Definition trip1 : TripRow :=
  {| trip_id := VStr "T1"; trip_route_id := VStr "R1";
     trip_shape_id := VFloat nan |}.
Definition trips_table : list TripRow := [trip0; trip1].
Definition stop_times_table : list StopTimeRow :=
  [ {| st_trip_id := VStr "T0"; st_stop_id := VStr "B";
       st_stop_sequence := VInt 1 |};
    {| st_trip_id := VStr "T1"; st_stop_id := VStr "A";
       st_stop_sequence := VInt 1 |} ].
End TwoTrips.

(** A feed with one route and two trips.  The first trip visits A, B, C, its
    rows out of order in the table; only B lies near the centre.  Stop and
    sequence numbers come as integers. *)
Module ThroughRoute.
Definition stops_table : list StopRow :=
  [ {| stop_id := VInt 1; stop_name := VStr "A";
       stop_lat := VFloat 53.5; stop_lon := VFloat (-2.5) |};
    {| stop_id := VInt 2; stop_name := VStr "B";
       stop_lat := VFloat 52.49; stop_lon := VFloat (-1.89) |};
    {| stop_id := VInt 3; stop_name := VStr "C";
       stop_lat := VFloat 51.5; stop_lon := VFloat (-0.1) |} ].
Definition routes_table : list RouteRow :=
  [ {| route_id := VInt 9; route_short_name := VInt 9;
       route_long_name := VStr "Through"; route_color := VStr "FF0000" |};
    {| route_id := VInt 10; route_short_name := VInt 10;
       route_long_name := VStr "No trips"; route_color := VStr "" |} ].
Definition trips_table : list TripRow :=
  [ {| trip_id := VStr "T1"; trip_route_id := VInt 9;
       trip_shape_id := VStr "S1" |};
    {| trip_id := VStr "T2"; trip_route_id := VInt 9;
       trip_shape_id := VFloat nan |} ].
Definition stop_times_table : list StopTimeRow :=
  [ {| st_trip_id := VStr "T1"; st_stop_id := VInt 3; st_stop_sequence := VInt 30 |};
    {| st_trip_id := VStr "T2"; st_stop_id := VInt 2; st_stop_sequence := VInt 1 |};
    {| st_trip_id := VStr "T1"; st_stop_id := VInt 1; st_stop_sequence := VInt 4 |};
    {| st_trip_id := VStr "T1"; st_stop_id := VInt 2; st_stop_sequence := VInt 20 |} ].
Definition shapes_table : list ShapeRow :=
  [ {| shape_id := VStr "S1"; shape_pt_sequence := VInt 2;
       shape_pt_lat := VFloat 52.49; shape_pt_lon := VFloat (-1.89) |};
    {| shape_id := VStr "S0"; shape_pt_sequence := VInt 1;
       shape_pt_lat := VInt 0; shape_pt_lon := VInt 0 |};
    {| shape_id := VStr "S1"; shape_pt_sequence := VInt 1;
       shape_pt_lat := VFloat 53.5; shape_pt_lon := VFloat (-2.5) |};
    {| shape_id := VStr "S1"; shape_pt_sequence := VInt 3;
       shape_pt_lat := VFloat 51.5; shape_pt_lon := VFloat (-0.1) |} ].
End ThroughRoute.

(** A network for the filter: stop 1 lies outside [FarRoute.box], stops 2
    and 4 inside, stop 3 has no latitude.  Route 9 has two retained stops out
    of three, route 10 none. *)
Module SmallNetwork.
Definition route9 : Route :=
  {| r_id := VStr "9"; r_shortName := VStr "9";
     r_longName := VStr "Through"; r_color := VStr "FF0000";
     r_stopIds := [VInt 1; VInt 2; VStr "4"];
     r_shape := [ [VFloat 53.5; VFloat (-2.5)];
                  [VFloat 52.49; VFloat (-1.89)];
                  [VNone; VFloat (-1.9)];
                  [VFloat 52.5];
                  [VFloat 52.5; VInt (-2); VInt 7] ];
     r_headwayMins := VNone |}.

Definition route10 : Route :=
  {| r_id := VStr "10"; r_shortName := VStr "10";
     r_longName := VStr "Elsewhere"; r_color := VStr "2E7D32";
     r_stopIds := [VInt 1; VInt 3];
     r_shape := [];
     r_headwayMins := VNone |}.

(** A route whose shape lies outside [FarRoute.box] altogether. *)
Definition outside_route : Route :=
  {| r_id := VStr "11"; r_shortName := VStr "11";
     r_longName := VStr "Outside"; r_color := VStr "2E7D32";
     r_stopIds := [VInt 2; VInt 1];
     r_shape := [ [VFloat 53.5; VFloat (-2.5)]; [VFloat 54.0; VFloat (-3.0)] ];
     r_headwayMins := VNone |}.

(** A box that holds stop 1 as well. *)
Definition wide_box : BBox :=
  {| minLat := 52.4; minLng := -2.6; maxLat := 53.6; maxLng := -1.8 |}.

Definition network : Network :=
  {| stops :=
       [ {| s_id := VInt 1; s_name := VStr "A";
            s_lat := VFloat 53.5; s_lng := VFloat (-2.5) |};
         {| s_id := VInt 2; s_name := VStr "B";
            s_lat := VFloat 52.49; s_lng := VFloat (-1.89) |};
         {| s_id := VInt 3; s_name := VStr "C";
            s_lat := VNone; s_lng := VFloat (-1.9) |};
         {| s_id := VStr "4"; s_name := VStr "D";
            s_lat := VFloat 52.5; s_lng := VInt (-2) |} ];
     routes := [route9; route10];
     meta := [("source", MVal (VStr "tfwm-gtfs"));
              ("bufferMeters", MVal (VInt 900))] |}.
End SmallNetwork.

(** ** Predicates used to state the properties *)

Section Predicates.
Context {rt : PyRuntime}.

(** A stop whose coordinates are numbers and lie in the box. *)
Definition stop_in_box (b : BBox) (s : Stop) : bool :=
  match stop_coords s with
  | Some (lat, lng) => in_bbox b lat lng
  | None => false
  end.

(** The clipped image of one shape point, when it has one. *)
Definition clip_one (b : BBox) (pt : list pyval) : option (list pyval) :=
  match point_coords pt with
  | Some (plat, plng) =>
      if in_bbox b plat plng then Some [VFloat plat; VFloat plng] else None
  | None => None
  end.

(** The clipped list as the specification words it, with no reference to
    the loop of the filter: a shape point counts when it has a first and a
    second entry that both cast to floats and the two floats lie in the
    inclusive box; it is then the pair of these floats.  The clipped list
    holds the points that count, in the order of the shape. *)
Definition boxed_point (b : BBox) (pt : list pyval) : option (list pyval) :=
  match pt with
  | x :: y :: _ =>
      match py_float x, py_float y with
      | Some plat, Some plng =>
          if (minLat b <=? plat)%float && (plat <=? maxLat b)%float &&
             (minLng b <=? plng)%float && (plng <=? maxLng b)%float
          then Some [VFloat plat; VFloat plng]
          else None
      | _, _ => None
      end
  | _ => None
  end.

Definition points_in_box (b : BBox) (shape : list (list pyval))
    : list (list pyval) :=
  omap (boxed_point b) shape.

(** A point of [shape] that reads as the numbers [plat] and [plng], inside
    the box. *)
Definition point_of_shape (b : BBox) (shape : list (list pyval))
    (plat plng : float) : Prop :=
  ∃ pt x y,
    pt ∈ shape ∧ pt !! 0%nat = Some x ∧ pt !! 1%nat = Some y ∧
    py_float x = Some plat ∧ py_float y = Some plng ∧
    (minLat b <=? plat)%float = true ∧ (plat <=? maxLat b)%float = true ∧
    (minLng b <=? plng)%float = true ∧ (plng <=? maxLng b)%float = true.


(** A stop, or a shape point, whose two coordinates can be cast. *)
Definition stop_coercible (s : Stop) : Prop := is_Some (stop_coords s).

(** The ids of the stops the filter retains. *)
Definition retained_ids (b : BBox) (net : Network) : gset string :=
  list_to_set ((λ s, py_str (s_id s)) <$> filter (λ s, stop_in_box b s) (stops net)).

(** The number of entries of [stopIds] whose stop is retained. *)
Definition retained_count (b : BBox) (net : Network) (r : Route) : Z :=
  Z.of_nat (length (filter (λ sid, sid ∈ retained_ids b net) (py_str <$> r_stopIds r))).

(** The routes of the input that pass the threshold, in input order. *)
Definition surviving_routes (b : BBox) (min_stops_in_area : Z) (net : Network)
    : list Route :=
  filter (λ r, (min_stops_in_area ≤ retained_count b net r)%Z) (routes net).

(** The full stop sequence of a trip: every stop-time row of the trip in
    the whole table, in ascending order of the 64-bit integer that
    [astype(int)] makes of its sequence number in a column of the dtype of
    the table's; that integer is the sequence number itself when the cell is
    an integer of the int64 range. *)
Definition is_trip_sequence (stop_times : list StopTimeRow) (trip : string)
    (ids : list string) : Prop :=
  ∃ rows : list (Z * StopTimeRow),
    rows.*2 ≡ₚ filter (λ x, py_str (st_trip_id x) = trip) stop_times ∧
    Forall (λ p, astype_int (column_dtype (st_stop_sequence <$> stop_times))
                   (st_stop_sequence p.2) = Some p.1) rows ∧
    Forall (λ p, ∀ z, st_stop_sequence p.2 = VInt z → in_int64 z = true →
                      p.1 = z) rows ∧
    Sorted seq_le rows ∧
    ids = (λ p, py_str (st_stop_id p.2)) <$> rows.

(** The stop sequence of a trip with its rows in ascending order of the
    sequence number as an integer of any size, [int(stop_sequence)]: the
    order of the claim read to the letter. *)
Definition is_integer_sequence (stop_times : list StopTimeRow) (trip : string)
    (ids : list string) : Prop :=
  ∃ rows : list (Z * StopTimeRow),
    rows.*2 ≡ₚ filter (λ x, py_str (st_trip_id x) = trip) stop_times ∧
    Forall (λ p, py_int (st_stop_sequence p.2) = Some p.1) rows ∧
    Sorted seq_le rows ∧
    ids = (λ p, py_str (st_stop_id p.2)) <$> rows.

(** The string ids of all the rows of the stops table. *)
Definition all_stop_ids (stops : list StopRow) : gset string :=
  list_to_set ((λ r, py_str (stop_id r)) <$> stops).

(** The stop the builder returns for a row of the stops table when the
    region is a box: none when the row lies outside. *)
Definition bbox_stop (upcast : bool) (b : BBox) (r : StopRow) : option Stop :=
  lat ← astype_float (stop_lat r);
  lng ← astype_float (stop_lon r);
  if in_bbox b lat lng
  then Some {| s_id := VStr (py_str (upcast_cell upcast (stop_id r)));
               s_name := VStr (py_str (upcast_cell upcast (stop_name r)));
               s_lat := VFloat lat; s_lng := VFloat lng |}
  else None.

(** The region test on a stop of the result: inside the box when there is
    one, else within [buffer_meters / 1000.0] kilometres of the centre. *)
Definition stop_in_region (bbox : option BBox) (buffer_meters : Z) (s : Stop)
    : Prop :=
  ∃ lat lng,
    s_lat s = VFloat lat ∧ s_lng s = VFloat lng ∧
    match bbox with
    | Some b =>
        (minLat b <=? lat)%float = true ∧ (lat <=? maxLat b)%float = true ∧
        (minLng b <=? lng)%float = true ∧ (lng <=? maxLng b)%float = true
    | None =>
        ∃ d bm,
          haversine_km (lat, lng) ASTON_CENTER = Some d ∧
          float_of_int buffer_meters = Some bm ∧
          (d <=? bm / 1000.0)%float = true
    end.

(** A route of the result that carries the whole stop sequence of the trip
    kept for it. *)
Definition has_full_sequence (stop_rows : list StopRow)
    (route_rows : list RouteRow) (trip_rows : list TripRow)
    (st_rows : list StopTimeRow) (r : Route) : Prop :=
  ∃ row trip ids,
    row ∈ route_rows ∧
    r_id r = VStr (py_str (route_id row)) ∧
    route_to_trip_of
      (candidate_trips (near_trip_ids (all_stop_ids stop_rows) st_rows)
         trip_rows) !! py_str (route_id row) = Some trip ∧
    is_trip_sequence st_rows trip ids ∧
    r_stopIds r = VStr <$> ids ∧
    length (r_stopIds r) =
      length (filter (λ x, py_str (st_trip_id x) = trip) st_rows).
End Predicates.

(** ** Further predicates on the builder's result *)

Section BuilderPredicates.
Context {rt : PyRuntime}.

(** The stop the builder returns for a row of the stops table when the
    region is the circle of [buffer_km] kilometres: none when the row lies
    farther away. *)
Definition radius_stop (upcast : bool) (buffer_km : float) (r : StopRow)
    : option Stop :=
  lat ← astype_float (stop_lat r);
  lng ← astype_float (stop_lon r);
  d ← haversine_km (lat, lng) ASTON_CENTER;
  if (d <=? buffer_km)%float
  then Some {| s_id := VStr (py_str (upcast_cell upcast (stop_id r)));
               s_name := VStr (py_str (upcast_cell upcast (stop_name r)));
               s_lat := VFloat lat; s_lng := VFloat lng |}
  else None.

Definition region_stop (upcast : bool) (bbox : option BBox) (buffer_km : float)
    (r : StopRow) : option Stop :=
  match bbox with
  | Some b => bbox_stop upcast b r
  | None => radius_stop upcast buffer_km r
  end.

(** The fields of a route of the result that are read off its row of the
    routes table. *)
Definition route_of_row (row : RouteRow) (r : Route) : Prop :=
  r_id r = VStr (py_str (route_id row)) ∧
  r_shortName r = VStr (py_str (route_short_name row)) ∧
  r_longName r = VStr (py_str (route_long_name row)) ∧
  r_color r = VStr (if decide (py_str (route_color row) = "")
                    then "2E7D32" else py_str (route_color row)) ∧
  r_headwayMins r = VNone.

(** A row of a table that makes the builder raise. *)
Definition bad_stop_row (r : StopRow) : Prop :=
  astype_float (stop_lat r) = None ∨ astype_float (stop_lon r) = None.
Definition bad_shape_row (shape_rows : list ShapeRow) (r : ShapeRow) : Prop :=
  cast_shape (column_dtype (shape_pt_sequence <$> shape_rows)) r = None.
End BuilderPredicates.

Section ShapePredicates.
Context {rt : PyRuntime}.

(** The polyline of a shape id: the points of all the rows of that id in
    the shapes table, in ascending order of the 64-bit integer that
    [astype(int)] makes of the sequence number in a column of the dtype of
    the table's. *)
Definition is_shape_polyline (shape_rows : list ShapeRow) (sid : string)
    (pts : list (list pyval)) : Prop :=
  ∃ cast rows,
    mapM (cast_shape (column_dtype (shape_pt_sequence <$> shape_rows)))
      shape_rows = Some cast ∧
    rows ≡ₚ filter (λ x, shx_id x = sid) cast ∧
    Sorted (λ x y, (shx_seq x ≤ shx_seq y)%Z) rows ∧
    pts = (λ p, [VFloat (shx_lat p); VFloat (shx_lon p)]) <$> rows.

(** A route of the result whose shape is that of the trip kept for it: the
    polyline of the [shape_id] of the first candidate row of that trip, and
    no point at all when that [shape_id] is missing. *)
Definition has_trip_shape (stop_rows : list StopRow)
    (route_rows : list RouteRow) (trip_rows : list TripRow)
    (st_rows : list StopTimeRow) (shape_rows : list ShapeRow) (r : Route)
    : Prop :=
  let trips2 :=
    candidate_trips (near_trip_ids (all_stop_ids stop_rows) st_rows) trip_rows in
  ∃ row trip t,
    row ∈ route_rows ∧
    r_id r = VStr (py_str (route_id row)) ∧
    route_to_trip_of trips2 !! py_str (route_id row) = Some trip ∧
    head (filter (λ t, py_str (trip_id t) = trip) trips2) = Some t ∧
    if pd_isna (trip_shape_id t) then r_shape r = []
    else is_shape_polyline shape_rows (py_str (trip_shape_id t)) (r_shape r).
End ShapePredicates.

(** ** Further definitions for the filter *)

(** [d.get(k)] on an insertion-ordered dictionary. *)
Fixpoint dict_get {V} (k : string) (d : list (string * V)) : option V :=
  match d with
  | [] => None
  | (k', v) :: d' => if decide (k' = k) then Some v else dict_get k d'
  end.

(** A box one of whose bounds is not a number. *)
Definition nan_box (b : BBox) : bool :=
  is_nan (minLat b) || is_nan (maxLat b) || is_nan (minLng b) || is_nan (maxLng b).

(** A network as the builder emits it: string ids, float coordinates, shape
    points that are pairs of floats. *)
Definition clean_stop (s : Stop) : Prop :=
  ∃ sid name lat lng,
    s = {| s_id := VStr sid; s_name := VStr name;
           s_lat := VFloat lat; s_lng := VFloat lng |}.

Definition clean_route (r : Route) : Prop :=
  Forall (λ x, ∃ sid, x = VStr sid) (r_stopIds r) ∧
  Forall (λ pt, ∃ lat lng, pt = [VFloat lat; VFloat lng]) (r_shape r).

Definition clean_network (net : Network) : Prop :=
  Forall clean_stop (stops net) ∧ Forall clean_route (routes net).

(** ** Loading the feed: [read_gtfs_table] and [load_gtfs] (gtfs/parse.py) *)

(** What loading raises: the [FileNotFoundError] of [read_gtfs_table], with
    its message, or whatever [pd.read_csv] raises. *)
Inductive LoadError (Exn : Type) :=
  | FileNotFoundError (msg : string)
  | ReadError (e : Exn).
Arguments FileNotFoundError {Exn} msg.
Arguments ReadError {Exn} e.

(** A computation that reads files: it threads the list of the paths
    handed to [pd.read_csv] so far, and stops at the first exception. *)
Definition Load (Exn : Type) (A : Type) : Type :=
  list string → (LoadError Exn + A) * list string.

#[global] Instance load_ret {Exn} : MRet (Load Exn) :=
  λ A x log, (inr x, log).

#[global] Instance load_bind {Exn} : MBind (Load Exn) :=
  λ A B k m log,
    match m log with
    | (inl e, log') => (inl e, log')
    | (inr x, log') => k x log'
    end.

(** The files of a feed, in the order [load_gtfs] reads them. *)
Definition gtfs_files : list string :=
  ["stops.txt"; "routes.txt"; "trips.txt"; "stop_times.txt"; "shapes.txt"].

Section Parse.
Context {DataFrame Exn : Type}.
(** [str(Path(gtfs_dir) / filename)], [path.exists()] and [pd.read_csv(path)]
    are taken as they are. *)
Variable path_join : string → string → string.
Variable path_exists : string → bool.
Variable read_csv : string → Exn + DataFrame.

Definition read_gtfs_table (gtfs_dir filename : string) : Load Exn DataFrame :=
  λ log,
    let path := path_join gtfs_dir filename in
    if negb (path_exists path)
    then (inl (FileNotFoundError ("Missing GTFS file: " +:+ path)), log)
    else match read_csv path with
         | inl e => (inl (ReadError e), log ++ [path])
         | inr df => (inr df, log ++ [path])
         end.

Definition load_gtfs (gtfs_dir : string)
    : Load Exn (DataFrame * DataFrame * DataFrame * DataFrame * DataFrame) :=
  stops ← read_gtfs_table gtfs_dir "stops.txt";
  routes ← read_gtfs_table gtfs_dir "routes.txt";
  trips ← read_gtfs_table gtfs_dir "trips.txt";
  stop_times ← read_gtfs_table gtfs_dir "stop_times.txt";
  shapes ← read_gtfs_table gtfs_dir "shapes.txt";
  mret (stops, routes, trips, stop_times, shapes).

(** A file of the feed that is there and that [pd.read_csv] reads. *)
Definition readable (gtfs_dir filename : string) : Prop :=
  path_exists (path_join gtfs_dir filename) = true ∧
  ∃ df, read_csv (path_join gtfs_dir filename) = inr df.
End Parse.

(** ** The endpoint [/api/network]: [get_network] (server.py) *)

(** What the handler hands to the framework: a body, an [HTTPException], or
    an exception it does not catch. *)
Inductive HttpResult :=
  | Ok200 (body : Network)
  | HTTPException (status_code : Z) (detail : string)
  | Unhandled.

Section Server.
Context {rt : PyRuntime} {DataFrame Exn : Type}.
Variable path_join : string → string → string.
Variable path_exists : string → bool.
Variable read_csv : string → Exn + DataFrame.
(** [str(BASE_DIR / "gtfs_data")]. *)
Variable gtfs_dir : string.
(** The rows of a data frame, as the builder reads each of the five. *)
Variable stops_of : DataFrame → list StopRow.
Variable routes_of : DataFrame → list RouteRow.
Variable trips_of : DataFrame → list TripRow.
Variable stop_times_of : DataFrame → list StopTimeRow.
Variable shapes_of : DataFrame → list ShapeRow.

Definition get_network (bufferMeters minStopsInArea : Z)
    (minLat' minLng' maxLat' maxLng' : option float) (log : list string)
    : HttpResult * list string :=
  match load_gtfs path_join path_exists read_csv gtfs_dir log with
  | (inl (FileNotFoundError e), log) => (HTTPException 400 e, log)
  | (inl (ReadError _), log) => (Unhandled, log)
  | (inr (stops, routes, trips, stop_times, shapes), log) =>
      match build_aston_network (stops_of stops) (routes_of routes)
              (trips_of trips) (stop_times_of stop_times) (shapes_of shapes)
              bufferMeters None with
      | None => (Unhandled, log)
      | Some net =>
          match minLat', minLng', maxLat', maxLng' with
          | Some a, Some b, Some c, Some d =>
              (Ok200 (filter_network_by_bbox net
                        {| minLat := a; minLng := b; maxLat := c; maxLng := d |}
                        minStopsInArea true), log)
          | _, _, _, _ => (Ok200 net, log)
          end
      end
  end.

(** The number of entries of [stopIds] that are ids of stops of the same
    network. *)
Definition served_stops (net : Network) (r : Route) : Z :=
  Z.of_nat (length (filter
    (λ sid, sid ∈ (list_to_set ((λ s, py_str (s_id s)) <$> stops net) : gset string))
    (py_str <$> r_stopIds r))).
End Server.

(** ** Fetching the feed: [_looks_like_zip] and [download_gtfs_zip]
    (gtfs/fetch.py) *)

#[global] Instance byte_eq_dec : EqDecision Byte.byte := Byte.byte_eq_dec.

Definition TFWM_GTFS_URL_HTTP : string :=
  "http://api.tfwm.org.uk/gtfs/tfwm_gtfs.zip".
Definition TFWM_GTFS_URL_HTTPS : string :=
  "https://api.tfwm.org.uk/gtfs/tfwm_gtfs.zip".

(** [len(content) >= 2 and content[0:2] == b"PK"]. *)
Definition _looks_like_zip (content : list Byte.byte) : bool :=
  bool_decide (2 ≤ length content) &&
  bool_decide (take 2 content = [Byte.x50; Byte.x4b]).

(** What the loop reads of a response. *)
Record Response := {
  status_code : Z;
  content : list Byte.byte
}.

(** One entry of [attempts]: the URL, the query parameters and [verify]. *)
Definition Attempt : Type := string * list (string * string) * bool.

(** The value of [last_err]: the two [RuntimeError]s the loop builds, whose
    messages are read off the URL and the response, or a caught exception. *)
Inductive AttemptError (Exn : Type) :=
  | Forbidden403 (url : string)
  | NotAZip (r : Response)
  | Caught (e : Exn).
Arguments Forbidden403 {Exn} url.
Arguments NotAZip {Exn} r.
Arguments Caught {Exn} e.

(** How [download_gtfs_zip] ends: it returns the path, raises its final
    [RuntimeError], or lets the exception of [mkdir] through. *)
Inductive DownloadResult (Exn : Type) :=
  | Downloaded (path : string)
  | DownloadFailed (last_err : option (AttemptError Exn))
  | MkdirRaised (e : Exn).
Arguments Downloaded {Exn} path.
Arguments DownloadFailed {Exn} last_err.
Arguments MkdirRaised {Exn} e.

Section Fetch.
Context {Exn : Type}.
(** [requests.get(url, params=..., headers=..., timeout=120, verify=...)],
    [r.raise_for_status()]'s exception, [Path(p).parent.mkdir(parents=True,
    exist_ok=True)], [open(p, "wb")] and the body of the [with] block,
    [f.write(content)] followed by the closing of the file, are taken as they
    are; [Some e] is a raised exception.  A file that opens is created or
    emptied; a write that raises leaves some bytes in it, [Some (e, partial)],
    and the exception is caught like any other of the attempt. *)
Variable requests_get : string → list (string * string) → bool → Exn + Response.
Variable HTTPError : Response → Exn.
Variable mkdir_parent : string → option Exn.
Variable open_wb : string → option Exn.
Variable file_write : string → list Byte.byte → option (Exn * list Byte.byte).

Definition attempts_of (app_id app_key : string) : list Attempt :=
  [ (TFWM_GTFS_URL_HTTP, [("app_id", app_id); ("app_key", app_key)], true);
    (TFWM_GTFS_URL_HTTP, [("app_id", app_id)], true);
    (TFWM_GTFS_URL_HTTPS, [("app_id", app_id); ("app_key", app_key)], false);
    (TFWM_GTFS_URL_HTTPS, [("app_id", app_id)], false) ].

(** The body of the [try] block for one attempt.  First component: the
    content written, when the attempt reaches [return], or the new value of
    [last_err].  Second component: the bytes the attempt leaves in the file
    at [out_zip_path], or [None] when it does not open the file. *)
Definition attempt_outcome (out_zip_path : string) (a : Attempt)
    : (AttemptError Exn + list Byte.byte) * option (list Byte.byte) :=
  let '(url, params, verify) := a in
  match requests_get url params verify with
  | inl e => (inl (Caught e), None)
  | inr r =>
      if bool_decide (status_code r = 403%Z) then (inl (Forbidden403 url), None)
      else if bool_decide (400 ≤ status_code r < 600)%Z
      then (inl (Caught (HTTPError r)), None)
      else if negb (_looks_like_zip (content r)) then (inl (NotAZip r), None)
      else match open_wb out_zip_path with
           | Some e => (inl (Caught e), None)
           | None =>
               match file_write out_zip_path (content r) with
               | Some (e, partial) => (inl (Caught e), Some partial)
               | None => (inr (content r), Some (content r))
               end
           end
  end.

(** The files after an attempt that left [file] at [out_zip_path]. *)
Definition files_after (out_zip_path : string) (file : option (list Byte.byte))
    (fs : gmap string (list Byte.byte)) : gmap string (list Byte.byte) :=
  match file with
  | Some bytes => <[out_zip_path := bytes]> fs
  | None => fs
  end.

(** The [for] loop, on the files and on the list of requests made. *)
Fixpoint download_loop (attempts : list Attempt) (out_zip_path : string)
    (last_err : option (AttemptError Exn))
    (fs : gmap string (list Byte.byte)) (log : list Attempt)
    : DownloadResult Exn * gmap string (list Byte.byte) * list Attempt :=
  match attempts with
  | [] => (DownloadFailed last_err, fs, log)
  | a :: rest =>
      let '(res, file) := attempt_outcome out_zip_path a in
      let fs := files_after out_zip_path file fs in
      match res with
      | inl err => download_loop rest out_zip_path (Some err) fs (log ++ [a])
      | inr _ => (Downloaded out_zip_path, fs, log ++ [a])
      end
  end.

Definition download_gtfs_zip (app_id app_key out_zip_path : string)
    (fs : gmap string (list Byte.byte)) (log : list Attempt)
    : DownloadResult Exn * gmap string (list Byte.byte) * list Attempt :=
  match mkdir_parent out_zip_path with
  | Some e => (MkdirRaised e, fs, log)
  | None =>
      download_loop (attempts_of app_id app_key) out_zip_path None fs log
  end.

(** What a list of attempts leaves in the file at [out_zip_path]: the bytes
    of the last attempt that opened it, if any did. *)
Definition last_file (out_zip_path : string) (attempts : list Attempt)
    : option (list Byte.byte) :=
  last (omap (λ a, (attempt_outcome out_zip_path a).2) attempts).
End Fetch.

(** ** Geometry: [haversine_m] (server.py) *)

Section GeometryMetres.
Context {rt : PyRuntime}.

Definition haversine_m (a b : float * float) : option float :=
  let '(lat1, lon1) := a in
  let '(lat2, lon2) := b in
  let R := 6371000.0%float in
  let phi1 := math_radians lat1 in
  let phi2 := math_radians lat2 in
  let dphi := math_radians (lat2 - lat1) in
  let dlambda := math_radians (lon2 - lon1) in
  s1 ← math_sin (dphi / 2);
  p1 ← float_pow s1 2;
  c1 ← math_cos phi1;
  c2 ← math_cos phi2;
  s2 ← math_sin (dlambda / 2);
  p2 ← float_pow s2 2;
  let h := (p1 + c1 * c2 * p2)%float in
  q ← math_sqrt h;
  t ← math_asin q;
  Some (2 * R * t)%float.
End GeometryMetres.

(** ** Example worlds *)

(** A feed directory whose frames are named by their paths: every file
    reads, and [trips.txt] is missing from the directory [broken]. *)
Module ExampleDir.
Definition path_join (dir file : string) : string := dir +:+ "/" +:+ file.
Definition path_exists (path : string) : bool :=
  bool_decide (path ≠ "broken/trips.txt").
Definition read_csv (path : string) : string + string := inr path.
Definition stops_of (df : string) : list StopRow :=
  if decide (df = "gtfs_data/stops.txt") then ThroughRoute.stops_table else [].
Definition routes_of (df : string) : list RouteRow :=
  if decide (df = "gtfs_data/routes.txt") then ThroughRoute.routes_table else [].
Definition trips_of (df : string) : list TripRow :=
  if decide (df = "gtfs_data/trips.txt") then ThroughRoute.trips_table else [].
Definition stop_times_of (df : string) : list StopTimeRow :=
  if decide (df = "gtfs_data/stop_times.txt")
  then ThroughRoute.stop_times_table else [].
Definition shapes_of (df : string) : list ShapeRow :=
  if decide (df = "gtfs_data/shapes.txt") then ThroughRoute.shapes_table else [].
End ExampleDir.

(** A server that answers 403 to requests with both keys, a page of text to
    the HTTP request with the id alone, and an archive to the HTTPS one. *)
Module ExampleWeb.
Definition archive : list Byte.byte :=
  [Byte.x50; Byte.x4b; Byte.x03; Byte.x04].
Definition page : list Byte.byte := [Byte.x3c; Byte.x68].
Definition requests_get (url : string) (params : list (string * string))
    (verify : bool) : string + Response :=
  if bool_decide (length params = 2%nat)
  then inr {| status_code := 403; content := archive |}
  else if verify then inr {| status_code := 200; content := page |}
  else inr {| status_code := 200; content := archive |}.
(** A server that is down. *)
Definition requests_get_down (url : string) (params : list (string * string))
    (verify : bool) : string + Response := inl "ConnectionError".
Definition HTTPError (r : Response) : string := "HTTPError".
Definition mkdir_parent (path : string) : option string := None.
Definition open_wb (path : string) : option string := None.
Definition file_write (path : string) (bytes : list Byte.byte)
    : option (string * list Byte.byte) := None.
(** A disk that fills up after two bytes. *)
Definition file_write_full (path : string) (bytes : list Byte.byte)
    : option (string * list Byte.byte) := Some ("OSError", take 2 bytes).
End ExampleWeb.

(** The stops and the route of [FarRoute] with one trip that calls at A
    and then, by the numbers, at B before it: the sequence number of A is
    2^63, beyond the int64 range, so that the column is read as uint64. *)
Module WrappedSequence.
Definition row_a : StopTimeRow :=
  {| st_trip_id := VStr "T1"; st_stop_id := VStr "A";
     st_stop_sequence := VInt (2 ^ 63) |}.
Definition row_b : StopTimeRow :=
  {| st_trip_id := VStr "T1"; st_stop_id := VStr "B";
     st_stop_sequence := VInt 1 |}.
Definition stop_times_table : list StopTimeRow := [row_a; row_b].
End WrappedSequence.

(** A stops table whose four columns are numeric: ids and names come as
    integers, coordinates as floats. *)
Module NumericStops.
Definition stops_table : list StopRow :=
  [ {| stop_id := VInt 1; stop_name := VInt 101;
       stop_lat := VFloat 52.49; stop_lon := VFloat (-1.89) |};
    {| stop_id := VInt 2; stop_name := VInt 102;
       stop_lat := VFloat 53.5; stop_lon := VFloat (-2.5) |} ].
End NumericStops.

(** A stops table with a latitude that is no number. *)
Module BadFeed.
Definition stops_table : list StopRow :=
  [ {| stop_id := VStr "A"; stop_name := VStr "Near";
       stop_lat := VStr "n/a"; stop_lon := VFloat (-1.89) |} ].
End BadFeed.

(** The example feeds and worlds, run with [example_runtime]. *)
Module Run.
Definition through_build (stop_times : list StopTimeRow) (buffer_meters : Z)
    (bbox : option BBox) : option Network :=
  build_aston_network (rt := example_runtime)
    ThroughRoute.stops_table ThroughRoute.routes_table ThroughRoute.trips_table
    stop_times ThroughRoute.shapes_table buffer_meters bbox.

Definition handler (gtfs_dir : string) (bufferMeters minStopsInArea : Z)
    (a b c d : option float) (log : list string) : HttpResult * list string :=
  get_network (rt := example_runtime)
    ExampleDir.path_join ExampleDir.path_exists ExampleDir.read_csv gtfs_dir
    ExampleDir.stops_of ExampleDir.routes_of ExampleDir.trips_of
    ExampleDir.stop_times_of ExampleDir.shapes_of
    bufferMeters minStopsInArea a b c d log.

Definition download (up : bool)
    : DownloadResult string * gmap string (list Byte.byte) * list Attempt :=
  download_gtfs_zip
    (if up then ExampleWeb.requests_get else ExampleWeb.requests_get_down)
    ExampleWeb.HTTPError ExampleWeb.mkdir_parent ExampleWeb.open_wb
    ExampleWeb.file_write
    "id" "key" "cache/tfwm_gtfs.zip" ∅ [].

(** The download with the server up and the disk full, over an old file. *)
Definition download_disk_full
    : DownloadResult string * gmap string (list Byte.byte) * list Attempt :=
  download_gtfs_zip ExampleWeb.requests_get
    ExampleWeb.HTTPError ExampleWeb.mkdir_parent ExampleWeb.open_wb
    ExampleWeb.file_write_full
    "id" "key" "cache/tfwm_gtfs.zip"
    {[ "cache/tfwm_gtfs.zip" := ExampleWeb.page ]} [].

(** The network built from [FarRoute] with its box. *)
Definition far_network : Network :=
  {| stops := [FarRoute.near_stop];
     routes := [FarRoute.far_route];
     meta := [("source", MVal (VStr "tfwm-gtfs"));
              ("bufferMeters", MVal (VInt 1500));
              ("stopsReturned", MVal (VInt 1));
              ("routesReturned", MVal (VInt 1))] |}.

Definition nan_bounds : BBox :=
  {| minLat := nan; minLng := -2.0; maxLat := 52.6; maxLng := -1.8 |}.
End Run.

(** * Properties *)

(** ** Dictionaries *)

Lemma dict_update_idemp {V} (k : string) (v : V) (d : list (string * V)) :
  dict_update k v (dict_update k v d) = dict_update k v d.
Proof.
  induction d as [|[k' v'] d IH]; simpl.
  - by rewrite decide_True.
  - destruct (decide (k' = k)) as [->|Hne]; simpl.
    + by rewrite decide_True.
    + rewrite decide_False; [|done]. by rewrite IH.
Qed.

(** ** Data frames *)

Lemma filter_fmap {A B} (P : B → Prop) `{∀ x, Decision (P x)}
    (f : A → B) (l : list A) :
  filter P (f <$> l) = f <$> filter (λ x, P (f x)) l.
Proof.
  induction l as [|x l IH]; [done|].
  rewrite fmap_cons, !filter_cons, IH. by destruct (decide (P (f x))).
Qed.

(** A group holds the rows of its key, in the order of the table; a key
    without rows has no group. *)
Lemma groupby_lookup {A} (key : A → string) (rows : list A) (k : string) :
  groupby key rows !! k =
    match filter (λ r, key r = k) rows with
    | [] => None
    | g => Some g
    end.
Proof.
  induction rows as [|r rows IH]; [done|].
  unfold groupby in *. cbn [foldr]. rewrite filter_cons.
  destruct (decide (key r = k)) as [->|Hne].
  - rewrite lookup_insert_eq, IH.
    by destruct (filter (λ r0, key r0 = k) rows).
  - by rewrite lookup_insert_ne.
Qed.

Lemma groupby_head {A} (key : A → string) (rows : list A) (k : string) :
  groupby key rows !! k ≫= head = head (filter (λ r, key r = k) rows).
Proof.
  rewrite groupby_lookup. by destruct (filter (λ r, key r = k) rows).
Qed.

#[global] Instance seq_le_total {A} : Total (@seq_le A).
Proof. intros x y. unfold seq_le. lia. Qed.

(** ** The loops of the filter as list operations *)

Section FilterFacts.
Context {rt : PyRuntime}.

Lemma scan_stop_eq b acc s :
  scan_stop b acc s =
    if stop_in_box b s
    then ({[ py_str (s_id s) ]} ∪ acc.1, acc.2 ++ [s])
    else acc.
Proof.
  unfold scan_stop, stop_in_box.
  destruct (stop_coords s) as [[lat lng]|]; [|done].
  by destruct (in_bbox b lat lng).
Qed.

Lemma scan_stops_acc b stops keep kept :
  foldl (scan_stop b) (keep, kept) stops =
    (list_to_set ((λ s, py_str (s_id s)) <$> filter (λ s, stop_in_box b s) stops) ∪ keep,
     kept ++ filter (λ s, stop_in_box b s) stops).
Proof.
  revert keep kept. induction stops as [|s stops IH]; intros keep kept; simpl.
  - f_equal; [set_solver | by rewrite app_nil_r].
  - rewrite scan_stop_eq, filter_cons.
    destruct (stop_in_box b s) eqn:Hs; simpl; rewrite IH; [|done].
    simpl. f_equal; [set_solver | by rewrite <-app_assoc].
Qed.

Lemma scan_stops_spec b net :
  scan_stops b (stops net) =
    (retained_ids b net, filter (λ s, stop_in_box b s) (stops net)).
Proof.
  unfold scan_stops, retained_ids. rewrite scan_stops_acc.
  f_equal. set_solver.
Qed.

Lemma clip_shape_acc b shape acc :
  foldl (clip_point b) acc shape = acc ++ omap (clip_one b) shape.
Proof.
  revert acc. induction shape as [|pt shape IH]; intros acc; simpl.
  - by rewrite app_nil_r.
  - rewrite IH. unfold clip_point, clip_one.
    destruct (point_coords pt) as [[plat plng]|]; [|done].
    destruct (in_bbox b plat plng); [|done].
    by rewrite <-app_assoc.
Qed.

Lemma clip_shape_spec b shape : clip_shape b shape = omap (clip_one b) shape.
Proof. unfold clip_shape. by rewrite clip_shape_acc. Qed.

Lemma scan_routes_acc b keep m c rs acc :
  foldl (scan_route b keep m c) acc rs =
    acc ++ (copy_route b c <$>
              filter (λ r, (m ≤ Z.of_nat (length (in_area keep r)))%Z) rs).
Proof.
  revert acc. induction rs as [|r rs IH]; intros acc; simpl.
  - by rewrite app_nil_r.
  - rewrite IH, filter_cons. unfold scan_route.
    case_bool_decide; case_decide; try lia; [done|].
    simpl. by rewrite <-app_assoc.
Qed.

Lemma filter_network_by_bbox_spec net b m c :
  filter_network_by_bbox net b m c =
    {| stops := filter (λ s, stop_in_box b s) (stops net);
       routes := copy_route b c <$> surviving_routes b m net;
       meta := dict_update "filter" (MFilter b m c) (meta net) |}.
Proof.
  unfold filter_network_by_bbox. rewrite scan_stops_spec.
  by rewrite scan_routes_acc.
Qed.
End FilterFacts.

(** ** The filter: route survival, clipping, frame and idempotence *)

Section FilterProperties.
Context {rt : PyRuntime}.

(** The set [keep_stop_ids] the stops loop builds is the set of ids of the
    stops it keeps. *)
Lemma keep_stop_ids_retained b net :
  (scan_stops b (stops net)).1 = retained_ids b net ∧
  retained_ids b net =
    list_to_set ((λ s, py_str (s_id s)) <$> (scan_stops b (stops net)).2).
Proof. by rewrite scan_stops_spec. Qed.

(** C6.  The routes of the filtered network are the copies of exactly the
    input routes with at least [min_stops_in_area] entries of [stopIds] in
    the retained-stop-id set, in input order: a route below the threshold
    contributes nothing, a route with exactly [min_stops_in_area] retained
    entries is copied to the output. *)
Theorem filter_route_survival net b m c :
  let out := filter_network_by_bbox net b m c in
  routes out =
    copy_route b c <$>
      filter (λ r, (m ≤ retained_count b net r)%Z) (routes net) ∧
  (∀ r', r' ∈ routes out ↔
     ∃ r, r ∈ routes net ∧ (m ≤ retained_count b net r)%Z ∧
          r' = copy_route b c r) ∧
  (∀ r, (retained_count b net r < m)%Z →
     routes (filter_network_by_bbox
               {| stops := stops net; routes := [r]; meta := meta net |}
               b m c) = []) ∧
  (∀ r, retained_count b net r = m →
     routes (filter_network_by_bbox
               {| stops := stops net; routes := [r]; meta := meta net |}
               b m c) = [copy_route b c r]).
Proof.
  simpl. rewrite filter_network_by_bbox_spec. simpl.
  split; [done|]. split; [|split].
  - intros r'. unfold surviving_routes.
    rewrite list_elem_of_fmap. setoid_rewrite list_elem_of_filter.
    naive_solver.
  - intros r Hr. rewrite filter_network_by_bbox_spec. simpl.
    unfold surviving_routes. simpl. rewrite filter_cons.
    rewrite decide_False; [done|].
    unfold retained_count, retained_ids in *. simpl. lia.
  - intros r Hr. rewrite filter_network_by_bbox_spec. simpl.
    unfold surviving_routes. simpl. rewrite filter_cons.
    rewrite decide_True; [done|].
    unfold retained_count, retained_ids in *. simpl. lia.
Qed.

Lemma clip_shape_length b shape : length (clip_shape b shape) ≤ length shape.
Proof.
  rewrite clip_shape_spec.
  induction shape as [|pt shape IH]; [done|].
  change (omap (clip_one b) (pt :: shape))
    with (match clip_one b pt with
          | Some q => q :: omap (clip_one b) shape
          | None => omap (clip_one b) shape
          end).
  destruct (clip_one b pt); simpl; lia.
Qed.

Lemma copy_route_shape b c r :
  r_shape (copy_route b c r) =
    if c && bool_decide (2 ≤ length (clip_shape b (r_shape r)))
    then clip_shape b (r_shape r) else r_shape r.
Proof.
  unfold copy_route. simpl. destruct c; simpl; [|done].
  case_bool_decide as Hnil; simpl.
  - rewrite Hnil. by rewrite bool_decide_false by (simpl; lia).
  - by case_bool_decide.
Qed.

Lemma clip_one_boxed_point b pt : clip_one b pt = boxed_point b pt.
Proof.
  unfold clip_one, point_coords, boxed_point, in_bbox.
  destruct pt as [|x [|y pt]]; simpl; [done| |].
  - by destruct (py_float x).
  - destruct (py_float x); simpl; [|done]. by destruct (py_float y).
Qed.

(** The list the shape loop builds is the clipped list of the
    specification. *)
Lemma clip_shape_points_in_box b shape :
  clip_shape b shape = points_in_box b shape.
Proof.
  rewrite clip_shape_spec. unfold points_in_box.
  induction shape as [|pt shape IH]; [done|].
  change (omap ?f (pt :: ?l))
    with (match f pt with Some y => y :: omap f l | None => omap f l end).
  by rewrite clip_one_boxed_point, IH.
Qed.

Lemma boxed_point_Some b pt q :
  boxed_point b pt = Some q ↔
  ∃ x y plat plng,
    pt !! 0%nat = Some x ∧ pt !! 1%nat = Some y ∧
    py_float x = Some plat ∧ py_float y = Some plng ∧
    (minLat b <=? plat)%float = true ∧ (plat <=? maxLat b)%float = true ∧
    (minLng b <=? plng)%float = true ∧ (plng <=? maxLng b)%float = true ∧
    q = [VFloat plat; VFloat plng].
Proof.
  unfold boxed_point. split.
  - destruct pt as [|x [|y pt]]; [done|done|].
    destruct (py_float x) as [plat|] eqn:Hx; [|done].
    destruct (py_float y) as [plng|] eqn:Hy; [|done].
    destruct (_ && _) eqn:Hin; [|done].
    intros [= <-]. rewrite !andb_true_iff in Hin.
    exists x, y, plat, plng. naive_solver.
  - intros (x & y & plat & plng & H0 & H1 & Hx & Hy & Ha & Hb & Hc & Hd & ->).
    destruct pt as [|x' [|y' pt]]; [done|done|].
    simpl in H0, H1. injection H0 as ->. injection H1 as ->.
    by rewrite Hx, Hy, Ha, Hb, Hc, Hd.
Qed.

(** The clipped list holds the points of the shape that read as numbers
    inside the box, and nothing else. *)
Lemma elem_of_points_in_box b shape q :
  q ∈ points_in_box b shape ↔
  ∃ plat plng, point_of_shape b shape plat plng ∧ q = [VFloat plat; VFloat plng].
Proof.
  unfold points_in_box, point_of_shape. rewrite list_elem_of_omap. split.
  - intros (pt & Hpt & Hq). apply boxed_point_Some in Hq.
    destruct Hq as (x & y & plat & plng & ? & ? & ? & ? & ? & ? & ? & ? & ->).
    exists plat, plng. split; [|done]. exists pt, x, y. naive_solver.
  - intros (plat & plng & (pt & x & y & Hpt & ?) & ->).
    exists pt. split; [done|]. apply boxed_point_Some.
    exists x, y, plat, plng. naive_solver.
Qed.


(** C8.  With [clip_shapes] true, every surviving route leaves the filter
    with a shape that has no more points than it had.  The clipped list is
    the list of the points of the shape that read as numbers inside the box,
    as pairs of floats and in the order of the shape; the output shape is
    that list when it has at least two points, so that its points are then
    exactly those points, and the original shape otherwise: the output shape
    is the original one or has at least two points. *)
Theorem filter_shape_clipping net b m :
  Forall2 (λ r r',
      length (r_shape r') ≤ length (r_shape r) ∧
      length (points_in_box b (r_shape r)) ≤ length (r_shape r) ∧
      (2 ≤ length (points_in_box b (r_shape r)) →
         r_shape r' = points_in_box b (r_shape r) ∧
         ∀ q, q ∈ r_shape r' ↔
              ∃ plat plng, point_of_shape b (r_shape r) plat plng ∧
                           q = [VFloat plat; VFloat plng]) ∧
      (length (points_in_box b (r_shape r)) < 2 → r_shape r' = r_shape r) ∧
      (r_shape r' = r_shape r ∨ 2 ≤ length (r_shape r')))
    (surviving_routes b m net)
    (routes (filter_network_by_bbox net b m true)).
Proof.
  rewrite filter_network_by_bbox_spec. simpl.
  apply Forall2_fmap_r, Forall_Forall2_diag, Forall_forall.
  intros r _. unfold compose. rewrite copy_route_shape. simpl.
  pose proof (clip_shape_length b (r_shape r)) as Hlen.
  rewrite clip_shape_points_in_box in *.
  case_bool_decide; split_and!; intros; try lia; auto.
  split; [done|]. intros q. apply elem_of_points_in_box.
Qed.

Lemma copy_route_eq b c r :
  copy_route b c r =
    {| r_id := r_id r; r_shortName := r_shortName r;
       r_longName := r_longName r; r_color := r_color r;
       r_stopIds := (λ x, VStr (py_str x)) <$> r_stopIds r;
       r_shape := r_shape (copy_route b c r);
       r_headwayMins := r_headwayMins r |}.
Proof.
  unfold copy_route. simpl. rewrite <-list_fmap_compose.
  destruct c; simpl; [|done].
  case_bool_decide; simpl; [done|]. by case_bool_decide.
Qed.

(** C10.  Every surviving route leaves the filter with its [id],
    [shortName], [longName], [color] and [headwayMins] unchanged and with
    [stopIds] mapped element by element to strings: no entry is removed,
    whether or not its stop is retained. *)
Theorem filter_route_frame net b m c :
  Forall2 (λ r r',
      r_id r' = r_id r ∧ r_shortName r' = r_shortName r ∧
      r_longName r' = r_longName r ∧ r_color r' = r_color r ∧
      r_headwayMins r' = r_headwayMins r ∧
      r_stopIds r' = (λ x, VStr (py_str x)) <$> r_stopIds r ∧
      length (r_stopIds r') = length (r_stopIds r) ∧
      Forall (λ x, VStr (py_str x) ∈ r_stopIds r') (r_stopIds r))
    (surviving_routes b m net)
    (routes (filter_network_by_bbox net b m c)).
Proof.
  rewrite filter_network_by_bbox_spec. simpl.
  apply Forall2_fmap_r, Forall_Forall2_diag, Forall_forall.
  intros r _. unfold compose. rewrite copy_route_eq. simpl.
  repeat split; [by rewrite length_fmap|].
  apply Forall_forall. intros x Hx.
  apply list_elem_of_fmap. eauto.
Qed.

(** *** Idempotence *)

Lemma clip_one_fixed b pt q : clip_one b pt = Some q → clip_one b q = Some q.
Proof.
  unfold clip_one. destruct (point_coords pt) as [[plat plng]|]; [|done].
  destruct (in_bbox b plat plng) eqn:Hin; [|done].
  intros [= <-]. simpl. by rewrite Hin.
Qed.

Lemma clip_shape_idemp b shape :
  clip_shape b (clip_shape b shape) = clip_shape b shape.
Proof.
  rewrite !clip_shape_spec.
  induction shape as [|pt shape IH]; [done|].
  change (omap (clip_one b) (pt :: shape))
    with (match clip_one b pt with
          | Some q => q :: omap (clip_one b) shape
          | None => omap (clip_one b) shape
          end).
  destruct (clip_one b pt) as [q|] eqn:Hpt; [|done].
  change (omap (clip_one b) (q :: omap (clip_one b) shape))
    with (match clip_one b q with
          | Some q' => q' :: omap (clip_one b) (omap (clip_one b) shape)
          | None => omap (clip_one b) (omap (clip_one b) shape)
          end).
  by rewrite (clip_one_fixed _ _ _ Hpt), IH.
Qed.

Lemma route_ext (r1 r2 : Route) :
  r_id r1 = r_id r2 → r_shortName r1 = r_shortName r2 →
  r_longName r1 = r_longName r2 → r_color r1 = r_color r2 →
  r_stopIds r1 = r_stopIds r2 → r_shape r1 = r_shape r2 →
  r_headwayMins r1 = r_headwayMins r2 → r1 = r2.
Proof. destruct r1, r2; simpl; congruence. Qed.

Lemma copy_route_stopIds b c r :
  r_stopIds (copy_route b c r) = (λ x, VStr (py_str x)) <$> r_stopIds r.
Proof. by rewrite copy_route_eq. Qed.

Lemma copy_route_idemp b c r :
  copy_route b c (copy_route b c r) = copy_route b c r.
Proof.
  apply route_ext;
    try (rewrite (copy_route_eq b c (copy_route b c r)); reflexivity).
  - rewrite !copy_route_stopIds, <-list_fmap_compose.
    by apply list_fmap_ext.
  - rewrite (copy_route_shape b c (copy_route b c r)).
    rewrite (copy_route_shape b c r).
    destruct c; simpl; [|done].
    destruct (bool_decide (2 ≤ length (clip_shape b (r_shape r)))) eqn:Hlen.
    + by rewrite clip_shape_idemp, Hlen.
    + by rewrite Hlen.
Qed.

Lemma in_area_copy_route keep b c r :
  in_area keep (copy_route b c r) = in_area keep r.
Proof.
  unfold in_area. by rewrite copy_route_stopIds, <-list_fmap_compose.
Qed.

Lemma filter_fmap_all {A B} (P : B → Prop) `{∀ x, Decision (P x)}
    (f : A → B) (l : list A) :
  Forall (λ x, P (f x)) l → filter P (f <$> l) = f <$> l.
Proof.
  induction 1 as [|x l Hx _ IH]; [done|].
  rewrite fmap_cons, filter_cons, decide_True by done. by rewrite IH.
Qed.

(** C7.  Filtering the output of the filter again, with the same box,
    threshold and clipping flag, changes nothing: the stops, the routes and
    the [meta] object (whose [filter] entry is overwritten in place) are
    those of the first pass. *)
Theorem filter_network_by_bbox_idempotent net b m c :
  filter_network_by_bbox (filter_network_by_bbox net b m c) b m c =
    filter_network_by_bbox net b m c.
Proof.
  rewrite (filter_network_by_bbox_spec net).
  rewrite filter_network_by_bbox_spec. simpl.
  set (out := {| stops := filter (λ s, stop_in_box b s) (stops net);
                 routes := copy_route b c <$> surviving_routes b m net;
                 meta := dict_update "filter" (MFilter b m c) (meta net) |}).
  assert (Hids : retained_ids b out = retained_ids b net).
  { unfold retained_ids, out. simpl.
    by rewrite list_filter_filter_r. }
  f_equal.
  - by apply list_filter_filter_r.
  - unfold surviving_routes at 1. simpl.
    rewrite filter_fmap_all.
    + rewrite <-list_fmap_compose. apply list_fmap_ext.
      intros _ r _. apply copy_route_idemp.
    + apply Forall_forall. intros r Hr.
      apply list_elem_of_filter in Hr as [Hr _].
      unfold retained_count in *. rewrite Hids.
      change (filter (λ sid, sid ∈ retained_ids b net)
                (py_str <$> r_stopIds (copy_route b c r)))
        with (in_area (retained_ids b net) (copy_route b c r)).
      by rewrite in_area_copy_route.
  - apply dict_update_idemp.
Qed.

(** *** Malformed coordinates *)




End FilterProperties.

(** ** The builder *)

(** Case analysis on the first step of a computation in the option monad
    that is known to succeed. *)
Tactic Notation "bind_inv" hyp(H) ident(x) ident(E) :=
  lazymatch type of H with
  | (?m ≫= _) = Some _ =>
      destruct m as [x|] eqn:E;
      [cbn [mbind option_bind] in H | discriminate H]
  end.

Section BuilderFacts.
Context {rt : PyRuntime}.

Lemma add_columns_inv r s :
  add_columns r = Some s →
  sx_row s = r ∧
  astype_float (stop_lat r) = Some (sx_lat s) ∧
  astype_float (stop_lon r) = Some (sx_lng s) ∧
  haversine_km (sx_lat s, sx_lng s) ASTON_CENTER = Some (sx_dist_km s).
Proof.
  unfold add_columns. intros Hs.
  bind_inv Hs lat Hlat. bind_inv Hs lng Hlng. bind_inv Hs d Hd.
  by injection Hs as <-.
Qed.

Lemma refresh_dist_inv s s' :
  refresh_dist s = Some s' →
  sx_row s' = sx_row s ∧ sx_lat s' = sx_lat s ∧ sx_lng s' = sx_lng s ∧
  haversine_km (sx_lat s', sx_lng s') ASTON_CENTER = Some (sx_dist_km s').
Proof.
  unfold refresh_dist. intros Hs.
  bind_inv Hs d Hd. by injection Hs as <-.
Qed.

(** The set [stop_id_set] of line 42 holds the id of every row of the stops
    table: it is computed before the region test. *)
Lemma stop_ids_of_all stops sx :
  mapM add_columns stops = Some sx → stop_ids_of sx = all_stop_ids stops.
Proof.
  intros Hsx. apply mapM_Some in Hsx.
  unfold stop_ids_of, all_stop_ids. f_equal.
  induction Hsx as [|r s stops sx Hs _ IH]; [done|].
  apply add_columns_inv in Hs as (<- & _). by rewrite !fmap_cons, IH.
Qed.

(** What a successful build went through. *)
Lemma build_aston_network_inv stop_rows route_rows trip_rows st_rows shape_rows
    buffer_meters bbox net :
  build_aston_network stop_rows route_rows trip_rows st_rows shape_rows buffer_meters bbox
    = Some net →
  ∃ bm sx near shape_points rs,
    float_of_int buffer_meters = Some bm ∧
    mapM add_columns stop_rows = Some sx ∧
    select_near bbox (bm / 1000.0)%float sx = Some near ∧
    shape_points_of shape_rows = Some shape_points ∧
    (let stop_id_set := all_stop_ids stop_rows in
     let trips2 := candidate_trips (near_trip_ids stop_id_set st_rows) trip_rows in
     mapM (build_route stop_id_set (route_to_trip_of trips2) st_rows trips2
             shape_points) route_rows = Some rs) ∧
    stops net = out_stop (rows_upcast stop_rows) <$> near ∧
    routes net = omap id rs.
Proof.
  unfold build_aston_network. intros Hb.
  bind_inv Hb bm Hbm. bind_inv Hb sx Hsx. bind_inv Hb near Hnear.
  bind_inv Hb sp Hsp.
  rewrite (stop_ids_of_all _ _ Hsx) in Hb.
  bind_inv Hb rs Hrs.
  injection Hb as <-. by exists bm, sx, near, sp, rs.
Qed.

(** C1.  Every stop of a built network passes the region test: with a
    box, its latitude and longitude lie between the bounds of the box,
    bounds included; without one, its haversine distance to the fixed centre
    is at most [buffer_meters / 1000.0]. *)
Theorem build_stops_in_region stop_rows route_rows trip_rows st_rows shape_rows
    buffer_meters bbox net :
  build_aston_network stop_rows route_rows trip_rows st_rows shape_rows buffer_meters bbox
    = Some net →
  Forall (stop_in_region bbox buffer_meters) (stops net).
Proof.
  intros Hb.
  apply build_aston_network_inv in Hb
    as (bm & sx & near & sp & rs & Hbm & Hsx & Hnear & _ & _ & -> & _).
  apply Forall_fmap, Forall_forall. intros s Hs.
  exists (sx_lat s), (sx_lng s). split; [done|]. split; [done|].
  destruct bbox as [b|]; simpl in Hnear.
  - injection Hnear as <-.
    apply list_elem_of_filter in Hs as [Hin _].
    unfold in_bbox in Hin. apply Is_true_true in Hin.
    rewrite !andb_true_iff in Hin. tauto.
  - destruct (mapM refresh_dist sx) as [sx'|] eqn:Hsx'; [|done].
    injection Hnear as <-.
    apply list_elem_of_filter in Hs as [Hle Hs].
    apply mapM_Some in Hsx'.
    apply list_elem_of_lookup in Hs as [i Hi].
    destruct (Forall2_lookup_r _ _ _ _ _ Hsx' Hi) as (s0 & _ & Hs0).
    apply refresh_dist_inv in Hs0 as (_ & _ & _ & Hd).
    exists (sx_dist_km s), bm. split; [done|]. split; [done|].
    by apply Is_true_true.
Qed.

(** *** The representative trip *)

Lemma route_to_trip_of_lookup trips2 rid :
  route_to_trip_of trips2 !! rid =
    (λ t, py_str (trip_id t))
      <$> head (filter (λ t, py_str (trip_route_id t) = rid) trips2).
Proof.
  unfold route_to_trip_of. rewrite lookup_omap, groupby_lookup.
  by destruct (filter _ trips2).
Qed.

(** The candidate trips are rows of the trips table, in table order. *)
Lemma candidate_trips_eq trip_ids trip_rows :
  candidate_trips trip_ids trip_rows =
    (λ t, {| trip_id := VStr (py_str (trip_id t));
             trip_route_id := VStr (py_str (trip_route_id t));
             trip_shape_id := trip_shape_id t |})
      <$> filter (λ t, py_str (trip_id t) ∈ trip_ids) trip_rows.
Proof.
  unfold candidate_trips. rewrite filter_fmap, <-list_fmap_compose. done.
Qed.

(** Whatever set of trip ids makes the candidates, the trip kept for a
    route id is the trip id of the first row of the trips table, in the order
    of the table, that is a candidate trip of that route; a route id without
    candidate trip has no trip. *)
Lemma representative_trip_is_first trip_ids trip_rows rid :
  route_to_trip_of (candidate_trips trip_ids trip_rows) !! rid =
    (λ t, py_str (trip_id t))
      <$> head (filter (λ t, py_str (trip_route_id t) = rid ∧
                             py_str (trip_id t) ∈ trip_ids) trip_rows).
Proof.
  rewrite route_to_trip_of_lookup, candidate_trips_eq.
  rewrite filter_fmap, list_filter_filter. simpl.
  by destruct (filter _ trip_rows).
Qed.

(** *** The stop sequence of a route *)

Lemma astype_int_VInt dt z :
  in_int64 z = true → astype_int dt (VInt z) = Some z.
Proof. intros Hz. destruct dt; simpl; by rewrite Hz. Qed.

Lemma trip_stop_ids_spec st_rows trip ids :
  trip_stop_ids st_rows trip = Some ids → is_trip_sequence st_rows trip ids.
Proof.
  unfold trip_stop_ids, is_trip_sequence. cbv zeta.
  set (dt := column_dtype (st_stop_sequence <$> st_rows)).
  intros Hids.
  bind_inv Hids rows Hrows. injection Hids as <-.
  apply mapM_Some in Hrows.
  assert (Hcast : Forall (λ p, astype_int dt (st_stop_sequence p.2) = Some p.1) rows
                  ∧ rows.*2 = filter (λ x, py_str (st_trip_id x) = trip) st_rows).
  { generalize dependent (filter (λ x, py_str (st_trip_id x) = trip) st_rows).
    intros l Hrows.
    induction Hrows as [|x p l rows Hx _ [IH1 IH2]]; [done|].
    bind_inv Hx sq Hsq. injection Hx as <-.
    split; [by constructor | by rewrite fmap_cons, IH2]. }
  destruct Hcast as [Hcast Hrows2].
  exists (sort_by_seq rows). unfold sort_by_seq. split_and!.
  - by rewrite merge_sort_Permutation, Hrows2.
  - by rewrite merge_sort_Permutation.
  - rewrite merge_sort_Permutation.
    eapply Forall_impl; [exact Hcast|]. intros p Hp z Hz Hin.
    cbv beta in Hp. rewrite Hz, (astype_int_VInt _ _ Hin) in Hp.
    by injection Hp.
  - apply (Sorted_merge_sort _).
  - done.
Qed.

Lemma build_route_inv stop_id_set route_to_trip st_rows trips2 shape_points
    row r :
  build_route stop_id_set route_to_trip st_rows trips2 shape_points row
    = Some (Some r) →
  ∃ trip ids,
    route_to_trip !! py_str (route_id row) = Some trip ∧
    trip_stop_ids st_rows trip = Some ids ∧
    (∃ sid, sid ∈ ids ∧ sid ∈ stop_id_set) ∧
    r_id r = VStr (py_str (route_id row)) ∧
    r_stopIds r = VStr <$> ids ∧
    r_shape r = trip_shape trips2 shape_points trip.
Proof.
  unfold build_route. cbn [py_str]. intros Hr.
  destruct (route_to_trip !! py_str (route_id row)) as [trip|]; [|done].
  bind_inv Hr ids Hids.
  destruct (existsb _ ids) eqn:Hany; [|done]. simpl in Hr.
  injection Hr as <-. exists trip, ids. split_and!; try done.
  apply existsb_exists in Hany as (sid & Hsid & Hin).
  exists sid. split; [by apply list_elem_of_In|].
  by apply bool_decide_eq_true in Hin.
Qed.

Lemma build_routes_inv (f : RouteRow → option (option Route))
    (route_rows : list RouteRow) (rs : list (option Route)) (r : Route) :
  mapM f route_rows = Some rs → r ∈ omap id rs →
  ∃ row, row ∈ route_rows ∧ f row = Some (Some r).
Proof.
  intros Hrs Hr. apply mapM_Some in Hrs.
  apply list_elem_of_omap in Hr as (o & Ho & Heq).
  unfold id in Heq. subst o.
  apply list_elem_of_lookup in Ho as [i Hi].
  destruct (Forall2_lookup_r _ _ _ _ _ Hrs Hi) as (row & Hrow & Hf).
  exists row. split; [|done]. by eapply list_elem_of_lookup_2.
Qed.

(** C4.  The [stopIds] of every route of a built network is the whole
    stop sequence of the trip kept for the route: the stop ids, as strings,
    of all the rows of that trip in the stop-times table, in ascending order
    of their [stop_sequence] cast to a 64-bit integer as the column is by
    [astype(int)], which leaves an integer of that range as it is; no row is
    left out for lying outside the region. *)
Theorem route_stop_ids_full_sequence stop_rows route_rows trip_rows st_rows
    shape_rows buffer_meters bbox net :
  build_aston_network stop_rows route_rows trip_rows st_rows shape_rows
    buffer_meters bbox = Some net →
  Forall (has_full_sequence stop_rows route_rows trip_rows st_rows)
    (routes net).
Proof.
  intros Hb.
  apply build_aston_network_inv in Hb
    as (bm & sx & near & sp & rs & _ & _ & _ & _ & Hrs & _ & ->).
  simpl in Hrs. apply Forall_forall. intros r Hr.
  destruct (build_routes_inv _ _ _ _ Hrs Hr) as (row & Hrow & Hbuild).
  apply build_route_inv in Hbuild
    as (trip & ids & Htrip & Hids & _ & Hid & Hstops & _).
  exists row, trip, ids. split_and!; try done.
  - by apply trip_stop_ids_spec.
  - apply trip_stop_ids_spec in Hids as (rows & Hperm & _ & _ & _ & ->).
    by rewrite Hstops, !length_fmap, <-Hperm, length_fmap.
Qed.

(** *** What [stop_id_set] does to trips and routes *)

(** A trip is a candidate exactly when one of its stop-times names a stop
    of the set handed to [near_trip_ids]. *)
Lemma candidate_trips_spec (stop_id_set : gset string)
    (st_rows : list StopTimeRow) (trip_rows : list TripRow) (t : TripRow) :
  t ∈ filter (λ t, py_str (trip_id t) ∈ near_trip_ids stop_id_set st_rows)
        trip_rows ↔
  t ∈ trip_rows ∧
  ∃ x, x ∈ st_rows ∧ py_str (st_trip_id x) = py_str (trip_id t) ∧
       py_str (st_stop_id x) ∈ stop_id_set.
Proof.
  rewrite list_elem_of_filter. unfold near_trip_ids.
  rewrite elem_of_list_to_set, list_elem_of_fmap.
  setoid_rewrite list_elem_of_filter. naive_solver.
Qed.

(** X29.  The set the builder hands over is [all_stop_ids]: every route it
    emits has a stop id of the stops table, inside the region or not. *)
Lemma built_routes_touch_stops_table stop_rows route_rows trip_rows st_rows
    shape_rows buffer_meters bbox net :
  build_aston_network stop_rows route_rows trip_rows st_rows shape_rows
    buffer_meters bbox = Some net →
  Forall (λ r, ∃ sid, VStr sid ∈ r_stopIds r ∧ sid ∈ all_stop_ids stop_rows)
    (routes net).
Proof.
  intros Hb.
  apply build_aston_network_inv in Hb
    as (bm & sx & near & sp & rs & _ & _ & _ & _ & Hrs & _ & ->).
  simpl in Hrs. apply Forall_forall. intros r Hr.
  destruct (build_routes_inv _ _ _ _ Hrs Hr) as (row & Hrow & Hbuild).
  apply build_route_inv in Hbuild
    as (trip & ids & _ & _ & (sid & Hsid & Hin) & _ & -> & _).
  exists sid. split; [|done]. apply list_elem_of_fmap. eauto.
Qed.

(** With a box, the stops of the result are read off the stops table. *)
Lemma build_stops_bbox stop_rows route_rows trip_rows st_rows shape_rows
    buffer_meters b net :
  build_aston_network stop_rows route_rows trip_rows st_rows shape_rows
    buffer_meters (Some b) = Some net →
  stops net = omap (bbox_stop (rows_upcast stop_rows) b) stop_rows.
Proof.
  intros Hb.
  apply build_aston_network_inv in Hb
    as (bm & sx & near & sp & rs & _ & Hsx & Hnear & _ & _ & -> & _).
  injection Hnear as <-. apply mapM_Some in Hsx.
  generalize (rows_upcast stop_rows). intros up.
  induction Hsx as [|r s rows sx Hs _ IH]; [done|].
  apply add_columns_inv in Hs as (Hrow & Hlat & Hlng & _).
  rewrite filter_cons.
  change (omap ?f (r :: rows))
    with (match f r with Some y => y :: omap f rows | None => omap f rows end).
  unfold bbox_stop at 1. rewrite Hlat, Hlng. cbn [mbind option_bind].
  case_decide as Hin.
  - apply Is_true_true in Hin. rewrite Hin, fmap_cons, IH.
    unfold out_stop. by rewrite Hrow.
  - apply Is_true_false in Hin. by rewrite Hin, IH.
Qed.

(** *** The feed [FarRoute], step by step *)

Lemma far_stops_eval :
  omap (bbox_stop (rows_upcast FarRoute.stops_table) FarRoute.box)
    FarRoute.stops_table = [FarRoute.near_stop].
Proof. vm_compute. reflexivity. Qed.

Lemma far_stop_id_set_eval :
  all_stop_ids FarRoute.stops_table = {[ "A"; "B" ]}.
Proof. vm_compute. reflexivity. Qed.

Lemma far_candidates_eval :
  candidate_trips
    (near_trip_ids (all_stop_ids FarRoute.stops_table)
       FarRoute.stop_times_table) FarRoute.trips_table
    = [ {| trip_id := VStr "T1"; trip_route_id := VStr "R1";
           trip_shape_id := VFloat nan |} ].
Proof. vm_compute. reflexivity. Qed.

Lemma far_shapes_eval : shape_points_of FarRoute.shapes_table = Some ∅.
Proof. vm_compute. reflexivity. Qed.

Lemma far_routes_eval :
  mapM (build_route (all_stop_ids FarRoute.stops_table)
          (route_to_trip_of
             (candidate_trips
                (near_trip_ids (all_stop_ids FarRoute.stops_table)
                   FarRoute.stop_times_table) FarRoute.trips_table))
          FarRoute.stop_times_table
          (candidate_trips
             (near_trip_ids (all_stop_ids FarRoute.stops_table)
                FarRoute.stop_times_table) FarRoute.trips_table)
          ∅) FarRoute.routes_table
    = Some [Some FarRoute.far_route].
Proof. vm_compute. reflexivity. Qed.

(** C2, at the feed [FarRoute].  The box holds stop A alone and the only
    trip of route R1 serves stop B alone; whatever the runtime, a build
    that returns emits R1, with [stopIds] equal to [B]: a route none of
    whose stops is in the near-set. *)
Theorem far_route_is_emitted buffer_meters net :
  build_aston_network FarRoute.stops_table FarRoute.routes_table
    FarRoute.trips_table FarRoute.stop_times_table FarRoute.shapes_table
    buffer_meters (Some FarRoute.box) = Some net →
  stops net = [FarRoute.near_stop] ∧
  routes net = [FarRoute.far_route] ∧
  Forall (λ r, Forall (λ sid, Forall (λ s, s_id s ≠ sid) (stops net))
                 (r_stopIds r)) (routes net).
Proof.
  intros Hb.
  pose proof (build_stops_bbox _ _ _ _ _ _ _ _ Hb) as Hstops.
  rewrite far_stops_eval in Hstops.
  apply build_aston_network_inv in Hb
    as (bm & sx & near & sp & rs & _ & _ & _ & Hsp & Hrs & _ & Hroutes).
  rewrite far_shapes_eval in Hsp. injection Hsp as <-.
  cbv zeta in Hrs. rewrite far_routes_eval in Hrs. injection Hrs as <-.
  rewrite Hstops, Hroutes. split; [done|]. split; [done|].
  repeat constructor. discriminate.
Qed.

(** C3, at the feed [FarRoute].  Trip T1 is a candidate trip of the
    build, although none of its stop-times names a stop of the near-set. *)
Theorem far_trip_is_candidate buffer_meters net :
  build_aston_network FarRoute.stops_table FarRoute.routes_table
    FarRoute.trips_table FarRoute.stop_times_table FarRoute.shapes_table
    buffer_meters (Some FarRoute.box) = Some net →
  let near_set : gset string :=
    list_to_set ((λ s, py_str (s_id s)) <$> stops net) in
  candidate_trips
    (near_trip_ids (all_stop_ids FarRoute.stops_table)
       FarRoute.stop_times_table) FarRoute.trips_table
    = [ {| trip_id := VStr "T1"; trip_route_id := VStr "R1";
           trip_shape_id := VFloat nan |} ] ∧
  near_set = {[ "A" ]} ∧
  filter (λ x, py_str (st_stop_id x) ∈ near_set) FarRoute.stop_times_table
    = [].
Proof.
  intros Hb near_set.
  pose proof (build_stops_bbox _ _ _ _ _ _ _ _ Hb) as Hstops.
  rewrite far_stops_eval in Hstops. subst near_set. rewrite Hstops.
  split; [apply far_candidates_eval|].
  split; vm_compute; reflexivity.
Qed.

(** *** The feed [TwoTrips], step by step *)

Lemma two_trips_representative_eval :
  route_to_trip_of
    (candidate_trips
       (near_trip_ids (all_stop_ids FarRoute.stops_table)
          TwoTrips.stop_times_table) TwoTrips.trips_table) !! "R1"
    = Some "T0".
Proof. vm_compute. reflexivity. Qed.

Lemma two_trips_routes_eval :
  mapM (build_route (all_stop_ids FarRoute.stops_table)
          (route_to_trip_of
             (candidate_trips
                (near_trip_ids (all_stop_ids FarRoute.stops_table)
                   TwoTrips.stop_times_table) TwoTrips.trips_table))
          TwoTrips.stop_times_table
          (candidate_trips
             (near_trip_ids (all_stop_ids FarRoute.stops_table)
                TwoTrips.stop_times_table) TwoTrips.trips_table)
          ∅) FarRoute.routes_table
    = Some [Some FarRoute.far_route].
Proof. vm_compute. reflexivity. Qed.

Lemma two_trips_first_near_eval :
  head (filter (λ t, py_str (trip_route_id t) = "R1" ∧
                     py_str (trip_id t) ∈
                       near_trip_ids {[ "A" ]} TwoTrips.stop_times_table)
          TwoTrips.trips_table) = Some TwoTrips.trip1.
Proof. vm_compute. reflexivity. Qed.

Lemma two_trips_sequences_eval :
  trip_stop_ids TwoTrips.stop_times_table "T0" = Some ["B"] ∧
  trip_stop_ids TwoTrips.stop_times_table "T1" = Some ["A"].
Proof. split; vm_compute; reflexivity. Qed.

(** C5, at the feed [TwoTrips].  The box holds stop A alone; trip T0, the
    first row of route R1 in the trips table, serves stop B alone, and trip
    T1, the second, serves A.  The first row of R1 with a stop-time at a stop
    of the near-set is T1, whose stop sequence is [A]; whatever the runtime,
    a build that returns keeps T0 for R1 and emits the route with the stop
    sequence of T0, [B]. *)
Theorem far_trip_is_representative buffer_meters net :
  build_aston_network FarRoute.stops_table FarRoute.routes_table
    TwoTrips.trips_table TwoTrips.stop_times_table FarRoute.shapes_table
    buffer_meters (Some FarRoute.box) = Some net →
  let near_set : gset string :=
    list_to_set ((λ s, py_str (s_id s)) <$> stops net) in
  near_set = {[ "A" ]} ∧
  head (filter (λ t, py_str (trip_route_id t) = "R1" ∧
                     py_str (trip_id t) ∈
                       near_trip_ids near_set TwoTrips.stop_times_table)
          TwoTrips.trips_table) = Some TwoTrips.trip1 ∧
  trip_stop_ids TwoTrips.stop_times_table "T1" = Some ["A"] ∧
  route_to_trip_of
    (candidate_trips
       (near_trip_ids (all_stop_ids FarRoute.stops_table)
          TwoTrips.stop_times_table) TwoTrips.trips_table) !! "R1"
    = Some "T0" ∧
  trip_stop_ids TwoTrips.stop_times_table "T0" = Some ["B"] ∧
  r_stopIds <$> routes net = [[VStr "B"]].
Proof.
  intros Hb near_set.
  pose proof (build_stops_bbox _ _ _ _ _ _ _ _ Hb) as Hstops.
  rewrite far_stops_eval in Hstops.
  assert (Hnear : near_set = {[ "A" ]}).
  { subst near_set. rewrite Hstops. vm_compute. reflexivity. }
  apply build_aston_network_inv in Hb
    as (bm & sx & near & sp & rs & _ & _ & _ & Hsp & Hrs & _ & Hroutes).
  rewrite far_shapes_eval in Hsp. injection Hsp as <-.
  cbv zeta in Hrs. rewrite two_trips_routes_eval in Hrs. injection Hrs as <-.
  rewrite Hnear, Hroutes.
  split; [done|]. split; [apply two_trips_first_near_eval|].
  split; [apply two_trips_sequences_eval|].
  split; [apply two_trips_representative_eval|].
  split; [apply two_trips_sequences_eval | done].
Qed.
End BuilderFacts.

(** * Further properties of the builder *)

Section BuilderMore.
Context {rt : PyRuntime}.

Lemma refresh_dist_fixed stop_rows sx :
  mapM add_columns stop_rows = Some sx → mapM refresh_dist sx = Some sx.
Proof.
  intros Hsx. apply mapM_Some in Hsx. apply mapM_Some.
  induction Hsx as [|r s rows sx Hs _ IH]; constructor; [|done].
  apply add_columns_inv in Hs as (_ & _ & _ & Hd).
  unfold refresh_dist. rewrite Hd. by destruct s.
Qed.

Lemma build_stops_radius stop_rows route_rows trip_rows st_rows shape_rows
    buffer_meters net :
  build_aston_network stop_rows route_rows trip_rows st_rows shape_rows
    buffer_meters None = Some net →
  ∃ bm, float_of_int buffer_meters = Some bm ∧
        stops net = omap (radius_stop (rows_upcast stop_rows)
                            (bm / 1000.0)%float) stop_rows.
Proof.
  intros Hb.
  apply build_aston_network_inv in Hb
    as (bm & sx & near & sp & rs & Hbm & Hsx & Hnear & _ & _ & -> & _).
  exists bm. split; [done|].
  simpl in Hnear. rewrite (refresh_dist_fixed _ _ Hsx) in Hnear.
  injection Hnear as <-. apply mapM_Some in Hsx.
  generalize (rows_upcast stop_rows). intros up.
  induction Hsx as [|r s rows sx Hs _ IH]; [done|].
  apply add_columns_inv in Hs as (Hrow & Hlat & Hlng & Hd).
  rewrite filter_cons.
  change (omap ?f (r :: rows))
    with (match f r with Some y => y :: omap f rows | None => omap f rows end).
  unfold radius_stop at 1. rewrite Hlat, Hlng. cbn [mbind option_bind].
  rewrite Hd. cbn [mbind option_bind].
  case_decide as Hin.
  - apply Is_true_true in Hin. rewrite Hin, fmap_cons, IH.
    unfold out_stop. by rewrite Hrow.
  - apply Is_true_false in Hin. by rewrite Hin, IH.
Qed.

Lemma built_stops_in_radius stop_rows route_rows trip_rows st_rows shape_rows
    buffer_meters net :
  build_aston_network stop_rows route_rows trip_rows st_rows shape_rows
    buffer_meters None = Some net →
  Forall (stop_in_region None buffer_meters) (stops net).
Proof.
  intros Hb. apply build_stops_radius in Hb as (bm & Hbm & ->).
  apply Forall_forall. intros s Hs.
  apply list_elem_of_omap in Hs as (r & _ & Hs).
  unfold radius_stop in Hs.
  bind_inv Hs lat Hlat. bind_inv Hs lng Hlng. bind_inv Hs d Hd.
  destruct (d <=? bm / 1000.0)%float eqn:Hle; [|done].
  injection Hs as <-. exists lat, lng. split; [done|]. split; [done|].
  by exists d, bm.
Qed.

(** X1.  The stops of a built network are, in the order of the stops
    table, exactly the rows that pass the region test, whether or not a route
    serves them.  Their id and name are printed from the row as [iterrows]
    hands it over: an integer cell prints as a float when every column of the
    stops frame is numeric, the row being then cast to float64, and as it is
    otherwise. *)
Theorem build_stops_exact stop_rows route_rows trip_rows st_rows shape_rows
    buffer_meters bbox net :
  build_aston_network stop_rows route_rows trip_rows st_rows shape_rows
    buffer_meters bbox = Some net →
  ∃ bm, float_of_int buffer_meters = Some bm ∧
        stops net = omap (region_stop (rows_upcast stop_rows) bbox
                            (bm / 1000.0)%float) stop_rows.
Proof.
  intros Hb. destruct bbox as [b|].
  - pose proof (build_stops_bbox _ _ _ _ _ _ _ _ Hb) as Hstops.
    apply build_aston_network_inv in Hb as (bm & _ & _ & _ & _ & Hbm & _).
    by exists bm.
  - by apply build_stops_radius in Hb.
Qed.

(** The [meta] object of a built network names the source and the buffer
    it was given, and its two counts are the lengths of the [stops] and
    [routes] of the same network. *)
Lemma build_meta_eq stop_rows route_rows trip_rows st_rows shape_rows
    buffer_meters bbox net :
  build_aston_network stop_rows route_rows trip_rows st_rows shape_rows
    buffer_meters bbox = Some net →
  meta net = [("source", MVal (VStr "tfwm-gtfs"));
              ("bufferMeters", MVal (VInt buffer_meters));
              ("stopsReturned", MVal (VInt (Z.of_nat (length (stops net)))));
              ("routesReturned", MVal (VInt (Z.of_nat (length (routes net)))))].
Proof.
  unfold build_aston_network. intros Hb.
  bind_inv Hb bm Hbm. bind_inv Hb sx Hsx. bind_inv Hb near Hnear.
  bind_inv Hb sp Hsp. bind_inv Hb rs Hrs.
  by injection Hb as <-.
Qed.

Lemma build_route_fields stop_id_set route_to_trip st_rows trips2 shape_points
    row r :
  build_route stop_id_set route_to_trip st_rows trips2 shape_points row
    = Some (Some r) →
  route_of_row row r.
Proof.
  unfold build_route. cbn [py_str]. intros Hr.
  destruct (route_to_trip !! py_str (route_id row)) as [trip|]; [|done].
  bind_inv Hr ids Hids.
  destruct (existsb _ ids); [|done]. simpl in Hr.
  by injection Hr as <-.
Qed.

(** X3.  The routes of a built network come in the order of the routes
    table, each row giving at most one route: the list of their ids is a
    sublist of the list of the string ids of the table. *)
Theorem build_routes_in_table_order stop_rows route_rows trip_rows st_rows
    shape_rows buffer_meters bbox net :
  build_aston_network stop_rows route_rows trip_rows st_rows shape_rows
    buffer_meters bbox = Some net →
  r_id <$> routes net
    `sublist_of` (λ row, VStr (py_str (route_id row))) <$> route_rows.
Proof.
  intros Hb.
  apply build_aston_network_inv in Hb
    as (bm & sx & near & sp & rs & _ & _ & _ & _ & Hrs & _ & ->).
  simpl in Hrs. apply mapM_Some in Hrs.
  induction Hrs as [|row o rows rs Ho _ IH]; [done|].
  destruct o as [r|].
  - change (omap id (Some r :: rs)) with (r :: omap id rs).
    rewrite !fmap_cons. apply build_route_fields in Ho as (-> & _).
    by apply sublist_skip.
  - change (omap id (None :: rs)) with (omap id rs).
    rewrite fmap_cons. by apply sublist_cons.
Qed.

(** X4.  Every route of a built network carries the short name, long name
    and colour of its row of the routes table, as strings; the colour is
    2E7D32 when the row's colour prints as the empty string, so it is never
    empty, and [headwayMins] is always absent. *)
Theorem build_route_static_fields stop_rows route_rows trip_rows st_rows
    shape_rows buffer_meters bbox net :
  build_aston_network stop_rows route_rows trip_rows st_rows shape_rows
    buffer_meters bbox = Some net →
  Forall (λ r, (∃ row, row ∈ route_rows ∧ route_of_row row r) ∧
               r_color r ≠ VStr "" ∧ r_headwayMins r = VNone)
    (routes net).
Proof.
  intros Hb.
  apply build_aston_network_inv in Hb
    as (bm & sx & near & sp & rs & _ & _ & _ & _ & Hrs & _ & ->).
  simpl in Hrs. apply Forall_forall. intros r Hr.
  destruct (build_routes_inv _ _ _ _ Hrs Hr) as (row & Hrow & Hbuild).
  apply build_route_fields in Hbuild.
  split; [by exists row|].
  destruct Hbuild as (_ & _ & _ & Hcolor & Hhead).
  split; [|done]. rewrite Hcolor. case_decide; congruence.
Qed.

(** X5.  A stops row whose latitude or longitude cannot be cast, or a shapes
    row whose sequence number or coordinates cannot be cast, makes the whole
    build fail, wherever the stop lies and whether or not the shape is
    used. *)
Theorem build_fails_on_bad_row stop_rows route_rows trip_rows st_rows
    shape_rows buffer_meters bbox :
  Exists bad_stop_row stop_rows ∨
  Exists (bad_shape_row shape_rows) shape_rows →
  build_aston_network stop_rows route_rows trip_rows st_rows shape_rows
    buffer_meters bbox = None.
Proof.
  intros Hbad. unfold build_aston_network.
  destruct (float_of_int buffer_meters) as [bm|]; [|done].
  cbn [mbind option_bind].
  destruct (mapM add_columns stop_rows) as [sx|] eqn:Hsx.
  - cbn [mbind option_bind].
    destruct (select_near bbox _ sx) as [near|]; [|done].
    cbn [mbind option_bind].
    destruct Hbad as [Hbad|Hbad].
    + apply mapM_Some in Hsx. exfalso.
      apply Exists_exists in Hbad as (r & Hr & Hbad).
      apply list_elem_of_lookup in Hr as [i Hi].
      destruct (Forall2_lookup_l _ _ _ _ _ Hsx Hi) as (s & _ & Hs).
      apply add_columns_inv in Hs as (_ & Hlat & Hlng & _).
      destruct Hbad; congruence.
    + assert (shape_points_of shape_rows = None) as ->; [|done].
      unfold shape_points_of. cbv zeta.
      assert (mapM (cast_shape (column_dtype (shape_pt_sequence <$> shape_rows)))
                shape_rows = None) as ->; [|done].
      apply mapM_None. by eapply Exists_impl.
  - done.
Qed.
End BuilderMore.

Section BuilderOutcome.
Context {rt : PyRuntime}.

Lemma filter_none {A} (P : A → Prop) `{∀ x, Decision (P x)} (l : list A) :
  (∀ x, ¬ P x) → filter P l = [].
Proof.
  intros HP. induction l as [|x l IH]; [done|].
  by rewrite filter_cons, decide_False.
Qed.

Lemma trip_stop_ids_is_Some st_rows trip :
  Forall (λ x, is_Some (astype_int (column_dtype (st_stop_sequence <$> st_rows))
                          (st_stop_sequence x))) st_rows →
  is_Some (trip_stop_ids st_rows trip).
Proof.
  intros Hall. unfold trip_stop_ids. cbv zeta.
  set (dt := column_dtype (st_stop_sequence <$> st_rows)) in *.
  assert (Hm : is_Some (mapM (λ x, sq ← astype_int dt (st_stop_sequence x);
                                   Some (sq, x))
                          (filter (λ x, py_str (st_trip_id x) = trip) st_rows))).
  { apply mapM_is_Some, Forall_forall. intros x Hx.
    apply list_elem_of_filter in Hx as [_ Hx].
    rewrite Forall_forall in Hall. destruct (Hall x Hx) as [sq Hsq].
    unfold compose. rewrite Hsq. by eexists. }
  destruct Hm as [rows ->]. by eexists.
Qed.

Lemma build_route_is_Some stop_id_set route_to_trip st_rows trips2
    shape_points row :
  Forall (λ x, is_Some (astype_int (column_dtype (st_stop_sequence <$> st_rows))
                          (st_stop_sequence x))) st_rows →
  is_Some (build_route stop_id_set route_to_trip st_rows trips2 shape_points row).
Proof.
  intros Hall. unfold build_route.
  destruct (route_to_trip !! _) as [trip|]; [|by eexists].
  destruct (trip_stop_ids_is_Some st_rows trip Hall) as [ids ->].
  cbn [mbind option_bind]. destruct (negb _); by eexists.
Qed.

(** X6.  The build returns a network as soon as the buffer converts to a
    float, every stops row gets its coordinates and distance, every shapes
    row casts and the sequence number of every stop-times row casts to a
    64-bit integer, the casts being those of the dtype of the column. *)
Theorem build_returns stop_rows route_rows trip_rows st_rows shape_rows
    buffer_meters bbox :
  is_Some (float_of_int buffer_meters) →
  Forall (λ r, is_Some (add_columns r)) stop_rows →
  Forall (λ r, is_Some (cast_shape
                          (column_dtype (shape_pt_sequence <$> shape_rows)) r))
    shape_rows →
  Forall (λ x, is_Some (astype_int (column_dtype (st_stop_sequence <$> st_rows))
                          (st_stop_sequence x))) st_rows →
  is_Some (build_aston_network stop_rows route_rows trip_rows st_rows
             shape_rows buffer_meters bbox).
Proof.
  intros [bm Hbm] Hstops Hshapes Hseq. unfold build_aston_network.
  rewrite Hbm. cbn [mbind option_bind].
  destruct (mapM_is_Some_2 add_columns stop_rows Hstops) as [sx Hsx].
  rewrite Hsx. cbn [mbind option_bind].
  assert (Hnear : is_Some (select_near bbox (bm / 1000.0)%float sx)).
  { destruct bbox as [b|]; simpl; [by eexists|].
    rewrite (refresh_dist_fixed _ _ Hsx). by eexists. }
  destruct Hnear as [near ->]. cbn [mbind option_bind].
  assert (Hsp : is_Some (shape_points_of shape_rows)).
  { unfold shape_points_of. cbv zeta.
    destruct (mapM_is_Some_2 _ shape_rows Hshapes) as [sh ->].
    by eexists. }
  destruct Hsp as [sp ->]. cbn [mbind option_bind].
  match goal with
  | |- is_Some (mapM ?f route_rows ≫= _) =>
      assert (Hrs : is_Some (mapM f route_rows))
  end.
  { apply mapM_is_Some, Forall_forall. intros row _.
    by apply build_route_is_Some. }
  destruct Hrs as [rs ->]. by eexists.
Qed.

(** X7.  A feed without stops, without stop-times or without trips gives a
    network without routes: no trip is a candidate, so every row of the
    routes table is skipped. *)
Theorem build_no_routes_without_trips stop_rows route_rows trip_rows st_rows
    shape_rows buffer_meters bbox net :
  stop_rows = [] ∨ st_rows = [] ∨ trip_rows = [] →
  build_aston_network stop_rows route_rows trip_rows st_rows shape_rows
    buffer_meters bbox = Some net →
  routes net = [].
Proof.
  intros Hempty Hb.
  apply build_aston_network_inv in Hb
    as (bm & sx & near & sp & rs & _ & _ & _ & _ & Hrs & _ & ->).
  cbv zeta in Hrs.
  assert (Hcand : candidate_trips
                    (near_trip_ids (all_stop_ids stop_rows) st_rows) trip_rows
                  = []).
  { rewrite candidate_trips_eq.
    assert (Hids : near_trip_ids (all_stop_ids stop_rows) st_rows = ∅
                   ∨ trip_rows = []).
    { destruct Hempty as [->|[->| ->]]; [left|left|by right].
      - unfold near_trip_ids. rewrite filter_none; [done|].
        intros x. unfold all_stop_ids. simpl. set_solver.
      - done. }
    destruct Hids as [->| ->]; [|done].
    rewrite filter_none; [done|]. intros t. set_solver. }
  rewrite Hcand in Hrs. apply mapM_Some in Hrs.
  induction Hrs as [|row o rows rs Ho _ IH]; [done|].
  unfold build_route in Ho. rewrite route_to_trip_of_lookup in Ho.
  simpl in Ho. injection Ho as <-. exact IH.
Qed.

(** X8.  The routes of a built network do not depend on the region: two
    builds of the same feed, with any buffers and any boxes, return the same
    routes. *)
Theorem build_routes_ignore_region stop_rows route_rows trip_rows st_rows
    shape_rows buffer1 bbox1 net1 buffer2 bbox2 net2 :
  build_aston_network stop_rows route_rows trip_rows st_rows shape_rows
    buffer1 bbox1 = Some net1 →
  build_aston_network stop_rows route_rows trip_rows st_rows shape_rows
    buffer2 bbox2 = Some net2 →
  routes net1 = routes net2.
Proof.
  intros Hb1 Hb2.
  apply build_aston_network_inv in Hb1
    as (? & ? & ? & sp1 & rs1 & _ & _ & _ & Hsp1 & Hrs1 & _ & ->).
  apply build_aston_network_inv in Hb2
    as (? & ? & ? & sp2 & rs2 & _ & _ & _ & Hsp2 & Hrs2 & _ & ->).
  assert (sp1 = sp2) as -> by congruence.
  cbv zeta in Hrs1, Hrs2. congruence.
Qed.
End BuilderOutcome.

(** ** The order of strings and of shape rows *)

Lemma string_compare_refl (s : string) : String.compare s s = Eq.
Proof.
  induction s as [|a s IH]; [done|]. simpl.
  unfold Ascii.compare. by rewrite N.compare_refl.
Qed.

Lemma string_compare_lt_trans (s1 s2 s3 : string) :
  String.compare s1 s2 = Lt → String.compare s2 s3 = Lt →
  String.compare s1 s3 = Lt.
Proof.
  revert s2 s3. induction s1 as [|a s1 IH]; intros [|b s2] [|c s3]; simpl;
    try done.
  destruct (Ascii.compare a b) eqn:Hab; try done;
    destruct (Ascii.compare b c) eqn:Hbc; try done; intros H12 H23.
  - apply Ascii.compare_eq_iff in Hab as ->.
    rewrite Hbc. by eapply IH.
  - apply Ascii.compare_eq_iff in Hab as ->. by rewrite Hbc.
  - apply Ascii.compare_eq_iff in Hbc as <-. by rewrite Hab.
  - unfold Ascii.compare in *.
    apply N.compare_lt_iff in Hab. apply N.compare_lt_iff in Hbc.
    pose proof (N.lt_trans _ _ _ Hab Hbc) as Hac.
    apply N.compare_lt_iff in Hac. by rewrite Hac.
Qed.

Lemma shape_leb_total (x y : ShapeX) :
  shape_leb x y = true ∨ shape_leb y x = true.
Proof.
  unfold shape_leb, String.ltb.
  rewrite (String.compare_antisym (shx_id x) (shx_id y)).
  destruct (String.compare (shx_id y) (shx_id x)) eqn:Hc; simpl; auto.
  apply String.compare_eq_iff in Hc. rewrite Hc, String.eqb_refl. simpl.
  destruct (Z.leb_spec (shx_seq x) (shx_seq y)); [by left|right].
  apply Z.leb_le. lia.
Qed.

Lemma shape_leb_trans (x y z : ShapeX) :
  shape_leb x y = true → shape_leb y z = true → shape_leb x z = true.
Proof.
  unfold shape_leb, String.ltb. intros Hxy Hyz.
  apply orb_true_iff in Hxy as [Hxy|Hxy]; apply orb_true_iff in Hyz as [Hyz|Hyz].
  - destruct (String.compare (shx_id x) (shx_id y)) eqn:H1; try done.
    destruct (String.compare (shx_id y) (shx_id z)) eqn:H2; try done.
    by rewrite (string_compare_lt_trans _ _ _ H1 H2).
  - apply andb_true_iff in Hyz as [Heq _].
    apply String.eqb_eq in Heq. rewrite <-Heq.
    by rewrite Hxy.
  - apply andb_true_iff in Hxy as [Heq _].
    apply String.eqb_eq in Heq. rewrite Heq.
    by rewrite Hyz.
  - apply andb_true_iff in Hxy as [Heq1 Hs1].
    apply andb_true_iff in Hyz as [Heq2 Hs2].
    apply String.eqb_eq in Heq1, Heq2. rewrite Heq1, Heq2, String.eqb_refl.
    apply Z.leb_le in Hs1, Hs2.
    assert ((shx_seq x <=? shx_seq z)%Z = true) as -> by (apply Z.leb_le; lia).
    by rewrite orb_true_r.
Qed.

Lemma shape_leb_same_id (x y : ShapeX) :
  shx_id x = shx_id y → shape_leb x y = true → (shx_seq x ≤ shx_seq y)%Z.
Proof.
  unfold shape_leb, String.ltb. intros ->.
  rewrite string_compare_refl, String.eqb_refl. simpl.
  apply Z.leb_le.
Qed.

Lemma StronglySorted_filter {A} (R : relation A) (P : A → Prop)
    `{∀ x, Decision (P x)} (l : list A) :
  StronglySorted R l → StronglySorted R (filter P l).
Proof.
  induction 1 as [|x l _ IH Hx]; [constructor|].
  rewrite filter_cons. case_decide; [|done].
  constructor; [done|].
  apply Forall_forall. intros y Hy.
  apply list_elem_of_filter in Hy as [_ Hy].
  by eapply Forall_forall in Hx.
Qed.

Lemma sort_shapes_group (cast : list ShapeX) (sid : string) :
  let g := filter (λ x, shx_id x = sid) (sort_shapes cast) in
  g ≡ₚ filter (λ x, shx_id x = sid) cast ∧
  Sorted (λ x y, (shx_seq x ≤ shx_seq y)%Z) g.
Proof.
  simpl. unfold sort_shapes. split.
  - by rewrite merge_sort_Permutation.
  - assert (Htrans : Transitive (λ x y : ShapeX, Is_true (shape_leb x y))).
    { intros x y z Hxy Hyz. apply Is_true_true.
      apply Is_true_true in Hxy, Hyz. by eapply shape_leb_trans. }
    assert (Htotal : Total (λ x y : ShapeX, Is_true (shape_leb x y))).
    { intros x y. destruct (shape_leb_total x y) as [Hl|Hl];
        [left|right]; by apply Is_true_true. }
    pose proof (StronglySorted_merge_sort
                  (λ x y : ShapeX, Is_true (shape_leb x y)) cast) as Hs.
    apply (StronglySorted_filter _ (λ x, shx_id x = sid)) in Hs.
    apply StronglySorted_Sorted.
    assert (Hid : Forall (λ x, shx_id x = sid)
                    (filter (λ x, shx_id x = sid)
                       (merge_sort (λ x y : ShapeX, Is_true (shape_leb x y)) cast))).
    { apply Forall_forall. intros x Hx.
      by apply list_elem_of_filter in Hx as [? _]. }
    induction Hs as [|x l _ IH Hx]; [constructor|].
    apply Forall_cons in Hid as [Hidx Hid].
    constructor; [by apply IH|].
    apply Forall_forall. intros y Hy.
    apply shape_leb_same_id.
    + rewrite Forall_forall in Hid. by rewrite Hidx, (Hid y Hy).
    + apply Is_true_true. by eapply Forall_forall in Hx.
Qed.

Section BuilderShapes.
Context {rt : PyRuntime}.

Lemma shape_points_of_lookup shape_rows sp sid :
  shape_points_of shape_rows = Some sp →
  is_shape_polyline shape_rows sid (default [] (sp !! sid)).
Proof.
  unfold shape_points_of. intros Hsp.
  bind_inv Hsp cast Hcast. injection Hsp as <-.
  rewrite lookup_fmap, groupby_lookup.
  destruct (sort_shapes_group cast sid) as [Hperm Hsorted].
  exists cast, (filter (λ x, shx_id x = sid) (sort_shapes cast)).
  split_and!; [done..|].
  by destruct (filter _ (sort_shapes cast)).
Qed.

(** X9.  The shape of every route of a built network is the polyline of the
    trip kept for the route: the points of the rows of the shapes table that
    carry the trip's [shape_id], sorted by sequence number, cast to a 64-bit
    integer as the column is by [astype(int)]; it is empty when the trip has
    no [shape_id]. *)
Theorem route_shape_is_trip_polyline stop_rows route_rows trip_rows st_rows
    shape_rows buffer_meters bbox net :
  build_aston_network stop_rows route_rows trip_rows st_rows shape_rows
    buffer_meters bbox = Some net →
  Forall (has_trip_shape stop_rows route_rows trip_rows st_rows shape_rows)
    (routes net).
Proof.
  intros Hb.
  apply build_aston_network_inv in Hb
    as (bm & sx & near & sp & rs & _ & _ & _ & Hsp & Hrs & _ & ->).
  cbv zeta in Hrs. apply Forall_forall. intros r Hr.
  destruct (build_routes_inv _ _ _ _ Hrs Hr) as (row & Hrow & Hbuild).
  apply build_route_inv in Hbuild
    as (trip & ids & Htrip & _ & _ & Hid & _ & Hshape).
  pose proof Htrip as Hfirst. rewrite route_to_trip_of_lookup in Hfirst.
  destruct (head (filter _ _)) as [t0|] eqn:Hhead; [|done].
  injection Hfirst as Hfirst.
  apply head_Some_elem_of, list_elem_of_filter in Hhead as [_ Ht0].
  assert (Hne : ∃ t, head (filter (λ t, py_str (trip_id t) = trip)
                             (candidate_trips
                                (near_trip_ids (all_stop_ids stop_rows) st_rows)
                                trip_rows)) = Some t).
  { destruct (filter (λ t, py_str (trip_id t) = trip) _) as [|t l] eqn:Hf;
      [|by exists t].
    assert (t0 ∈ ([] : list TripRow)); [|set_solver].
    rewrite <-Hf. by apply list_elem_of_filter. }
  destruct Hne as [t Ht].
  exists row, trip, t. split_and!; try done.
  rewrite Hshape. unfold trip_shape.
  destruct (filter (λ t, py_str (trip_id t) = trip) _) as [|t' l]; [done|].
  injection Ht as ->.
  destruct (pd_isna (trip_shape_id t)); [done|].
  by apply shape_points_of_lookup.
Qed.
End BuilderShapes.

(** * Further properties of the filter *)

Lemma dict_get_update_eq {V} (k : string) (v : V) (d : list (string * V)) :
  dict_get k (dict_update k v d) = Some v.
Proof.
  induction d as [|[k' v'] d IH]; simpl.
  - by rewrite decide_True.
  - destruct (decide (k' = k)) as [->|Hne]; simpl.
    + by rewrite decide_True.
    + by rewrite decide_False.
Qed.

Lemma dict_get_update_ne {V} (k k0 : string) (v : V) (d : list (string * V)) :
  k0 ≠ k → dict_get k0 (dict_update k v d) = dict_get k0 d.
Proof.
  intros Hne. induction d as [|[k' v'] d IH]; simpl.
  - by rewrite decide_False.
  - destruct (decide (k' = k)) as [->|Hne']; simpl.
    + by rewrite !decide_False.
    + by rewrite IH.
Qed.

Lemma dict_update_keys {V} (k : string) (v : V) (d : list (string * V)) :
  (dict_update k v d).*1 =
    match dict_get k d with Some _ => d.*1 | None => d.*1 ++ [k] end.
Proof.
  induction d as [|[k' v'] d IH]; [done|].
  cbn [dict_update dict_get].
  destruct (decide (k' = k)) as [->|Hne]; [done|].
  rewrite !fmap_cons, IH. by destruct (dict_get k d).
Qed.

Lemma filter_sublist_impl {A} (P Q : A → Prop) `{∀ x, Decision (P x)}
    `{∀ x, Decision (Q x)} (l : list A) :
  (∀ x, P x → Q x) → filter P l `sublist_of` filter Q l.
Proof.
  intros HPQ. induction l as [|x l IH]; [done|].
  rewrite !filter_cons.
  destruct (decide (P x)) as [HP|HP].
  - rewrite decide_True by auto. by apply sublist_skip.
  - destruct (decide (Q x)); [by apply sublist_cons | done].
Qed.

Lemma is_nan_Prim2SF (x : float) : is_nan x = true → Prim2SF x = S754_nan.
Proof.
  unfold is_nan. rewrite FloatAxioms.eqb_spec.
  destruct (Prim2SF x) as [s|s| |s m e]; [| |done|].
  - destruct s; simpl; discriminate.
  - destruct s; simpl; discriminate.
  - unfold SFeqb, SFcompare.
    destruct s; rewrite Z.compare_refl, Pos.compare_cont_refl; simpl;
      discriminate.
Qed.

Lemma leb_nan_l (x y : float) : is_nan x = true → (x <=? y)%float = false.
Proof. intros Hx. by rewrite leb_spec, (is_nan_Prim2SF _ Hx). Qed.

Lemma leb_nan_r (x y : float) : is_nan y = true → (x <=? y)%float = false.
Proof.
  intros Hy. rewrite leb_spec, (is_nan_Prim2SF _ Hy).
  by destruct (Prim2SF x) as [[]|[]| |[]].
Qed.

Lemma in_bbox_nan (b : BBox) (lat lng : float) :
  nan_box b = true → in_bbox b lat lng = false.
Proof.
  unfold nan_box, in_bbox. rewrite !orb_true_iff.
  intros [[[Hn|Hn]|Hn]|Hn].
  - by rewrite (leb_nan_l _ lat Hn).
  - rewrite (leb_nan_r lat _ Hn). by rewrite andb_false_r.
  - rewrite (leb_nan_l _ lng Hn). by rewrite andb_false_r.
  - rewrite (leb_nan_r lng _ Hn). by rewrite andb_false_r.
Qed.

Section FilterMore.
Context {rt : PyRuntime}.

(** X10.  The [meta] object of the filtered network reads back the filter
    parameters under the key [filter], keeps the value of every other key,
    and keeps the keys in their order, [filter] going last when it is
    new. *)
Theorem filter_meta_roundtrip net b m c :
  let out := filter_network_by_bbox net b m c in
  dict_get "filter" (meta out) = Some (MFilter b m c) ∧
  (∀ k, k ≠ "filter" → dict_get k (meta out) = dict_get k (meta net)) ∧
  (meta out).*1 =
    match dict_get "filter" (meta net) with
    | Some _ => (meta net).*1
    | None => (meta net).*1 ++ ["filter"]
    end.
Proof.
  simpl. rewrite filter_network_by_bbox_spec. simpl. split_and!.
  - apply dict_get_update_eq.
  - intros k Hk. by apply dict_get_update_ne.
  - apply dict_update_keys.
Qed.

Lemma length_omap_le {A B} (f : A → option B) (l : list A) :
  length (omap f l) ≤ length l.
Proof.
  induction l as [|x l IH]; [done|].
  change (omap f (x :: l))
    with (match f x with Some y => y :: omap f l | None => omap f l end).
  destruct (f x); simpl; lia.
Qed.

(** X2.  The two counts of the [meta] object of a built network are
    numbers of rows that passed: at most the number of rows of the stops
    table and of the routes table.  The filter carries both counts over as
    they are, while it can only shorten the lists: in the filtered network
    they are the counts of the build, upper bounds of the numbers of stops
    and routes it holds. *)
Theorem meta_counts_after_filter stop_rows route_rows trip_rows st_rows
    shape_rows buffer_meters bbox net b m c :
  build_aston_network stop_rows route_rows trip_rows st_rows shape_rows
    buffer_meters bbox = Some net →
  let out := filter_network_by_bbox net b m c in
  ∃ ns nr : nat,
    dict_get "stopsReturned" (meta net) = Some (MVal (VInt (Z.of_nat ns))) ∧
    dict_get "routesReturned" (meta net) = Some (MVal (VInt (Z.of_nat nr))) ∧
    ns = length (stops net) ∧ nr = length (routes net) ∧
    ns ≤ length stop_rows ∧ nr ≤ length route_rows ∧
    dict_get "stopsReturned" (meta out) = Some (MVal (VInt (Z.of_nat ns))) ∧
    dict_get "routesReturned" (meta out) = Some (MVal (VInt (Z.of_nat nr))) ∧
    length (stops out) ≤ ns ∧ length (routes out) ≤ nr.
Proof.
  intros Hb out. exists (length (stops net)), (length (routes net)).
  pose proof (build_meta_eq _ _ _ _ _ _ _ _ Hb) as Hmeta.
  assert (Hstops : length (stops net) ≤ length stop_rows).
  { destruct bbox as [b0|].
    - rewrite (build_stops_bbox _ _ _ _ _ _ _ _ Hb). apply length_omap_le.
    - destruct (build_stops_radius _ _ _ _ _ _ _ Hb) as (bm & _ & ->).
      apply length_omap_le. }
  assert (Hroutes : length (routes net) ≤ length route_rows).
  { apply build_aston_network_inv in Hb
      as (bm & sx & near & sp & rs & _ & _ & _ & _ & Hrs & _ & ->).
    cbv zeta in Hrs. apply mapM_Some, Forall2_length in Hrs.
    rewrite Hrs. apply length_omap_le. }
  subst out. rewrite filter_network_by_bbox_spec. simpl.
  rewrite !dict_get_update_ne by discriminate.
  rewrite Hmeta. split_and!; try done.
  - apply length_filter.
  - rewrite length_fmap. apply length_filter.
Qed.

(** X11.  With [clip_shapes] false the filter leaves the shape of every
    surviving route as it was. *)
Theorem filter_no_clip_keeps_shapes net b m :
  Forall2 (λ r r', r_shape r' = r_shape r)
    (surviving_routes b m net)
    (routes (filter_network_by_bbox net b m false)).
Proof.
  rewrite filter_network_by_bbox_spec. simpl.
  apply Forall2_fmap_r, Forall_Forall2_diag, Forall_forall.
  intros r _. unfold compose. by rewrite copy_route_shape.
Qed.

(** X12.  The filter adds and reorders nothing: its stops are a sublist of
    the input stops, and the ids of its routes a sublist of the ids of the
    input routes. *)
Theorem filter_output_sublists net b m c :
  let out := filter_network_by_bbox net b m c in
  stops out `sublist_of` stops net ∧
  r_id <$> routes out `sublist_of` r_id <$> routes net.
Proof.
  simpl. rewrite filter_network_by_bbox_spec. simpl. split.
  - apply sublist_filter.
  - rewrite <-list_fmap_compose.
    rewrite (list_fmap_ext (r_id ∘ copy_route b c) r_id).
    + apply fmap_sublist, sublist_filter.
    + intros _ r _. unfold compose. by rewrite copy_route_eq.
Qed.
End FilterMore.

Lemma filter_all {A} (P : A → Prop) `{∀ x, Decision (P x)} (l : list A) :
  (∀ x, P x) → filter P l = l.
Proof.
  intros HP. induction l as [|x l IH]; [done|].
  by rewrite filter_cons, decide_True, IH.
Qed.

Section FilterThreshold.
Context {rt : PyRuntime}.

(** X13.  Raising the threshold only removes routes: the routes kept with
    a larger [min_stops_in_area] are a sublist of those kept with a smaller
    one. *)
Theorem filter_threshold_monotone net b m m' c :
  (m ≤ m')%Z →
  routes (filter_network_by_bbox net b m' c)
    `sublist_of` routes (filter_network_by_bbox net b m c).
Proof.
  intros Hm. rewrite !filter_network_by_bbox_spec. simpl.
  apply fmap_sublist. unfold surviving_routes.
  apply filter_sublist_impl. intros r. lia.
Qed.

(** X14.  A threshold of zero or less drops no route: every input route is
    copied to the output, even when none of its stops is retained. *)
Theorem filter_threshold_zero_keeps_all net b m c :
  (m ≤ 0)%Z →
  routes (filter_network_by_bbox net b m c) = copy_route b c <$> routes net.
Proof.
  intros Hm. rewrite filter_network_by_bbox_spec. simpl.
  f_equal. unfold surviving_routes.
  apply filter_all. intros r. unfold retained_count. lia.
Qed.

(** X15.  A box with a bound that is not a number holds no point: the
    filter returns no stop, every shape keeps its original points, and a
    route survives only under a threshold of zero or less. *)
Theorem filter_nan_box net b m c :
  nan_box b = true →
  let out := filter_network_by_bbox net b m c in
  stops out = [] ∧
  routes out = (if bool_decide (m ≤ 0)%Z
                then copy_route b c <$> routes net else []) ∧
  Forall2 (λ r r', r_shape r' = r_shape r)
    (surviving_routes b m net) (routes out).
Proof.
  intros Hnan. simpl. rewrite filter_network_by_bbox_spec. simpl.
  assert (Hstops : filter (λ s, stop_in_box b s) (stops net) = []).
  { apply filter_none. intros s. unfold stop_in_box.
    destruct (stop_coords s) as [[lat lng]|]; [|simpl; tauto].
    rewrite in_bbox_nan by done. simpl. tauto. }
  assert (Hcount : ∀ r, retained_count b net r = 0%Z).
  { intros r. unfold retained_count, retained_ids. rewrite Hstops. simpl.
    rewrite filter_none; [done|]. intros sid. set_solver. }
  split_and!.
  - done.
  - unfold surviving_routes. case_bool_decide as Hm.
    + rewrite filter_all; [done|]. intros r. rewrite Hcount. lia.
    + rewrite filter_none; [done|]. intros r. rewrite Hcount. lia.
  - apply Forall2_fmap_r, Forall_Forall2_diag, Forall_forall.
    intros r _. unfold compose. rewrite copy_route_shape.
    assert (clip_shape b (r_shape r) = []) as ->; [|by rewrite andb_false_r].
    rewrite clip_shape_spec.
    induction (r_shape r) as [|pt l IH]; [done|].
    change (omap (clip_one b) (pt :: l))
      with (match clip_one b pt with
            | Some q => q :: omap (clip_one b) l
            | None => omap (clip_one b) l
            end).
    unfold clip_one at 1.
    destruct (point_coords pt) as [[plat plng]|]; [|done].
    by rewrite in_bbox_nan.
Qed.
End FilterThreshold.

(** * The builder and the filter together *)

Section CleanNetworks.
Context {rt : PyRuntime}.

Lemma trip_shape_points trips2 shape_rows sp trip :
  shape_points_of shape_rows = Some sp →
  Forall (λ pt, ∃ lat lng, pt = [VFloat lat; VFloat lng])
    (trip_shape trips2 sp trip).
Proof.
  intros Hsp. unfold trip_shape.
  destruct (filter _ trips2) as [|t l]; [constructor|].
  destruct (pd_isna (trip_shape_id t)); [constructor|].
  destruct (shape_points_of_lookup _ _ (py_str (trip_shape_id t)) Hsp)
    as (cast & rows & _ & _ & _ & ->).
  apply Forall_fmap, Forall_forall. intros p _. simpl. eauto.
Qed.

Lemma built_network_clean stop_rows route_rows trip_rows st_rows shape_rows
    buffer_meters bbox net :
  build_aston_network stop_rows route_rows trip_rows st_rows shape_rows
    buffer_meters bbox = Some net →
  clean_network net.
Proof.
  intros Hb.
  apply build_aston_network_inv in Hb
    as (bm & sx & near & sp & rs & _ & _ & _ & Hsp & Hrs & Hs & Hr).
  cbv zeta in Hrs. unfold clean_network. rewrite Hs, Hr. clear Hs Hr. split.
  - apply Forall_fmap, Forall_forall. intros s _.
    unfold compose, clean_stop, out_stop. eauto.
  - apply Forall_forall. intros r Hr.
    destruct (build_routes_inv _ _ _ _ Hrs Hr) as (row & _ & Hbuild).
    apply build_route_inv in Hbuild
      as (trip & ids & _ & _ & _ & _ & Hids & Hshape).
    split.
    + rewrite Hids. apply Forall_fmap, Forall_forall. intros sid _.
      simpl. eauto.
    + rewrite Hshape. by eapply trip_shape_points.
Qed.

(** X16.  A built network is clean: the ids and names of its stops are
    strings and their coordinates floats, every entry of [stopIds] is a
    string and every shape point a pair of floats. *)
Theorem build_is_clean stop_rows route_rows trip_rows st_rows shape_rows
    buffer_meters bbox net :
  build_aston_network stop_rows route_rows trip_rows st_rows shape_rows
    buffer_meters bbox = Some net →
  clean_network net.
Proof. apply built_network_clean. Qed.

Lemma clean_stop_coords s :
  clean_stop s → ∃ lat lng, stop_coords s = Some (lat, lng) ∧
                            s_lat s = VFloat lat ∧ s_lng s = VFloat lng.
Proof. intros (sid & name & lat & lng & ->). by exists lat, lng. Qed.

Lemma clip_clean_shape b shape :
  Forall (λ pt, ∃ lat lng, pt = [VFloat lat; VFloat lng]) shape →
  clip_shape b shape = filter (λ pt, is_Some (clip_one b pt)) shape.
Proof.
  intros Hshape. rewrite clip_shape_spec.
  induction Hshape as [|pt l (lat & lng & ->) _ IH]; [done|].
  rewrite filter_cons.
  change (omap (clip_one b) ([VFloat lat; VFloat lng] :: l))
    with (match clip_one b [VFloat lat; VFloat lng] with
          | Some q => q :: omap (clip_one b) l
          | None => omap (clip_one b) l
          end).
  rewrite IH.
  assert (Hone : clip_one b [VFloat lat; VFloat lng] =
                 if in_bbox b lat lng then Some [VFloat lat; VFloat lng]
                 else None) by done.
  rewrite Hone. destruct (in_bbox b lat lng).
  - rewrite decide_True; [done | by eexists].
  - rewrite decide_False; [done | by intros [? ?]].
Qed.

Lemma filter_keeps_clean net b m c :
  clean_network net →
  let out := filter_network_by_bbox net b m c in
  clean_network out ∧
  Forall stop_coercible (stops net) ∧
  Forall2 (λ r r', r_stopIds r' = r_stopIds r ∧
                   r_shape r' `sublist_of` r_shape r)
    (surviving_routes b m net) (routes out).
Proof.
  intros [Hstops Hroutes]. simpl.
  rewrite filter_network_by_bbox_spec. simpl.
  assert (Hcopy : ∀ r, clean_route r →
            r_stopIds (copy_route b c r) = r_stopIds r ∧
            r_shape (copy_route b c r) `sublist_of` r_shape r).
  { intros r [Hids Hshape]. split.
    - rewrite copy_route_stopIds.
      induction Hids as [|x l [sid ->] _ IH]; [done|].
      by rewrite fmap_cons, IH.
    - rewrite copy_route_shape.
      destruct (c && _); [|done].
      rewrite (clip_clean_shape _ _ Hshape). apply sublist_filter. }
  split_and!.
  - split; simpl.
    + apply Forall_forall. intros s Hs.
      apply list_elem_of_filter in Hs as [_ Hs].
      by eapply Forall_forall in Hstops.
    + apply Forall_fmap, Forall_forall. intros r Hr.
      apply list_elem_of_filter in Hr as [_ Hr].
      rewrite Forall_forall in Hroutes. specialize (Hroutes r Hr).
      destruct (Hcopy r Hroutes) as [Hids Hsub].
      destruct Hroutes as [Hcids Hcshape].
      split; unfold compose.
      * by rewrite Hids.
      * eapply Forall_forall. intros pt Hpt.
        rewrite Forall_forall in Hcshape. apply Hcshape.
        by eapply elem_of_sublist.
  - apply Forall_forall. intros s Hs.
    rewrite Forall_forall in Hstops.
    destruct (clean_stop_coords s (Hstops s Hs)) as (lat & lng & Hc & _).
    unfold stop_coercible. rewrite Hc. by eexists.
  - apply Forall2_fmap_r, Forall_Forall2_diag, Forall_forall.
    intros r Hr. apply list_elem_of_filter in Hr as [_ Hr].
    rewrite Forall_forall in Hroutes. by apply Hcopy, Hroutes.
Qed.

(** X17.  On a clean network the filter skips nothing as malformed and
    rewrites nothing: its output is clean again, the [stopIds] of a surviving
    route are unchanged, and its shape is a sublist of the original shape. *)
Theorem filter_clean_network net b m c :
  clean_network net →
  let out := filter_network_by_bbox net b m c in
  clean_network out ∧
  Forall stop_coercible (stops net) ∧
  Forall2 (λ r r', r_stopIds r' = r_stopIds r ∧
                   r_shape r' `sublist_of` r_shape r)
    (surviving_routes b m net) (routes out).
Proof. apply filter_keeps_clean. Qed.
End CleanNetworks.

(** * Loading the feed and serving the network *)

Section ParseFacts.
Context {DataFrame Exn : Type}.
Variable path_join : string → string → string.
Variable path_exists : string → bool.
Variable read_csv : string → Exn + DataFrame.

#[local] Abbreviation read_table := (read_gtfs_table path_join path_exists read_csv).
#[local] Abbreviation load := (load_gtfs path_join path_exists read_csv).
#[local] Abbreviation readable_file := (readable path_join path_exists read_csv).

Lemma read_gtfs_table_missing dir f log :
  path_exists (path_join dir f) = false →
  read_table dir f log
    = (inl (FileNotFoundError ("Missing GTFS file: " +:+ path_join dir f)), log).
Proof. intros He. unfold read_gtfs_table. by rewrite He. Qed.

Lemma read_gtfs_table_readable dir f log :
  readable_file dir f →
  ∃ df, read_csv (path_join dir f) = inr df ∧
        read_table dir f log = (inr df, log ++ [path_join dir f]).
Proof.
  intros [He [df Hdf]]. exists df. split; [done|].
  unfold read_gtfs_table. by rewrite He, Hdf.
Qed.

Lemma read_gtfs_table_inr dir f log df log' :
  read_table dir f log = (inr df, log') →
  path_exists (path_join dir f) = true ∧
  read_csv (path_join dir f) = inr df ∧ log' = log ++ [path_join dir f].
Proof.
  unfold read_gtfs_table.
  destruct (path_exists (path_join dir f)); simpl; [|intros [=]].
  destruct (read_csv (path_join dir f)); intros [= <- <-]; done.
Qed.

Lemma load_first_missing dir log pre f post :
  gtfs_files = pre ++ f :: post →
  Forall (readable_file dir) pre →
  path_exists (path_join dir f) = false →
  load dir log
    = (inl (FileNotFoundError ("Missing GTFS file: " +:+ path_join dir f)),
       log ++ (path_join dir <$> pre)).
Proof.
  intros Hfiles Hpre Hf. unfold load_gtfs, gtfs_files in *.
  repeat match goal with
  | H : Forall _ (_ :: _) |- _ => apply Forall_cons in H as [? H]
  end.
  destruct pre as [|p1 [|p2 [|p3 [|p4 [|p5 pre]]]]];
    simplify_list_eq;
    repeat match goal with
    | H : Forall _ (_ :: _) |- _ => apply Forall_cons in H as [? H]
    end;
    unfold mbind, load_bind;
    repeat match goal with
    | H : readable_file dir ?g |- context [read_table dir ?g ?l] =>
        let df := fresh "df" in
        destruct (read_gtfs_table_readable dir g l H) as (df & _ & ->)
    end;
    rewrite ?read_gtfs_table_missing by done;
    rewrite <-?app_assoc; try done.
  by destruct pre.
Qed.

(** X18.  When a file of the feed is missing and the files before it, in
    the order stops, routes, trips, stop_times, shapes, are there and
    readable, loading raises [FileNotFoundError] with the path of that file in
    its message, after reading the files before it and none after it. *)
Theorem load_gtfs_first_missing dir log pre f post :
  gtfs_files = pre ++ f :: post →
  Forall (readable_file dir) pre →
  path_exists (path_join dir f) = false →
  load dir log
    = (inl (FileNotFoundError ("Missing GTFS file: " +:+ path_join dir f)),
       log ++ (path_join dir <$> pre)).
Proof. apply load_first_missing. Qed.

(** X19.  Loading returns the five frames exactly when the five files are
    there and readable; the frames are those of [stops.txt], [routes.txt],
    [trips.txt], [stop_times.txt] and [shapes.txt], in that order, and each
    file is read once, in that order. *)
Theorem load_gtfs_returns dir log s r t st sh log' :
  load dir log = (inr (s, r, t, st, sh), log') ↔
  Forall (λ f, path_exists (path_join dir f) = true) gtfs_files ∧
  read_csv (path_join dir "stops.txt") = inr s ∧
  read_csv (path_join dir "routes.txt") = inr r ∧
  read_csv (path_join dir "trips.txt") = inr t ∧
  read_csv (path_join dir "stop_times.txt") = inr st ∧
  read_csv (path_join dir "shapes.txt") = inr sh ∧
  log' = log ++ (path_join dir <$> gtfs_files).
Proof.
  unfold load_gtfs, gtfs_files, mbind, load_bind, mret, load_ret. split.
  - intros Hload.
    destruct (read_table dir "stops.txt" log) as [[e|s0] l1] eqn:H1; [done|].
    destruct (read_table dir "routes.txt" l1) as [[e|r0] l2] eqn:H2; [done|].
    destruct (read_table dir "trips.txt" l2) as [[e|t0] l3] eqn:H3; [done|].
    destruct (read_table dir "stop_times.txt" l3) as [[e|st0] l4] eqn:H4;
      [done|].
    destruct (read_table dir "shapes.txt" l4) as [[e|sh0] l5] eqn:H5; [done|].
    injection Hload as <- <- <- <- <- <-.
    apply read_gtfs_table_inr in H1 as (? & ? & ->).
    apply read_gtfs_table_inr in H2 as (? & ? & ->).
    apply read_gtfs_table_inr in H3 as (? & ? & ->).
    apply read_gtfs_table_inr in H4 as (? & ? & ->).
    apply read_gtfs_table_inr in H5 as (? & ? & ->).
    split_and!; try done.
    + by repeat constructor.
    + by rewrite <-!app_assoc.
  - intros (Hex & Hs & Hr & Ht & Hst & Hsh & ->).
    repeat match goal with
    | H : Forall _ (_ :: _) |- _ => apply Forall_cons in H as [? H]
    end.
    unfold read_gtfs_table.
    repeat match goal with
    | H : path_exists _ = true |- _ => rewrite H; clear H
    end.
    simpl. rewrite Hs, Hr, Ht, Hst, Hsh. by rewrite <-!app_assoc.
Qed.
End ParseFacts.

Section ServerFacts.
Context {rt : PyRuntime} {DataFrame Exn : Type}.
Variable path_join : string → string → string.
Variable path_exists : string → bool.
Variable read_csv : string → Exn + DataFrame.
Variable gtfs_dir : string.
Variable stops_of : DataFrame → list StopRow.
Variable routes_of : DataFrame → list RouteRow.
Variable trips_of : DataFrame → list TripRow.
Variable stop_times_of : DataFrame → list StopTimeRow.
Variable shapes_of : DataFrame → list ShapeRow.

#[local] Abbreviation handler :=
  (get_network path_join path_exists read_csv gtfs_dir stops_of routes_of
     trips_of stop_times_of shapes_of).

(** X20.  A missing file of the feed turns into an HTTP 400 whose detail is
    the message of the [FileNotFoundError], whatever the query parameters:
    nothing is built. *)
Theorem get_network_missing_file bufferMeters minStopsInArea
    a b c d log pre f post :
  gtfs_files = pre ++ f :: post →
  Forall (readable path_join path_exists read_csv gtfs_dir) pre →
  path_exists (path_join gtfs_dir f) = false →
  handler bufferMeters minStopsInArea a b c d log
    = (HTTPException 400 ("Missing GTFS file: " +:+ path_join gtfs_dir f),
       log ++ (path_join gtfs_dir <$> pre)).
Proof.
  intros Hfiles Hpre Hf. unfold get_network.
  by rewrite (load_first_missing _ _ _ _ _ _ _ _ Hfiles Hpre Hf).
Qed.

(** X21.  The box is used only when its four bounds are all given: with any
    of them absent the response is that of a request without box, the other
    bounds being ignored. *)
Theorem get_network_partial_box bufferMeters minStopsInArea a b c d log :
  a = None ∨ b = None ∨ c = None ∨ d = None →
  handler bufferMeters minStopsInArea a b c d log
    = handler bufferMeters minStopsInArea None None None None log.
Proof.
  intros Hnone. unfold get_network.
  destruct (load_gtfs _ _ _ _ _) as [[[e|e]|[[[[s r] t] st] sh]] log'];
    [done..|].
  destruct (build_aston_network _ _ _ _ _ _ _) as [net|]; [|done].
  destruct a, b, c, d; try done; naive_solver.
Qed.

(** X22.  With a full box, a response body is the radius build of the feed
    passed through the filter with clipping on.  Each of its stops lies within
    the buffer of the centre and inside the box; each of its routes has at
    least [minStopsInArea] entries of [stopIds] that are ids of stops of the
    body; the body is clean and its [meta] reads back the filter. *)
Theorem get_network_full_box bufferMeters minStopsInArea a b c d log out log' :
  handler bufferMeters minStopsInArea (Some a) (Some b) (Some c) (Some d) log
    = (Ok200 out, log') →
  let box := {| minLat := a; minLng := b; maxLat := c; maxLng := d |} in
  (∃ net,
     handler bufferMeters minStopsInArea None None None None log
       = (Ok200 net, log') ∧
     out = filter_network_by_bbox net box minStopsInArea true) ∧
  Forall (λ s, stop_in_region None bufferMeters s ∧
               stop_in_region (Some box) bufferMeters s) (stops out) ∧
  Forall (λ r, (minStopsInArea ≤ served_stops out r)%Z) (routes out) ∧
  clean_network out ∧
  dict_get "filter" (meta out) = Some (MFilter box minStopsInArea true).
Proof.
  intros Hget box. unfold get_network in Hget.
  destruct (load_gtfs _ _ _ _ _) as [[[e|e]|[[[[s r] t] st] sh]] log1] eqn:Hl;
    [done..|].
  destruct (build_aston_network _ _ _ _ _ _ _) as [net|] eqn:Hb; [|done].
  injection Hget as <- <-.
  pose proof (built_stops_in_radius _ _ _ _ _ _ _ Hb) as Hregion.
  pose proof (built_network_clean _ _ _ _ _ _ _ _ Hb) as Hclean.
  split_and!.
  - exists net. unfold get_network. by rewrite Hl, Hb.
  - rewrite filter_network_by_bbox_spec. simpl.
    apply Forall_forall. intros s0 Hs.
    apply list_elem_of_filter in Hs as [Hin Hs].
    rewrite Forall_forall in Hregion. specialize (Hregion s0 Hs).
    split; [done|].
    destruct Hregion as (lat & lng & Hlat & Hlng & _).
    exists lat, lng. split; [done|]. split; [done|].
    unfold stop_in_box, stop_coords in Hin. rewrite Hlat, Hlng in Hin.
    simpl in Hin. apply Is_true_true in Hin.
    unfold in_bbox in Hin. rewrite !andb_true_iff in Hin. simpl. tauto.
  - rewrite filter_network_by_bbox_spec. simpl.
    apply Forall_fmap, Forall_forall. intros r0 Hr.
    apply list_elem_of_filter in Hr as [Hm _].
    unfold compose, served_stops. simpl.
    rewrite copy_route_stopIds, <-list_fmap_compose.
    exact Hm.
  - by apply filter_keeps_clean.
  - rewrite filter_network_by_bbox_spec. simpl. apply dict_get_update_eq.
Qed.
End ServerFacts.

(** * Fetching the feed *)

(** X23.  A content looks like a ZIP archive exactly when it starts with
    the two bytes P and K; the empty content and a single byte do not. *)
Theorem looks_like_zip_spec (content : list Byte.byte) :
  _looks_like_zip content = true ↔
  ∃ rest, content = Byte.x50 :: Byte.x4b :: rest.
Proof.
  unfold _looks_like_zip. rewrite andb_true_iff, !bool_decide_eq_true. split.
  - intros [Hlen Htake].
    destruct content as [|b1 [|b2 rest]]; simpl in *; try lia.
    injection Htake as -> ->. by exists rest.
  - intros [rest ->]. simpl. split; [lia | done].
Qed.

Section FetchFacts.
Context {Exn : Type}.
Variable requests_get : string → list (string * string) → bool → Exn + Response.
Variable HTTPError : Response → Exn.
Variable mkdir_parent : string → option Exn.
Variable open_wb : string → option Exn.
Variable file_write : string → list Byte.byte → option (Exn * list Byte.byte).

#[local] Abbreviation attempt :=
  (attempt_outcome requests_get HTTPError open_wb file_write).
#[local] Abbreviation outcome out a :=
  (attempt_outcome requests_get HTTPError open_wb file_write out a).1.
#[local] Abbreviation loop :=
  (download_loop requests_get HTTPError open_wb file_write).
#[local] Abbreviation download :=
  (download_gtfs_zip requests_get HTTPError mkdir_parent open_wb file_write).
#[local] Abbreviation left_file :=
  (last_file requests_get HTTPError open_wb file_write).

Lemma attempt_outcome_inr out url params verify body :
  outcome out (url, params, verify) = inr body →
  ∃ r, requests_get url params verify = inr r ∧
       status_code r ≠ 403%Z ∧ ¬ (400 ≤ status_code r < 600)%Z ∧
       _looks_like_zip (content r) = true ∧
       open_wb out = None ∧ file_write out (content r) = None ∧
       body = content r ∧
       (attempt out (url, params, verify)).2 = Some body.
Proof.
  unfold attempt_outcome.
  destruct (requests_get url params verify) as [e|r]; [done|].
  case_bool_decide as H403; [done|].
  case_bool_decide as Hstatus; [done|].
  destruct (_looks_like_zip (content r)) eqn:Hzip; [|done]. simpl.
  destruct (open_wb out) eqn:Hopen; [done|].
  destruct (file_write out (content r)) as [[e partial]|] eqn:Hwrite; [done|].
  simpl. intros [= <-]. by exists r.
Qed.

(** A rejected attempt leaves bytes in the file only when the file opened
    and the write raised. *)
Lemma attempt_outcome_inl_file out url params verify err bytes :
  attempt out (url, params, verify) = (inl err, Some bytes) →
  ∃ r e, requests_get url params verify = inr r ∧
         status_code r ≠ 403%Z ∧ ¬ (400 ≤ status_code r < 600)%Z ∧
         _looks_like_zip (content r) = true ∧
         open_wb out = None ∧ file_write out (content r) = Some (e, bytes) ∧
         err = Caught e.
Proof.
  unfold attempt_outcome.
  destruct (requests_get url params verify) as [e|r]; [done|].
  case_bool_decide as H403; [done|].
  case_bool_decide as Hstatus; [done|].
  destruct (_looks_like_zip (content r)) eqn:Hzip; [|done]. simpl.
  destruct (open_wb out) eqn:Hopen; [done|].
  destruct (file_write out (content r)) as [[e partial]|] eqn:Hwrite; [|done].
  intros [= <- <-]. by exists r, e.
Qed.

Lemma attempt_outcome_no_write out a :
  (∀ bytes, file_write out bytes = None) →
  (∃ err, outcome out a = inl err) → (attempt out a).2 = None.
Proof.
  intros Hwrite [err Herr]. destruct a as [[url params] verify].
  destruct (attempt out (url, params, verify)) as [res [bytes|]] eqn:Ha;
    [|done].
  simpl in Herr. subst res.
  apply attempt_outcome_inl_file in Ha as (r & e & _ & _ & _ & _ & _ & Hw & _).
  by rewrite Hwrite in Hw.
Qed.

Lemma files_after_insert out body file (fs : gmap string (list Byte.byte)) :
  <[out := body]> (files_after out file fs) = <[out := body]> fs.
Proof. destruct file; simpl; [apply insert_insert_eq | done]. Qed.

Lemma files_after_last out (f : Attempt → option (list Byte.byte)) attempts
    (fs : gmap string (list Byte.byte)) :
  foldl (λ fs a, files_after out (f a) fs) fs attempts
    = files_after out (last (omap f attempts)) fs.
Proof.
  revert fs. induction attempts as [|a rest IH]; intros fs; [done|].
  simpl foldl. rewrite IH.
  change (omap f (a :: rest))
    with (match f a with Some y => y :: omap f rest | None => omap f rest end).
  destruct (f a) as [x|]; [|done].
  rewrite last_cons. destruct (last (omap f rest)); simpl; [|done].
  apply insert_insert_eq.
Qed.

Lemma download_loop_spec attempts out last_err fs log :
  (∃ i a body,
     attempts !! i = Some a ∧ outcome out a = inr body ∧
     Forall (λ a', ∃ err, outcome out a' = inl err) (take i attempts) ∧
     loop attempts out last_err fs log
       = (Downloaded out, <[out := body]> fs, log ++ take (S i) attempts)) ∨
  (Forall (λ a', ∃ err, outcome out a' = inl err) attempts ∧
   ∃ err, loop attempts out last_err fs log
            = (DownloadFailed err,
               foldl (λ fs a, files_after out (attempt out a).2 fs) fs attempts,
               log ++ attempts) ∧
          match last attempts with
          | Some a => ∃ e, err = Some e ∧ outcome out a = inl e
          | None => err = last_err
          end).
Proof.
  revert last_err fs log.
  induction attempts as [|a rest IH]; intros last_err fs log.
  - right. split; [constructor|]. exists last_err. by rewrite app_nil_r.
  - simpl. destruct (attempt out a) as [[err|body] file] eqn:Ha.
    + destruct (IH (Some err) (files_after out file fs) (log ++ [a]))
        as [(i & a' & body & Hi & Hok & Hrej & Hloop)|(Hrej & e & Hloop & Hlast)].
      * left. exists (S i), a', body. split_and!; try done.
        -- simpl. constructor; [|done]. exists err. by rewrite Ha.
        -- rewrite Hloop, files_after_insert. simpl. by rewrite <-app_assoc.
      * right. split; [constructor; [|done]; exists err; by rewrite Ha|].
        exists e. split; [by rewrite Hloop, <-app_assoc|].
        destruct rest as [|a2 rest].
        { simpl in *. subst e. exists err. by rewrite Ha. }
        change (last (a :: a2 :: rest)) with (last (a2 :: rest)).
        destruct (last (a2 :: rest)) eqn:Hl; [exact Hlast|].
        by apply last_None in Hl.
    + left. exists 0%nat, a, body. split_and!; try done.
      * by rewrite Ha.
      * destruct a as [[url params] verify].
        assert (Hok : outcome out (url, params, verify) = inr body)
          by (by rewrite Ha).
        apply attempt_outcome_inr in Hok as (_ & _ & _ & _ & _ & _ & _ & _ & Hf).
        rewrite Ha in Hf. simpl in Hf. by subst file.
Qed.

(** X24.  When the download returns, it returns the path it was given, and
    the file at that path holds the body of a response that was not 403, not
    an HTTP error, and starts with PK; every attempt before that one was
    rejected, and no request follows it. *)
Theorem download_returns_first_zip app_id app_key out fs log path fs' log' :
  download app_id app_key out fs log = (Downloaded path, fs', log') →
  path = out ∧ mkdir_parent out = None ∧
  ∃ i url params verify r,
    attempts_of app_id app_key !! i = Some (url, params, verify) ∧
    requests_get url params verify = inr r ∧
    status_code r ≠ 403%Z ∧ ¬ (400 ≤ status_code r < 600)%Z ∧
    (∃ rest, content r = Byte.x50 :: Byte.x4b :: rest) ∧
    Forall (λ a, ∃ err, outcome out a = inl err)
      (take i (attempts_of app_id app_key)) ∧
    fs' = <[out := content r]> fs ∧
    log' = log ++ take (S i) (attempts_of app_id app_key).
Proof.
  unfold download_gtfs_zip.
  destruct (mkdir_parent out) as [e|] eqn:Hmk; [done|].
  destruct (download_loop_spec (attempts_of app_id app_key) out None fs log)
    as [(i & a & body & Hi & Hok & Hrej & Hloop)|(_ & err & Hloop & _)];
    rewrite Hloop; intros [= <- <- <-].
  destruct a as [[url params] verify].
  apply attempt_outcome_inr in Hok
    as (r & Hget & H403 & Hst & Hzip & _ & _ & -> & _).
  split; [done|]. split; [done|].
  exists i, url, params, verify, r. split_and!; try done.
  unfold _looks_like_zip in Hzip.
  apply andb_true_iff in Hzip as [Hlen Htake].
  apply bool_decide_eq_true in Hlen, Htake.
  destruct (content r) as [|b1 [|b2 rest]]; simpl in *; try lia.
  injection Htake as -> ->. by exists rest.
Qed.

(** X25.  When the download does not return, no file other than the one at
    the path is touched, and that one holds what the last attempt that opened
    it left there: a rejected attempt leaves bytes only when the file opened
    and the write raised, so the files are as they were when no write raises.
    After the final [RuntimeError] the four requests were made, in the order
    HTTP with both keys, HTTP with the id, HTTPS with both keys, HTTPS with
    the id, each was rejected, and the error reported is that of the last
    one; when [mkdir] raises, no request is made at all. *)
Theorem download_failure_files app_id app_key out fs log res fs' log' :
  download app_id app_key out fs log = (res, fs', log') →
  match res with
  | Downloaded _ => True
  | DownloadFailed last_err =>
      fs' = files_after out (left_file out (attempts_of app_id app_key)) fs ∧
      (∀ p, p ≠ out → fs' !! p = fs !! p) ∧
      (∀ a err bytes,
         a ∈ attempts_of app_id app_key →
         attempt out a = (inl err, Some bytes) →
         ∃ r e, requests_get a.1.1 a.1.2 a.2 = inr r ∧
                _looks_like_zip (content r) = true ∧ open_wb out = None ∧
                file_write out (content r) = Some (e, bytes) ∧
                err = Caught e) ∧
      ((∀ bytes, file_write out bytes = None) → fs' = fs) ∧
      log' = log ++ attempts_of app_id app_key ∧
      Forall (λ a, ∃ err, outcome out a = inl err) (attempts_of app_id app_key) ∧
      ∃ err, last_err = Some err ∧
             outcome out (TFWM_GTFS_URL_HTTPS, [("app_id", app_id)], false)
               = inl err
  | MkdirRaised e => fs' = fs ∧ log' = log ∧ mkdir_parent out = Some e
  end.
Proof.
  unfold download_gtfs_zip.
  destruct (mkdir_parent out) as [e|] eqn:Hmk; [by intros [= <- <- <-]|].
  destruct (download_loop_spec (attempts_of app_id app_key) out None fs log)
    as [(i & a & body & Hi & Hok & Hrej & Hloop)|(Hrej & err & Hloop & Hlast)];
    rewrite Hloop; intros Heq.
  { by assert (res = Downloaded out) as -> by congruence. }
  rewrite (files_after_last out (λ a, (attempt out a).2)) in Heq.
  fold (left_file out (attempts_of app_id app_key)) in Heq.
  assert (res = DownloadFailed err) as -> by congruence.
  assert (fs' = files_after out (left_file out (attempts_of app_id app_key)) fs)
    as -> by congruence.
  assert (log' = log ++ attempts_of app_id app_key) as -> by congruence.
  clear Heq Hloop. cbv beta iota.
  split_and!; try done.
  - intros p Hp. unfold last_file.
    destruct (last (omap _ _)); cbn [files_after];
      [by rewrite lookup_insert_ne | done].
  - intros [[url params] verify] err' bytes _ Ha.
    apply attempt_outcome_inl_file in Ha
      as (r & e & Hget & _ & _ & Hzip & Hopen & Hwrite & ->).
    by exists r, e.
  - intros Hwrite. unfold last_file.
    assert (Hnone : omap (λ a, (attempt out a).2) (attempts_of app_id app_key)
                    = []).
    { clear Hlast. induction Hrej as [|a rest Ha _ IH]; [done|].
      change (omap ?f (a :: rest))
        with (match f a with Some y => y :: omap f rest | None => omap f rest end).
      cbv beta. by rewrite (attempt_outcome_no_write out a Hwrite Ha). }
    by rewrite Hnone.
Qed.

(** X26.  The first attempt whose response is accepted decides: when
    [mkdir] does not raise, the attempts before it are rejected and it is
    accepted with some body, the download returns the path, with that body in
    the file and the requests up to that attempt made. *)
Theorem download_takes_first_accepted app_id app_key out fs log i a body :
  mkdir_parent out = None →
  attempts_of app_id app_key !! i = Some a →
  Forall (λ a', ∃ err, outcome out a' = inl err)
    (take i (attempts_of app_id app_key)) →
  outcome out a = inr body →
  download app_id app_key out fs log
    = (Downloaded out, <[out := body]> fs,
       log ++ take (S i) (attempts_of app_id app_key)).
Proof.
  intros Hmk Hi Hrej Hok. unfold download_gtfs_zip. rewrite Hmk.
  destruct (download_loop_spec (attempts_of app_id app_key) out None fs log)
    as [(j & a' & body' & Hj & Hok' & Hrej' & Hloop)|(Hall & _)].
  - destruct (Nat.lt_trichotomy i j) as [Hlt|[->|Hlt]].
    + exfalso. rewrite Forall_forall in Hrej'.
      destruct (Hrej' a) as [err Herr]; [|congruence].
      apply list_elem_of_lookup. exists i. by rewrite lookup_take_lt.
    + rewrite Hloop. congruence.
    + exfalso. rewrite Forall_forall in Hrej.
      destruct (Hrej a') as [err Herr]; [|congruence].
      apply list_elem_of_lookup. exists j. by rewrite lookup_take_lt.
  - exfalso. rewrite Forall_forall in Hall.
    destruct (Hall a) as [err Herr]; [|congruence].
    by eapply list_elem_of_lookup_2.
Qed.
End FetchFacts.

(** * The two distance functions *)

Section GeometryFacts.
Context {rt : PyRuntime}.

(** X27.  [haversine_m] and [haversine_km] are defined on the same pairs of
    points and are the same angle, scaled by twice the radius of the Earth in
    metres and in kilometres. *)
Theorem haversine_m_km a b :
  (is_Some (haversine_m a b) ↔ is_Some (haversine_km a b)) ∧
  ∀ m k, haversine_m a b = Some m → haversine_km a b = Some k →
    ∃ t, m = (2 * 6371000.0 * t)%float ∧ k = (2 * 6371.0 * t)%float.
Proof.
  destruct a as [lat1 lon1], b as [lat2 lon2].
  unfold haversine_m, haversine_km.
  destruct (math_sin (math_radians (lat2 - lat1) / 2)) as [s1|];
    [|split; [split; intros [? [=]] | intros ? ? [=]]].
  cbn [mbind option_bind].
  destruct (float_pow s1 2) as [p1|];
    [|split; [split; intros [? [=]] | intros ? ? [=]]].
  cbn [mbind option_bind].
  destruct (math_cos (math_radians lat1)) as [c1|];
    [|split; [split; intros [? [=]] | intros ? ? [=]]].
  cbn [mbind option_bind].
  destruct (math_cos (math_radians lat2)) as [c2|];
    [|split; [split; intros [? [=]] | intros ? ? [=]]].
  cbn [mbind option_bind].
  destruct (math_sin (math_radians (lon2 - lon1) / 2)) as [s2|];
    [|split; [split; intros [? [=]] | intros ? ? [=]]].
  cbn [mbind option_bind].
  destruct (float_pow s2 2) as [p2|];
    [|split; [split; intros [? [=]] | intros ? ? [=]]].
  cbn [mbind option_bind].
  destruct (math_sqrt (p1 + c1 * c2 * p2)) as [q|];
    [|split; [split; intros [? [=]] | intros ? ? [=]]].
  cbn [mbind option_bind].
  destruct (math_asin q) as [t|];
    [|split; [split; intros [? [=]] | intros ? ? [=]]].
  cbn [mbind option_bind].
  split; [split; intros _; by eexists|].
  intros m k [= <-] [= <-]. by exists t.
Qed.
End GeometryFacts.

Section CandidateTrips.
Context {rt : PyRuntime}.

(** X28.  The candidate trips of a build are the rows of the trips table,
    with their ids as strings, that have a stop-time naming some row of the
    stops table, whether that stop passes the region test or not. *)
Theorem candidate_trips_are_served (stop_rows : list StopRow)
    (st_rows : list StopTimeRow) (trip_rows : list TripRow) (t' : TripRow) :
  t' ∈ candidate_trips (near_trip_ids (all_stop_ids stop_rows) st_rows)
         trip_rows ↔
  ∃ t, t ∈ trip_rows ∧
       t' = {| trip_id := VStr (py_str (trip_id t));
               trip_route_id := VStr (py_str (trip_route_id t));
               trip_shape_id := trip_shape_id t |} ∧
       ∃ x r, x ∈ st_rows ∧ r ∈ stop_rows ∧
              py_str (st_trip_id x) = py_str (trip_id t) ∧
              py_str (st_stop_id x) = py_str (stop_id r).
Proof.
  rewrite candidate_trips_eq, list_elem_of_fmap.
  setoid_rewrite candidate_trips_spec.
  unfold all_stop_ids. setoid_rewrite elem_of_list_to_set.
  setoid_rewrite list_elem_of_fmap. naive_solver.
Qed.
End CandidateTrips.

(** * Worked examples

    The theorems above, run with [example_runtime] on the example feeds. *)

#[local] Existing Instance example_runtime.

Lemma build_stops_in_region_witness :
  ∃ net,
    build_aston_network (rt := example_runtime)
      ThroughRoute.stops_table ThroughRoute.routes_table
      ThroughRoute.trips_table ThroughRoute.stop_times_table
      ThroughRoute.shapes_table 1000 None = Some net ∧
    Forall (stop_in_region (rt := example_runtime) None 1000) (stops net).
Proof.
  eexists. split; [vm_compute; reflexivity|].
  apply (build_stops_in_region (rt := example_runtime)
           ThroughRoute.stops_table ThroughRoute.routes_table
           ThroughRoute.trips_table ThroughRoute.stop_times_table
           ThroughRoute.shapes_table 1000 None).
  vm_compute. reflexivity.
Defined.

Lemma wrapped_rows_eval :
  filter (λ x, py_str (st_trip_id x) = "T1") WrappedSequence.stop_times_table
    = [WrappedSequence.row_a; WrappedSequence.row_b].
Proof. vm_compute. reflexivity. Qed.

(** The order of C4 is that of the 64-bit cast, not that of the integers:
    with sequence numbers 2^63 for A and 1 for B the column is uint64, the
    cast wraps 2^63 to -2^63, and the route leaves with A before B, which is
    not the ascending order of the sequence numbers. *)
Lemma wrapped_sequence_counterexample :
  ∃ net,
    build_aston_network FarRoute.stops_table FarRoute.routes_table
      FarRoute.trips_table WrappedSequence.stop_times_table
      FarRoute.shapes_table 1500 (Some FarRoute.box) = Some net ∧
    r_stopIds <$> routes net = [VStr <$> ["A"; "B"]] ∧
    ¬ is_integer_sequence WrappedSequence.stop_times_table "T1" ["A"; "B"].
Proof.
  eexists. split; [vm_compute; reflexivity|].
  split; [vm_compute; reflexivity|].
  intros (rows & Hperm & Hcast & Hsorted & Hids).
  rewrite wrapped_rows_eval in Hperm. symmetry in Hperm.
  apply Permutation_length_2_inv in Hperm as [Hrows|Hrows];
    destruct rows as [|[z1 x1] [|[z2 x2] [|? ?]]]; try discriminate Hrows;
    injection Hrows as -> ->.
  - apply Forall_cons in Hcast as [H1 Hcast].
    apply Forall_cons in Hcast as [H2 _].
    injection H1 as <-. injection H2 as <-.
    apply Sorted_inv in Hsorted as [_ Hhd].
    apply HdRel_inv in Hhd. unfold seq_le in Hhd. simpl in Hhd. lia.
  - discriminate Hids.
Qed.

Lemma route_stop_ids_full_sequence_witness :
  ∃ net,
    build_aston_network (rt := example_runtime)
      ThroughRoute.stops_table ThroughRoute.routes_table
      ThroughRoute.trips_table ThroughRoute.stop_times_table
      ThroughRoute.shapes_table 1000 None = Some net ∧
    Forall (has_full_sequence (rt := example_runtime)
              ThroughRoute.stops_table ThroughRoute.routes_table
              ThroughRoute.trips_table ThroughRoute.stop_times_table)
      (routes net).
Proof.
  eexists. split; [vm_compute; reflexivity|].
  apply (route_stop_ids_full_sequence (rt := example_runtime)
           ThroughRoute.stops_table ThroughRoute.routes_table
           ThroughRoute.trips_table ThroughRoute.stop_times_table
           ThroughRoute.shapes_table 1000 None).
  vm_compute. reflexivity.
Defined.

Lemma far_route_is_emitted_witness :
  ∃ net,
    build_aston_network (rt := example_runtime)
      FarRoute.stops_table FarRoute.routes_table FarRoute.trips_table
      FarRoute.stop_times_table FarRoute.shapes_table 1500 (Some FarRoute.box)
      = Some net ∧
    stops net = [FarRoute.near_stop] ∧
    routes net = [FarRoute.far_route] ∧
    Forall (λ r, Forall (λ sid, Forall (λ s, s_id s ≠ sid) (stops net))
                   (r_stopIds r)) (routes net).
Proof.
  eexists. split; [vm_compute; reflexivity|].
  apply (far_route_is_emitted (rt := example_runtime) 1500).
  vm_compute. reflexivity.
Defined.

Lemma far_trip_is_representative_witness :
  ∃ net,
    build_aston_network (rt := example_runtime)
      FarRoute.stops_table FarRoute.routes_table TwoTrips.trips_table
      TwoTrips.stop_times_table FarRoute.shapes_table 1500 (Some FarRoute.box)
      = Some net ∧
    head (filter (λ t, py_str (rt := example_runtime) (trip_route_id t) = "R1" ∧
                       py_str (rt := example_runtime) (trip_id t) ∈
                         near_trip_ids (rt := example_runtime)
                           (list_to_set ((λ s, py_str (s_id s)) <$> stops net))
                           TwoTrips.stop_times_table)
            TwoTrips.trips_table) = Some TwoTrips.trip1 ∧
    r_stopIds <$> routes net = [[VStr "B"]].
Proof.
  eexists. split; [vm_compute; reflexivity|].
  pose proof (far_trip_is_representative (rt := example_runtime) 1500 _
                ltac:(vm_compute; reflexivity)) as (_ & Hfirst & _ & _ & _ & Hr).
  split; [exact Hfirst | exact Hr].
Defined.

Lemma far_trip_is_candidate_witness :
  ∃ net,
    build_aston_network (rt := example_runtime)
      FarRoute.stops_table FarRoute.routes_table FarRoute.trips_table
      FarRoute.stop_times_table FarRoute.shapes_table 1500 (Some FarRoute.box)
      = Some net ∧
    candidate_trips (rt := example_runtime)
      (near_trip_ids (all_stop_ids FarRoute.stops_table)
         FarRoute.stop_times_table) FarRoute.trips_table
      = [ {| trip_id := VStr "T1"; trip_route_id := VStr "R1";
             trip_shape_id := VFloat nan |} ] ∧
    filter (λ x, py_str (rt := example_runtime) (st_stop_id x) ∈
                 (list_to_set ((λ s, py_str (s_id s)) <$> stops net)
                    : gset string))
      FarRoute.stop_times_table = [].
Proof.
  eexists. split; [vm_compute; reflexivity|].
  pose proof (far_trip_is_candidate (rt := example_runtime) 1500 _
                ltac:(vm_compute; reflexivity)) as (Hc & _ & Hn).
  split; [exact Hc | exact Hn].
Defined.

Lemma filter_route_survival_witness :
  retained_count (rt := example_runtime) FarRoute.box SmallNetwork.network
    SmallNetwork.route9 = 2%Z ∧
  routes (filter_network_by_bbox (rt := example_runtime)
            {| stops := stops SmallNetwork.network;
               routes := [SmallNetwork.route9];
               meta := meta SmallNetwork.network |} FarRoute.box 2 true)
    = [copy_route (rt := example_runtime) FarRoute.box true SmallNetwork.route9].
Proof.
  split; [vm_compute; reflexivity|].
  apply (filter_route_survival (rt := example_runtime)
           SmallNetwork.network FarRoute.box 2 true).
  vm_compute. reflexivity.
Defined.

(** Two stops and a radius of 1000 metres: one stop is returned. *)
Example radius_keeps_near_stop :
  stops <$> build_aston_network FarRoute.stops_table FarRoute.routes_table
              FarRoute.trips_table FarRoute.stop_times_table
              FarRoute.shapes_table 1000 None
    = Some [FarRoute.near_stop].
Proof. vm_compute. reflexivity. Qed.

(** A trip through A, B, C with B alone near the centre: the route is kept
    with its three stops, in the order of the sequence numbers, and with the
    points of its shape in the order of theirs. *)
Example through_route_keeps_all_stops :
  (λ net, (λ r, (r_id r, r_stopIds r, r_shape r)) <$> routes net)
    <$> build_aston_network ThroughRoute.stops_table ThroughRoute.routes_table
          ThroughRoute.trips_table ThroughRoute.stop_times_table
          ThroughRoute.shapes_table 1000 None
    = Some [ (VStr "9", [VStr "1"; VStr "2"; VStr "3"],
              [ [VFloat 53.5; VFloat (-2.5)];
                [VFloat 52.49; VFloat (-1.89)];
                [VFloat 51.5; VFloat (-0.1)] ]) ].
Proof. vm_compute. reflexivity. Qed.

(** A threshold of 3 drops a route with two stops in the box and keeps it
    once the box holds a third. *)
Example threshold_three :
  r_id <$> routes (filter_network_by_bbox SmallNetwork.network FarRoute.box 3 true)
    = [] ∧
  r_id <$> routes (filter_network_by_bbox SmallNetwork.network
                     SmallNetwork.wide_box 3 true)
    = [VStr "9"].
Proof. split; vm_compute; reflexivity. Qed.

(** The clipped shape of route 9 has two points: the malformed and the
    short points are skipped, the point with a third coordinate loses it. *)
Example clip_route9 :
  clip_shape FarRoute.box (r_shape SmallNetwork.route9)
    = [ [VFloat 52.49; VFloat (-1.89)]; [VFloat 52.5; VFloat (-2)] ].
Proof. vm_compute. reflexivity. Qed.

(** A shape outside the box keeps all its points. *)
Example outside_shape_is_kept :
  r_shape (copy_route FarRoute.box true SmallNetwork.outside_route)
    = r_shape SmallNetwork.outside_route.
Proof. vm_compute. reflexivity. Qed.

(** The stop without latitude is skipped, not an error. *)
Example malformed_stop_is_skipped :
  s_id <$> stops (filter_network_by_bbox SmallNetwork.network
                    SmallNetwork.wide_box 3 true)
    = [VInt 1; VInt 2; VStr "4"].
Proof. vm_compute. reflexivity. Qed.

(** ** The further properties, run on the examples *)

Lemma build_stops_exact_witness :
  ∃ net,
    build_aston_network NumericStops.stops_table ThroughRoute.routes_table
      ThroughRoute.trips_table ThroughRoute.stop_times_table
      ThroughRoute.shapes_table 1000 None = Some net ∧
    ∃ bm, float_of_int 1000 = Some bm ∧
          stops net = omap (region_stop
                              (rows_upcast NumericStops.stops_table) None
                              (bm / 1000.0)%float)
                        NumericStops.stops_table.
Proof.
  eexists. split; [vm_compute; reflexivity|].
  apply (build_stops_exact (rt := example_runtime)
           NumericStops.stops_table ThroughRoute.routes_table
           ThroughRoute.trips_table ThroughRoute.stop_times_table
           ThroughRoute.shapes_table 1000 None).
  vm_compute. reflexivity.
Defined.

(** The rows of an all-numeric stops frame are read as floats: the stop
    with id 1 and name 101 leaves with the prints of 1.0 and 101.0, while the
    set of stop ids, made from the column, holds the print of the integer. *)
Example numeric_stops_print_as_floats :
  stops <$> build_aston_network NumericStops.stops_table
              ThroughRoute.routes_table ThroughRoute.trips_table
              ThroughRoute.stop_times_table ThroughRoute.shapes_table 1000 None
    = Some [ {| s_id := VStr (float_repr 1); s_name := VStr (float_repr 101);
                s_lat := VFloat 52.49; s_lng := VFloat (-1.89) |} ] ∧
  all_stop_ids NumericStops.stops_table = {[ "1"; "2" ]}.
Proof. split; vm_compute; reflexivity. Qed.

Lemma meta_counts_after_filter_witness :
  ∃ net,
    Run.through_build ThroughRoute.stop_times_table 1000 None = Some net ∧
    let out := filter_network_by_bbox net SmallNetwork.wide_box 3 true in
    ∃ ns nr : nat,
      dict_get "stopsReturned" (meta net) = Some (MVal (VInt (Z.of_nat ns))) ∧
      dict_get "routesReturned" (meta net) = Some (MVal (VInt (Z.of_nat nr))) ∧
      ns = length (stops net) ∧ nr = length (routes net) ∧
      ns ≤ length ThroughRoute.stops_table ∧
      nr ≤ length ThroughRoute.routes_table ∧
      dict_get "stopsReturned" (meta out) = Some (MVal (VInt (Z.of_nat ns))) ∧
      dict_get "routesReturned" (meta out) = Some (MVal (VInt (Z.of_nat nr))) ∧
      length (stops out) ≤ ns ∧ length (routes out) ≤ nr.
Proof.
  eexists. split; [vm_compute; reflexivity|].
  apply (meta_counts_after_filter (rt := example_runtime)
           ThroughRoute.stops_table ThroughRoute.routes_table
           ThroughRoute.trips_table ThroughRoute.stop_times_table
           ThroughRoute.shapes_table 1000 None _ SmallNetwork.wide_box 3 true).
  vm_compute. reflexivity.
Defined.

(** The route built from [ThroughRoute] has one stop in the wide box: a
    threshold of 3 drops it, and the count of routes still reads 1. *)
Example stale_route_count :
  (λ net, let out := filter_network_by_bbox net SmallNetwork.wide_box 3 true in
          (length (routes out), dict_get "routesReturned" (meta out)))
    <$> Run.through_build ThroughRoute.stop_times_table 1000 None
    = Some (0, Some (MVal (VInt 1))).
Proof. vm_compute. reflexivity. Qed.

Lemma build_routes_in_table_order_witness :
  ∃ net,
    Run.through_build ThroughRoute.stop_times_table 1000 None = Some net ∧
    r_id <$> routes net
      `sublist_of` (λ row, VStr (py_str (route_id row)))
                     <$> ThroughRoute.routes_table.
Proof.
  eexists. split; [vm_compute; reflexivity|].
  apply (build_routes_in_table_order (rt := example_runtime)
           ThroughRoute.stops_table ThroughRoute.routes_table
           ThroughRoute.trips_table ThroughRoute.stop_times_table
           ThroughRoute.shapes_table 1000 None).
  vm_compute. reflexivity.
Defined.

Lemma build_route_static_fields_witness :
  ∃ net,
    Run.through_build ThroughRoute.stop_times_table 1000 None = Some net ∧
    Forall (λ r, (∃ row, row ∈ ThroughRoute.routes_table ∧ route_of_row row r) ∧
                 r_color r ≠ VStr "" ∧ r_headwayMins r = VNone)
      (routes net).
Proof.
  eexists. split; [vm_compute; reflexivity|].
  apply (build_route_static_fields (rt := example_runtime)
           ThroughRoute.stops_table ThroughRoute.routes_table
           ThroughRoute.trips_table ThroughRoute.stop_times_table
           ThroughRoute.shapes_table 1000 None).
  vm_compute. reflexivity.
Defined.

Lemma build_fails_on_bad_row_witness :
  Exists bad_stop_row BadFeed.stops_table ∧
  build_aston_network BadFeed.stops_table ThroughRoute.routes_table
    ThroughRoute.trips_table ThroughRoute.stop_times_table
    ThroughRoute.shapes_table 1000 None = None.
Proof.
  assert (Hbad : Exists (bad_stop_row (rt := example_runtime))
                   BadFeed.stops_table).
  { apply Exists_cons_hd. left. reflexivity. }
  split; [exact Hbad|].
  apply (build_fails_on_bad_row (rt := example_runtime)). by left.
Defined.

Lemma build_returns_witness :
  is_Some (Run.through_build ThroughRoute.stop_times_table 1000 None).
Proof.
  unfold Run.through_build.
  apply (build_returns (rt := example_runtime)
           ThroughRoute.stops_table ThroughRoute.routes_table
           ThroughRoute.trips_table ThroughRoute.stop_times_table
           ThroughRoute.shapes_table 1000 None).
  - vm_compute. eexists. reflexivity.
  - repeat (apply List.Forall_cons; [vm_compute; eexists; reflexivity|]).
    apply List.Forall_nil.
  - repeat (apply List.Forall_cons; [vm_compute; eexists; reflexivity|]).
    apply List.Forall_nil.
  - repeat (apply List.Forall_cons; [vm_compute; eexists; reflexivity|]).
    apply List.Forall_nil.
Defined.

Lemma build_no_routes_without_trips_witness :
  ∃ net, Run.through_build [] 1000 None = Some net ∧ routes net = [].
Proof.
  eexists. split; [vm_compute; reflexivity|].
  apply (build_no_routes_without_trips (rt := example_runtime)
           ThroughRoute.stops_table ThroughRoute.routes_table
           ThroughRoute.trips_table [] ThroughRoute.shapes_table 1000 None).
  - right. left. reflexivity.
  - vm_compute. reflexivity.
Defined.

Lemma build_routes_ignore_region_witness :
  ∃ net1 net2,
    Run.through_build ThroughRoute.stop_times_table 1000 None = Some net1 ∧
    Run.through_build ThroughRoute.stop_times_table 5 (Some SmallNetwork.wide_box)
      = Some net2 ∧
    stops net1 ≠ stops net2 ∧ routes net1 = routes net2.
Proof.
  eexists. eexists.
  split; [vm_compute; reflexivity|].
  split; [vm_compute; reflexivity|].
  split; [vm_compute; discriminate|].
  apply (build_routes_ignore_region (rt := example_runtime)
           ThroughRoute.stops_table ThroughRoute.routes_table
           ThroughRoute.trips_table ThroughRoute.stop_times_table
           ThroughRoute.shapes_table 1000 None _ 5 (Some SmallNetwork.wide_box));
    vm_compute; reflexivity.
Defined.

Lemma route_shape_is_trip_polyline_witness :
  ∃ net,
    Run.through_build ThroughRoute.stop_times_table 1000 None = Some net ∧
    Forall (has_trip_shape ThroughRoute.stops_table ThroughRoute.routes_table
              ThroughRoute.trips_table ThroughRoute.stop_times_table
              ThroughRoute.shapes_table) (routes net).
Proof.
  eexists. split; [vm_compute; reflexivity|].
  apply (route_shape_is_trip_polyline (rt := example_runtime)
           ThroughRoute.stops_table ThroughRoute.routes_table
           ThroughRoute.trips_table ThroughRoute.stop_times_table
           ThroughRoute.shapes_table 1000 None).
  vm_compute. reflexivity.
Defined.

Lemma built_routes_touch_stops_table_witness :
  ∃ net,
    Run.through_build ThroughRoute.stop_times_table 1000 None = Some net ∧
    Forall (λ r, ∃ sid, VStr sid ∈ r_stopIds r ∧
                        sid ∈ all_stop_ids ThroughRoute.stops_table)
      (routes net).
Proof.
  eexists. split; [vm_compute; reflexivity|].
  apply (built_routes_touch_stops_table (rt := example_runtime)
           ThroughRoute.stops_table ThroughRoute.routes_table
           ThroughRoute.trips_table ThroughRoute.stop_times_table
           ThroughRoute.shapes_table 1000 None).
  vm_compute. reflexivity.
Defined.

Lemma build_is_clean_witness :
  ∃ net,
    Run.through_build ThroughRoute.stop_times_table 1000 None = Some net ∧
    clean_network net.
Proof.
  eexists. split; [vm_compute; reflexivity|].
  apply (build_is_clean (rt := example_runtime)
           ThroughRoute.stops_table ThroughRoute.routes_table
           ThroughRoute.trips_table ThroughRoute.stop_times_table
           ThroughRoute.shapes_table 1000 None).
  vm_compute. reflexivity.
Defined.

Lemma filter_threshold_monotone_witness :
  (2 ≤ 3)%Z ∧
  routes (filter_network_by_bbox SmallNetwork.network FarRoute.box 3 true)
    `sublist_of`
    routes (filter_network_by_bbox SmallNetwork.network FarRoute.box 2 true).
Proof.
  split; [lia|].
  apply (filter_threshold_monotone (rt := example_runtime)
           SmallNetwork.network FarRoute.box 2 3 true).
  lia.
Defined.

Lemma filter_threshold_zero_keeps_all_witness :
  (0 ≤ 0)%Z ∧
  routes (filter_network_by_bbox SmallNetwork.network FarRoute.box 0 true)
    = copy_route FarRoute.box true <$> routes SmallNetwork.network.
Proof.
  split; [lia|].
  apply (filter_threshold_zero_keeps_all (rt := example_runtime)
           SmallNetwork.network FarRoute.box 0 true).
  lia.
Defined.

Lemma filter_nan_box_witness :
  nan_box Run.nan_bounds = true ∧
  stops (filter_network_by_bbox SmallNetwork.network Run.nan_bounds 1 true) = [].
Proof.
  split; [reflexivity|].
  apply (filter_nan_box (rt := example_runtime)
           SmallNetwork.network Run.nan_bounds 1 true).
  reflexivity.
Defined.

Lemma far_network_clean : clean_network Run.far_network.
Proof.
  split.
  - apply List.Forall_cons; [|apply List.Forall_nil].
    by exists "A", "Near", 52.49%float, (-1.89)%float.
  - apply List.Forall_cons; [|apply List.Forall_nil]. split.
    + apply List.Forall_cons; [by exists "B" | apply List.Forall_nil].
    + apply List.Forall_nil.
Defined.

Lemma filter_clean_network_witness :
  clean_network Run.far_network ∧
  clean_network
    (filter_network_by_bbox Run.far_network FarRoute.box 0 true).
Proof.
  split; [exact far_network_clean|].
  apply (filter_clean_network (rt := example_runtime)
           Run.far_network FarRoute.box 0 true).
  exact far_network_clean.
Defined.

Lemma broken_dir_readable :
  Forall (readable ExampleDir.path_join ExampleDir.path_exists
            ExampleDir.read_csv "broken") ["stops.txt"; "routes.txt"].
Proof.
  repeat (apply List.Forall_cons;
          [split; [reflexivity | eexists; reflexivity]|]).
  apply List.Forall_nil.
Defined.

Lemma load_gtfs_first_missing_witness :
  ExampleDir.path_exists (ExampleDir.path_join "broken" "trips.txt") = false ∧
  load_gtfs ExampleDir.path_join ExampleDir.path_exists ExampleDir.read_csv
    "broken" []
    = (inl (FileNotFoundError "Missing GTFS file: broken/trips.txt"),
       ["broken/stops.txt"; "broken/routes.txt"]).
Proof.
  split; [reflexivity|].
  apply (load_gtfs_first_missing ExampleDir.path_join ExampleDir.path_exists
           ExampleDir.read_csv "broken" [] ["stops.txt"; "routes.txt"]
           "trips.txt" ["stop_times.txt"; "shapes.txt"]).
  - reflexivity.
  - exact broken_dir_readable.
  - reflexivity.
Defined.

Lemma get_network_missing_file_witness :
  ExampleDir.path_exists (ExampleDir.path_join "broken" "trips.txt") = false ∧
  Run.handler "broken" 900 3 None None None None []
    = (HTTPException 400 "Missing GTFS file: broken/trips.txt",
       ["broken/stops.txt"; "broken/routes.txt"]).
Proof.
  split; [reflexivity|].
  apply (get_network_missing_file (rt := example_runtime)
           ExampleDir.path_join ExampleDir.path_exists ExampleDir.read_csv
           "broken" ExampleDir.stops_of ExampleDir.routes_of
           ExampleDir.trips_of ExampleDir.stop_times_of ExampleDir.shapes_of
           900 3 None None None None [] ["stops.txt"; "routes.txt"]
           "trips.txt" ["stop_times.txt"; "shapes.txt"]).
  - reflexivity.
  - exact broken_dir_readable.
  - reflexivity.
Defined.

Lemma get_network_partial_box_witness :
  Run.handler "gtfs_data" 200000 1 (Some 52.4%float) None (Some 52.6%float)
    None []
  = Run.handler "gtfs_data" 200000 1 None None None None [].
Proof.
  apply (get_network_partial_box (rt := example_runtime)
           ExampleDir.path_join ExampleDir.path_exists ExampleDir.read_csv
           "gtfs_data" ExampleDir.stops_of ExampleDir.routes_of
           ExampleDir.trips_of ExampleDir.stop_times_of ExampleDir.shapes_of
           200000 1 (Some 52.4%float) None (Some 52.6%float) None []).
  right. left. reflexivity.
Defined.

Lemma get_network_full_box_witness :
  ∃ out log',
    Run.handler "gtfs_data" 200000 1 (Some 52.4%float) (Some (-2.0)%float)
      (Some 52.6%float) (Some (-1.8)%float) [] = (Ok200 out, log') ∧
    Forall (λ r, (1 ≤ served_stops out r)%Z) (routes out) ∧
    clean_network out.
Proof.
  eexists. eexists. split; [vm_compute; reflexivity|].
  pose proof (get_network_full_box (rt := example_runtime)
           ExampleDir.path_join ExampleDir.path_exists ExampleDir.read_csv
           "gtfs_data" ExampleDir.stops_of ExampleDir.routes_of
           ExampleDir.trips_of ExampleDir.stop_times_of ExampleDir.shapes_of
           200000 1 52.4%float (-2.0)%float 52.6%float (-1.8)%float [] _ _
           ltac:(vm_compute; reflexivity)) as (_ & _ & Hroutes & Hclean & _).
  split; [exact Hroutes | exact Hclean].
Defined.

Lemma download_returns_first_zip_witness :
  ∃ path fs' log',
    Run.download true = (Downloaded path, fs', log') ∧
    path = "cache/tfwm_gtfs.zip" ∧
    ExampleWeb.mkdir_parent "cache/tfwm_gtfs.zip" = None.
Proof.
  eexists. eexists. eexists. split; [vm_compute; reflexivity|].
  pose proof (download_returns_first_zip ExampleWeb.requests_get
                ExampleWeb.HTTPError ExampleWeb.mkdir_parent ExampleWeb.open_wb
                ExampleWeb.file_write
                "id" "key" "cache/tfwm_gtfs.zip" ∅ [] _ _ _
                ltac:(vm_compute; reflexivity)) as (Hpath & Hmk & _).
  split; [exact Hpath | exact Hmk].
Defined.

Lemma download_failure_files_witness :
  ∃ err fs' log',
    Run.download_disk_full = (DownloadFailed err, fs', log') ∧
    (∀ p, p ≠ "cache/tfwm_gtfs.zip" →
          fs' !! p
            = ({[ "cache/tfwm_gtfs.zip" := ExampleWeb.page ]}
                 : gmap string (list Byte.byte)) !! p) ∧
    log' = attempts_of "id" "key".
Proof.
  eexists. eexists. eexists. split; [vm_compute; reflexivity|].
  pose proof (download_failure_files ExampleWeb.requests_get
                ExampleWeb.HTTPError ExampleWeb.mkdir_parent ExampleWeb.open_wb
                ExampleWeb.file_write_full
                "id" "key" "cache/tfwm_gtfs.zip"
                {[ "cache/tfwm_gtfs.zip" := ExampleWeb.page ]} [] _ _ _
                ltac:(vm_compute; reflexivity))
    as (_ & Hframe & _ & _ & Hlog & _).
  split; [exact Hframe | exact Hlog].
Defined.

(** With the disk full the download fails after its four requests, and the
    old file is gone: the path holds the two bytes the last write left. *)
Example disk_full_leaves_a_file :
  (λ res, (res.1.2 !! "cache/tfwm_gtfs.zip", res.2)) Run.download_disk_full
    = (Some [Byte.x50; Byte.x4b], attempts_of "id" "key").
Proof. vm_compute. reflexivity. Qed.

(** With the server down no file is opened: the files are as they were. *)
Example server_down_writes_nothing :
  (Run.download false).1.2 = ∅.
Proof. vm_compute. reflexivity. Qed.

Lemma download_takes_first_accepted_witness :
  Run.download true
    = (Downloaded "cache/tfwm_gtfs.zip",
       <["cache/tfwm_gtfs.zip" := ExampleWeb.archive]> ∅,
       attempts_of "id" "key").
Proof.
  apply (download_takes_first_accepted ExampleWeb.requests_get
           ExampleWeb.HTTPError ExampleWeb.mkdir_parent ExampleWeb.open_wb
           ExampleWeb.file_write
           "id" "key" "cache/tfwm_gtfs.zip" ∅ [] 3%nat
           (TFWM_GTFS_URL_HTTPS, [("app_id", "id")], false)
           ExampleWeb.archive).
  - reflexivity.
  - reflexivity.
  - repeat (apply List.Forall_cons; [eexists; vm_compute; reflexivity|]).
    apply List.Forall_nil.
  - vm_compute. reflexivity.
Defined.
